(** * The contact database API of intelmq-fody-backend (contactdb_api/serve.py)

    A shallow embedding of the organisation reader, the ASN and contact
    reconcilers, the organisation writers, the search endpoints and the
    batch commit endpoint, over a small model of the psycopg2 connection
    they all share.

    Python values are a JSON-like inductive type; a dictionary is an
    association list whose equality ([py_eqb], Python's [==]) ignores the
    order of its keys.  The database is a finite map from table names to
    tables; a table carries its column list, so that a statement naming a
    column the table does not have is rejected, as PostgreSQL does.  The
    schema itself is not part of serve.py: every definition below takes the
    tables as it finds them in the connection.  Column types, constraints
    and the adaptation of floats and booleans are not modelled. *)

From Stdlib Require Import ZArith String Ascii List Bool Lia.
From stdpp Require Import gmap strings.
Import ListNotations.
Local Open Scope string_scope.
Set Warnings "-register-all".
Local Open Scope Z_scope.
Local Open Scope list_scope.

(** ** Python values *)

Inductive pyval : Type :=
| PNone
| PInt (z : Z)
| PStr (s : string)
| PList (l : list pyval)
| PDict (d : list (string * pyval)).

Definition row : Type := list (string * pyval).

Fixpoint dict_get {A : Type} (k : string) (d : list (string * A)) : option A :=
  match d with
  | [] => None
  | (k', v) :: d' => if String.eqb k k' then Some v else dict_get k d'
  end.

Fixpoint dict_set {A : Type} (k : string) (v : A) (d : list (string * A))
  : list (string * A) :=
  match d with
  | [] => [(k, v)]
  | (k', v') :: d' =>
      if String.eqb k k' then (k, v) :: d' else (k', v') :: dict_set k v d'
  end.

Fixpoint dict_del {A : Type} (k : string) (d : list (string * A))
  : list (string * A) :=
  match d with
  | [] => []
  | (k', v') :: d' =>
      if String.eqb k k' then dict_del k d' else (k', v') :: dict_del k d'
  end.

Definition dict_has {A : Type} (k : string) (d : list (string * A)) : bool :=
  match dict_get k d with Some _ => true | None => false end.

(** [a == b] *)
Fixpoint py_eqb (a b : pyval) {struct a} : bool :=
  match a, b with
  | PNone, PNone => true
  | PInt x, PInt y => Z.eqb x y
  | PStr s, PStr t => String.eqb s t
  | PList l, PList m =>
      (fix go (l m : list pyval) {struct l} : bool :=
         match l, m with
         | [], [] => true
         | x :: l', y :: m' => py_eqb x y && go l' m'
         | _, _ => false
         end) l m
  | PDict d, PDict e =>
      Nat.eqb (length d) (length e)
      && (fix go (d : list (string * pyval)) {struct d} : bool :=
            match d with
            | [] => true
            | (k, v) :: d' =>
                match dict_get k e with
                | Some w => py_eqb v w
                | None => false
                end && go d'
            end) d
  | _, _ => false
  end.

(** [v is None] *)
Definition is_none (v : pyval) : bool :=
  match v with PNone => true | _ => false end.

(** ** Exceptions *)

(** [CommitError fmt args] stands for [CommitError(fmt.format( *args))]: the
    message is kept as its format string and its arguments. *)
Inductive exn : Type :=
| CommitError (fmt : string) (args : list pyval)
| KeyError (key : string)
| TypeError (what : string)
| IndexError
| DatabaseError (what : string).

Inductive outcome (A : Type) : Type :=
| Ok (a : A)
| Raise (e : exn).
Arguments Ok {A} a.
Arguments Raise {A} e.

Definition obind {A B : Type} (o : outcome A) (k : A -> outcome B) : outcome B :=
  match o with Ok a => k a | Raise e => Raise e end.

(** ** Operators on Python values *)

Fixpoint prefixb (p s : string) : bool :=
  match p, s with
  | EmptyString, _ => true
  | String a p', String b s' => Ascii.eqb a b && prefixb p' s'
  | String _ _, EmptyString => false
  end.

Fixpoint substringb (p s : string) : bool :=
  prefixb p s
  || match s with
     | EmptyString => false
     | String _ s' => substringb p s'
     end.

(** [for x in v] *)
Definition py_iter (v : pyval) : outcome (list pyval) :=
  match v with
  | PList l => Ok l
  | PStr s => Ok (map (fun a => PStr (String a EmptyString)) (list_ascii_of_string s))
  | PDict d => Ok (map (fun kv => PStr (fst kv)) d)
  | PNone => Raise (TypeError "'NoneType' object is not iterable")
  | PInt _ => Raise (TypeError "'int' object is not iterable")
  end.

(** [a in v] *)
Definition py_contains (a v : pyval) : outcome bool :=
  match v with
  | PList l => Ok (existsb (py_eqb a) l)
  | PStr s =>
      match a with
      | PStr p => Ok (substringb p s)
      | _ => Raise (TypeError "'in <string>' requires string as left operand")
      end
  | PDict d =>
      match a with
      | PStr k => Ok (dict_has k d)
      | PNone | PInt _ => Ok false
      | PList _ | PDict _ => Raise (TypeError "unhashable type")
      end
  | PNone => Raise (TypeError "argument of type 'NoneType' is not iterable")
  | PInt _ => Raise (TypeError "argument of type 'int' is not iterable")
  end.

(** [v[k]] for a string key *)
Definition py_getitem (v : pyval) (k : string) : outcome pyval :=
  match v with
  | PDict d =>
      match dict_get k d with
      | Some x => Ok x
      | None => Raise (KeyError k)
      end
  | PList _ => Raise (TypeError "list indices must be integers")
  | PStr _ => Raise (TypeError "string indices must be integers")
  | PNone => Raise (TypeError "'NoneType' object is not subscriptable")
  | PInt _ => Raise (TypeError "'int' object is not subscriptable")
  end.

(** [v[k] = x] *)
Definition py_setitem (v : pyval) (k : string) (x : pyval) : outcome pyval :=
  match v with
  | PDict d => Ok (PDict (dict_set k x d))
  | PList _ => Raise (TypeError "list indices must be integers")
  | _ => Raise (TypeError "object does not support item assignment")
  end.

(** [del v[k]] *)
Definition py_delitem (v : pyval) (k : string) : outcome pyval :=
  match v with
  | PDict d =>
      if dict_has k d then Ok (PDict (dict_del k d)) else Raise (KeyError k)
  | PList _ => Raise (TypeError "list indices must be integers")
  | _ => Raise (TypeError "object does not support item deletion")
  end.

(** [len(v)] *)
Definition py_len (v : pyval) : outcome nat :=
  match v with
  | PList l => Ok (length l)
  | PStr s => Ok (String.length s)
  | PDict d => Ok (length d)
  | PNone => Raise (TypeError "object of type 'NoneType' has no len()")
  | PInt _ => Raise (TypeError "object of type 'int' has no len()")
  end.

(** truth value of [v] *)
Definition py_truthy (v : pyval) : bool :=
  match v with
  | PNone => false
  | PInt z => negb (Z.eqb z 0)
  | PStr s => negb (String.eqb s "")
  | PList l => negb (Nat.eqb (length l) 0)
  | PDict d => negb (Nat.eqb (length d) 0)
  end.

(** ** The relational store *)

Inductive coldefault : Type :=
| DefaultNull
| DefaultSerial.

Record table : Type := mkTable {
  columns : list (string * coldefault);
  rows : list row;
  serial : Z  (* last value handed out by the table's sequence *)
}.

(** The value of a column in a row; NULL when the row lacks it. *)
Definition col (r : row) (c : string) : pyval :=
  match dict_get c r with Some v => v | None => PNone end.

(** SQL [a = b]: unknown, hence not satisfied, when either side is NULL. *)
Definition sql_eq (a b : pyval) : bool :=
  negb (is_none a) && negb (is_none b) && py_eqb a b.

(** SQL [a != b] *)
Definition sql_ne (a b : pyval) : bool :=
  negb (is_none a) && negb (is_none b) && negb (py_eqb a b).

(** SQL [a = ANY(arr)] *)
Definition sql_eq_any (a arr : pyval) : bool :=
  match arr with
  | PList l => existsb (sql_eq a) l
  | _ => false
  end.

(** SQL [a NOT IN (...)] over the listed values: satisfied when every
    comparison [a != x] is. *)
Definition sql_not_in (a : pyval) (l : list pyval) : bool :=
  forallb (sql_ne a) l.

(** SQL [a != ALL(arr)] *)
Definition sql_ne_all (a arr : pyval) : bool :=
  match arr with
  | PList l => sql_not_in a l
  | _ => false
  end.

(** [LIKE]: [%] matches any run of characters, [_] any one character and a
    backslash takes the next pattern character literally. *)
Fixpoint like_chars (p s : list ascii) {struct p} : bool :=
  match p with
  | [] => match s with [] => true | _ => false end
  | a :: p' =>
      if Ascii.eqb a "%" then
        (fix any (s : list ascii) : bool :=
           like_chars p' s
           || match s with [] => false | _ :: s' => any s' end) s
      else if Ascii.eqb a "_" then
        match s with [] => false | _ :: s' => like_chars p' s' end
      else if Ascii.eqb a "\" then
        match p' with
        | [] => false
        | b :: p'' =>
            match s with
            | [] => false
            | c :: s' => Ascii.eqb b c && like_chars p'' s'
            end
        end
      else
        match s with
        | [] => false
        | c :: s' => Ascii.eqb a c && like_chars p' s'
        end
  end.

Definition lower_ascii (a : ascii) : ascii :=
  let n := nat_of_ascii a in
  if (Nat.leb 65 n && Nat.leb n 90)%bool then ascii_of_nat (n + 32) else a.

Definition sql_like (v pat : pyval) : bool :=
  match v, pat with
  | PStr s, PStr p => like_chars (list_ascii_of_string p) (list_ascii_of_string s)
  | _, _ => false
  end.

Definition sql_ilike (v pat : pyval) : bool :=
  match v, pat with
  | PStr s, PStr p =>
      like_chars (map lower_ascii (list_ascii_of_string p))
                 (map lower_ascii (list_ascii_of_string s))
  | _, _ => false
  end.

(** What a cursor holds after [execute]: the rows to fetch, the number of
    affected rows, and the store as the statement left it. *)
Record cursor : Type := mkCursor {
  fetched : list row;
  rowcount : Z;
  store : gmap string table
}.

Definition relation (db : gmap string table) (t : string) : outcome table :=
  match db !! t with
  | Some tb => Ok tb
  | None => Raise (DatabaseError "relation does not exist")
  end.

Definition has_column (tb : table) (c : string) : bool :=
  existsb (String.eqb c) (map fst (columns tb)).

Definition with_columns (tb : table) (cs : list string) : outcome unit :=
  if forallb (has_column tb) cs then Ok tt
  else Raise (DatabaseError "column does not exist").

Definition project (targets : option (list string)) (r : row) : row :=
  match targets with
  | None => r
  | Some cs => map (fun c => (c, col r c)) cs
  end.

(** [SELECT targets FROM t WHERE p]; [cs] lists the columns the statement
    names. *)
Definition sql_select (targets : option (list string)) (t : string)
    (cs : list string) (p : row -> bool) (db : gmap string table)
  : outcome cursor :=
  obind (relation db t) (fun tb =>
  obind (with_columns tb cs) (fun _ =>
  let found := List.filter p (rows tb) in
  Ok (mkCursor (map (project targets) found) (Z.of_nat (length found)) db))).

(** [SELECT agg(...) AS name FROM t WHERE p]: always one row. *)
Definition sql_aggregate (name : string) (agg : list row -> pyval) (t : string)
    (cs : list string) (p : row -> bool) (db : gmap string table)
  : outcome cursor :=
  obind (relation db t) (fun tb =>
  obind (with_columns tb cs) (fun _ =>
  Ok (mkCursor [[(name, agg (List.filter p (rows tb)))]] 1 db))).

(** [array_agg(c)] is NULL over no rows. *)
Definition array_agg (c : string) (rs : list row) : pyval :=
  match rs with
  | [] => PNone
  | _ => PList (map (fun r => col r c) rs)
  end.

Definition count_star (rs : list row) : pyval := PInt (Z.of_nat (length rs)).

(** [SELECT * FROM t1 JOIN t2 ON t1.on1 = t2.on2 WHERE p(t2 row)]; a
    dictionary cursor keeps the last of two columns with one name. *)
Definition sql_join (t1 t2 on1 on2 : string) (cs2 : list string)
    (p : row -> bool) (db : gmap string table) : outcome cursor :=
  obind (relation db t1) (fun tb1 =>
  obind (relation db t2) (fun tb2 =>
  obind (with_columns tb1 [on1]) (fun _ =>
  obind (with_columns tb2 (on2 :: cs2)) (fun _ =>
  let found :=
    flat_map (fun a =>
      map (fun b => fold_left (fun r kv => dict_set (fst kv) (snd kv) r) b a)
          (List.filter (fun b => sql_eq (col a on1) (col b on2) && p b)
                       (rows tb2)))
      (rows tb1) in
  Ok (mkCursor found (Z.of_nat (length found)) db))))).

(** [DELETE FROM t WHERE p] *)
Definition sql_delete (t : string) (cs : list string) (p : row -> bool)
    (db : gmap string table) : outcome cursor :=
  obind (relation db t) (fun tb =>
  obind (with_columns tb cs) (fun _ =>
  let gone := List.filter p (rows tb) in
  let kept := List.filter (fun r => negb (p r)) (rows tb) in
  Ok (mkCursor [] (Z.of_nat (length gone))
        (<[t := mkTable (columns tb) kept (serial tb)]> db)))).

Definition uses_serial (tb : table) (vals : row) : bool :=
  existsb (fun cd => match snd cd with
                     | DefaultSerial => negb (dict_has (fst cd) vals)
                     | DefaultNull => false
                     end) (columns tb).

Definition new_row (tb : table) (vals : row) : row :=
  map (fun cd =>
         (fst cd,
          match dict_get (fst cd) vals with
          | Some v => v
          | None => match snd cd with
                    | DefaultNull => PNone
                    | DefaultSerial => PInt (serial tb + 1)
                    end
          end)) (columns tb).

(** [INSERT INTO t (cols) VALUES (vals) RETURNING returning] *)
Definition sql_insert (t : string) (vals : row) (returning : list string)
    (db : gmap string table) : outcome cursor :=
  obind (relation db t) (fun tb =>
  obind (with_columns tb (map fst vals ++ returning)) (fun _ =>
  let r := new_row tb vals in
  let s := if uses_serial tb vals then serial tb + 1 else serial tb in
  Ok (mkCursor (match returning with
                | [] => []
                | _ => [project (Some returning) r]
                end) 1
        (<[t := mkTable (columns tb) (rows tb ++ [r]) s]> db)))).

(** [UPDATE t SET (cols) = (vals) WHERE p].  PostgreSQL writes an updated
    row as a new row version: a later read of the table finds the rows the
    statement left alone first, in their order, and the updated ones after
    them.  No statement of serve.py orders its result, so what is said
    about an updated table below is said up to the order of its rows. *)
Definition sql_update (t : string) (sets : row) (cs : list string)
    (p : row -> bool) (db : gmap string table) : outcome cursor :=
  obind (relation db t) (fun tb =>
  obind (with_columns tb (map fst sets ++ cs)) (fun _ =>
  let assign := fun r => fold_left (fun r kv => dict_set (fst kv) (snd kv) r) sets r in
  let updated := List.filter p (rows tb) in
  let kept := List.filter (fun r => negb (p r)) (rows tb) in
  Ok (mkCursor [] (Z.of_nat (length updated))
        (<[t := mkTable (columns tb) (kept ++ map assign updated) (serial tb)]> db)))).

(** ** The connection *)

(** [contactdb_conn]: the committed store, and the store as the open
    transaction sees it.  The value a sequence has reached is kept with its
    table in both; a rollback carries it over from the open transaction. *)
Record connection : Type := mkConn {
  committed : gmap string table;
  working : gmap string table
}.

Definition M (A : Type) : Type := connection -> outcome A * connection.

Definition ret {A : Type} (a : A) : M A := fun c => (Ok a, c).

Definition raise {A : Type} (e : exn) : M A := fun c => (Raise e, c).

Definition lift {A : Type} (o : outcome A) : M A := fun c => (o, c).

Definition bind {A B : Type} (m : M A) (k : A -> M B) : M B :=
  fun c =>
    match m c with
    | (Ok a, c') => k a c'
    | (Raise e, c') => (Raise e, c')
    end.

Notation "x <- m ;; k" := (bind m (fun x => k))
  (at level 100, m at next level, right associativity).
Notation "m ;; k" := (bind m (fun _ => k))
  (at level 100, right associativity).

Fixpoint for_each {A : Type} (body : A -> M unit) (l : list A) : M unit :=
  match l with
  | [] => ret tt
  | x :: l' => body x ;; for_each body l'
  end.

Definition __commit_transaction : M unit :=
  fun c => (Ok tt, mkConn (working c) (working c)).

(** What a rollback leaves: the tables as they were committed, each with
    the value its sequence has reached.  Sequences are not part of a
    transaction in PostgreSQL: a number that an INSERT has taken is not
    given out again when the INSERT is rolled back. *)
Definition keep_sequences (written stored : gmap string table) : gmap string table :=
  merge (fun w s =>
           match s with
           | Some tb =>
               Some (mkTable (columns tb) (rows tb)
                       (match w with
                        | Some tw => serial tw
                        | None => serial tb
                        end))
           | None => None
           end) written stored.

Definition __rollback_transaction : M unit :=
  fun c =>
    let db := keep_sequences (working c) (committed c) in
    (Ok tt, mkConn db db).

(** psycopg2 adapts None, numbers, strings and lists of them; it has no
    adapter for a dictionary. *)
Fixpoint adaptable (v : pyval) : bool :=
  match v with
  | PDict _ => false
  | PList l => forallb adaptable l
  | _ => true
  end.

(** [cur.execute(operation, parameters)] *)
Definition execute (operation : list pyval -> gmap string table -> outcome cursor)
    (parameters : list pyval) : M cursor :=
  fun c =>
    if forallb adaptable parameters then
      match operation parameters (working c) with
      | Ok cur => (Ok cur, mkConn (committed c) (store cur))
      | Raise e => (Raise e, c)
      end
    else (Raise (DatabaseError "can't adapt type 'dict'"), c).

Definition _db_query (operation : list pyval -> gmap string table -> outcome cursor)
    (parameters : list pyval) (end_transaction : bool) : M (list row) :=
  cur <- execute operation parameters ;;
  (if end_transaction then __commit_transaction else ret tt) ;;
  ret (fetched cur).

Definition _db_manipulate (operation : list pyval -> gmap string table -> outcome cursor)
    (parameters : list pyval) (end_transaction : bool) : M Z :=
  cur <- execute operation parameters ;;
  (if end_transaction then __commit_transaction else ret tt) ;;
  ret (rowcount cur).

(** The [i]-th positional parameter of a statement. *)
Definition arg (i : nat) (p : list pyval) : pyval := nth i p PNone.

(** The values a statement with [%(key)s] placeholders takes from a
    dictionary, in the order of the placeholders. *)
Fixpoint named (d : pyval) (keys : list string) : outcome (list pyval) :=
  match keys with
  | [] => Ok []
  | k :: keys' =>
      obind (py_getitem d k) (fun v =>
      obind (named d keys') (fun vs => Ok (v :: vs)))
  end.

(** [results[0]] *)
Definition first (results : list row) : outcome pyval :=
  match results with
  | r :: _ => Ok (PDict r)
  | [] => Raise IndexError
  end.

(** ** Readers *)

Definition __db_query_organisation_ids
    (operation : string -> list pyval -> gmap string table -> outcome cursor)
    (parameters : list pyval) : M pyval :=
  let ids_of (results : list row) : outcome pyval :=
    if Nat.eqb (length results) 1 then
      obind (first results) (fun r =>
      obind (py_getitem r "organisation_ids") (fun ids =>
      Ok (if is_none ids then PList [] else ids)))
    else Ok (PList []) in
  results <- _db_query (operation "") parameters true ;;
  manual <- lift (ids_of results) ;;
  results <- _db_query (operation "_automatic") parameters true ;;
  auto <- lift (ids_of results) ;;
  ret (PDict [("manual", manual); ("auto", auto)]).

Definition __db_query_asn_annotations (asn : pyval) (end_transaction : bool)
  : M pyval :=
  results <- _db_query
    (fun p => sql_aggregate "array_agg" (array_agg "annotation")
                "autonomous_system_annotation" ["annotation"; "asn"]
                (fun r => sql_eq (col r "asn") (arg 0 p)))
    [asn] end_transaction ;;
  r <- lift (first results) ;;
  lift (py_getitem r "array_agg").

(** The loop of [__db_query_org] that attaches the annotations of each ASN.
    The call to [__db_query_asn_annotations] there leaves [end_transaction]
    to its default, [True]. *)
Fixpoint annotate_asns (asns : list row) (end_transaction : bool)
  : M (list pyval) :=
  match asns with
  | [] => ret []
  | asn :: rest =>
      n <- lift (py_getitem (PDict asn) "asn") ;;
      results <- _db_query
        (fun p => sql_select None "autonomous_system_annotation" ["asn"]
                    (fun r => sql_eq (col r "asn") (arg 0 p)))
        [n] end_transaction ;;
      asn' <- (if Nat.ltb 0 (length results) then
                 annos <- __db_query_asn_annotations n true ;;
                 lift (py_setitem (PDict asn) "annotations" annos)
               else ret (PDict asn)) ;;
      rest' <- annotate_asns rest end_transaction ;;
      ret (asn' :: rest')
  end.

Definition __db_query_org (org_id : pyval) (table_variant : string)
    (end_transaction : bool) : M pyval :=
  let tv := table_variant in
  let org_key := "organisation" +:+ tv +:+ "_id" in
  let of_org := fun (p : list pyval) (r : row) => sql_eq (col r org_key) (arg 0 p) in
  results <- _db_query
    (fun p => sql_select None ("organisation" +:+ tv) [org_key] (of_org p))
    [org_id] false ;;
  if negb (Nat.eqb (length results) 1) then ret (PDict [])
  else
    org <- lift (first results) ;;
    org <- (if negb (String.eqb tv "") then
              v <- lift (py_getitem org org_key) ;;
              org <- lift (py_delitem org org_key) ;;
              lift (py_setitem org "organisation_id" v)
            else ret org) ;;
    asns <- _db_query
      (fun p => sql_select None ("organisation_to_asn" +:+ tv) [org_key] (of_org p))
      [org_id] false ;;
    org <- lift (py_setitem org "asns" (PList (map PDict asns))) ;;
    results <- _db_query
      (fun p => sql_select None ("contact" +:+ tv) [org_key] (of_org p))
      [org_id] end_transaction ;;
    org <- lift (py_setitem org "contacts" (PList (map PDict results))) ;;
    results <- _db_query
      (fun p => sql_select None ("national_cert" +:+ tv) [org_key] (of_org p))
      [org_id] end_transaction ;;
    org <- lift (py_setitem org "nationalcerts" (PList (map PDict results))) ;;
    results <- _db_query
      (fun p => sql_join ("network" +:+ tv) ("organisation_to_network" +:+ tv)
                  ("network" +:+ tv +:+ "_id") ("network" +:+ tv +:+ "_id")
                  [org_key] (of_org p))
      [org_id] end_transaction ;;
    org <- lift (py_setitem org "networks" (PList (map PDict results))) ;;
    results <- _db_query
      (fun p => sql_join ("fqdn" +:+ tv) ("organisation_to_fqdn" +:+ tv)
                  ("fqdn" +:+ tv +:+ "_id") ("fqdn" +:+ tv +:+ "_id")
                  [org_key] (of_org p))
      [org_id] end_transaction ;;
    org <- lift (py_setitem org "fqdns" (PList (map PDict results))) ;;
    if String.eqb tv "" then
      results <- _db_query
        (fun p => sql_aggregate "annotations" (array_agg "annotation")
                    "organisation_annotation" ["annotation"; "organisation_id"]
                    (fun r => sql_eq (col r "organisation_id") (arg 0 p)))
        [org_id] end_transaction ;;
      r <- lift (first results) ;;
      annos <- lift (py_getitem r "annotations") ;;
      org <- lift (py_setitem org "annotations" annos) ;;
      asns' <- annotate_asns asns end_transaction ;;
      lift (py_setitem org "asns" (PList asns'))
    else ret org.

Definition __db_query_asn (asn : pyval) (table_variant : string)
    (end_transaction : bool) : M pyval :=
  results <- _db_query
    (fun p => sql_select None ("organisation_to_asn" +:+ table_variant) ["asn"]
                (fun r => sql_eq (col r "asn") (arg 0 p)))
    [asn] end_transaction ;;
  match results with
  | r :: _ =>
      if String.eqb table_variant "" then
        annos <- __db_query_asn_annotations asn end_transaction ;;
        lift (py_setitem (PDict r) "annotations" annos)
      else ret (PDict r)
  | [] => ret PNone
  end.

(** ** Reconcilers *)

(** [[i[key] for i in l]] *)
Fixpoint items_of (key : string) (l : list pyval) : outcome (list pyval) :=
  match l with
  | [] => Ok []
  | i :: l' =>
      obind (py_getitem i key) (fun v =>
      obind (items_of key l') (fun vs => Ok (v :: vs)))
  end.

Definition __remove_inhibitions (inhibitions : pyval) : M unit :=
  l <- lift (py_iter inhibitions) ;;
  ids <- lift (items_of "id" l) ;;
  _db_manipulate
    (fun p => sql_delete "inhibition" ["id"]
                (fun r => sql_eq_any (col r "id") (arg 0 p)))
    [PList ids] false ;;
  _db_manipulate
    (fun _ db =>
       obind (sql_select None "inhibition" ["net_id"] (fun _ => true) db) (fun i =>
       sql_delete "network" ["id"]
         (fun n => negb (existsb (fun r => sql_eq (col n "id") (col r "net_id"))
                           (fetched i))) db))
    [] false ;;
  ret tt.

(** The loop of [__remove_or_unlink_asns], statement by statement.  First
    the link between the organisation and the ASN is deleted. *)
Definition unlink_asn (org_id asn_id : pyval) : M Z :=
  _db_manipulate
    (fun p => sql_delete "organisation_to_asn" ["organisation_id"; "asn_id"]
                (fun oa => sql_eq (col oa "organisation_id") (arg 0 p)
                           && sql_eq (col oa "asn_id") (arg 1 p)))
    [org_id; asn_id] false.

(** "how many connections are left to this asn?" *)
Definition count_links (asn_id : pyval) : M pyval :=
  results <- _db_query
    (fun p => sql_aggregate "count" count_star "organisation_to_asn" ["asn_id"]
                (fun r => sql_eq (col r "asn_id") (arg 0 p)))
    [asn_id] false ;;
  r <- lift (first results) ;;
  lift (py_getitem r "count").

(** The payload as it is compared with the database entry: the keys that
    come from the link table are deleted from it, and its inhibitions are
    removed, from the database and then from the payload. *)
Definition without_link_fields (asn : pyval) : M pyval :=
  asn <- lift (py_delitem asn "notification_interval") ;;
  asn <- lift (py_delitem asn "organisation_id") ;;
  asn <- lift (py_delitem asn "asn_id") ;;
  has_inhibitions <- lift (py_contains (PStr "inhibitions") asn) ;;
  if has_inhibitions : bool then
    inhibitions <- lift (py_getitem asn "inhibitions") ;;
    __remove_inhibitions inhibitions ;;
    lift (py_delitem asn "inhibitions")
  else ret asn.

(** The body of the loop. *)
Definition remove_or_unlink_asn (org_id asn : pyval) : M unit :=
  asn_id <- lift (py_getitem asn "number") ;;
  unlink_asn org_id asn_id ;;
  n <- count_links asn_id ;;
  if py_eqb n (PInt 0) then
    asn_in_db <- __db_query_asn asn_id "" false ;;
    asn <- without_link_fields asn ;;
    if py_eqb asn_in_db asn then
      _db_manipulate
        (fun p => sql_delete "autonomous_system" ["number"]
                    (fun r => sql_eq (col r "number") (arg 0 p)))
        [asn_id] false ;;
      ret tt
    else
      raise (CommitError "ASN{} to be deleted differs from db entry." [asn_id])
  else ret tt.

Definition __remove_or_unlink_asns (asns org_id : pyval) : M unit :=
  l <- lift (py_iter asns) ;;
  for_each (remove_or_unlink_asn org_id) l.

(** [[a for a in xs if a not in ys]] *)
Fixpoint keep_not_in (xs : list pyval) (ys : pyval) : outcome (list pyval) :=
  match xs with
  | [] => Ok []
  | a :: xs' =>
      obind (py_contains a ys) (fun found =>
      obind (keep_not_in xs' ys) (fun rest =>
      Ok (if found : bool then rest else a :: rest)))
  end.

(** The body of the first loop of [__fix_asns_to_org]. *)
Definition fix_asn_to_org (org_id asn : pyval) : M unit :=
  asn_id <- lift (py_getitem asn "asn") ;;
  annos_should <- lift (py_getitem asn "annotations") ;;
  annos_are <- __db_query_asn_annotations asn_id false ;;
  missing <- lift (obind (py_iter annos_should) (fun xs => keep_not_in xs annos_are)) ;;
  for_each (fun anno =>
      _db_manipulate
        (fun p => sql_insert "autonomous_system_annotation"
                    [("asn", arg 0 p); ("annotation", arg 1 p)] [])
        [asn_id; anno] false ;;
      ret tt) missing ;;
  superfluous <- lift (obind (py_iter annos_are) (fun xs => keep_not_in xs annos_should)) ;;
  for_each (fun anno =>
      _db_manipulate
        (fun p => sql_delete "autonomous_system_annotation" ["asn"; "annotation"]
                    (fun r => sql_eq (col r "asn") (arg 0 p)
                              && sql_eq (col r "annotation") (arg 1 p)))
        [asn_id; anno] false ;;
      ret tt) superfluous ;;
  results <- _db_query
    (fun p => sql_select None "organisation_to_asn" ["organisation_id"; "asn"]
                (fun r => sql_eq (col r "organisation_id") (arg 0 p)
                          && sql_eq (col r "asn") (arg 1 p)))
    [org_id; asn_id] false ;;
  if Nat.eqb (length results) 0 then
    _db_manipulate
      (fun p => sql_insert "organisation_to_asn"
                  [("organisation_id", arg 0 p); ("asn", arg 1 p)] [])
      [org_id; asn_id] false ;;
    ret tt
  else ret tt.

Definition __fix_asns_to_org (asns org_id : pyval) : M unit :=
  l <- lift (py_iter asns) ;;
  for_each (fix_asn_to_org org_id) l ;;
  wanted <- lift (items_of "asn" l) ;;
  _db_manipulate
    (fun p => sql_delete "organisation_to_asn" ["organisation_id"; "asn"]
                (fun r => sql_eq (col r "organisation_id") (arg 0 p)
                          && sql_ne_all (col r "asn") (arg 1 p)))
    [org_id; PList wanted] false ;;
  _db_manipulate
    (fun _ db =>
       obind (sql_select (Some ["asn"]) "organisation_to_asn" ["asn"]
                (fun _ => true) db) (fun linked =>
       sql_delete "autonomous_system_annotation" ["asn"]
         (fun asa => sql_not_in (col asa "asn")
                       (map (fun r => col r "asn") (fetched linked))) db))
    [] false ;;
  ret tt.

(** The body of the loop of [__remove_or_unlink_contacts]. *)
Definition remove_or_unlink_contact (org_id contact : pyval) : M unit :=
  contact_id <- lift (py_getitem contact "contact_id") ;;
  _db_manipulate
    (fun p => sql_delete "role" ["organisation_id"; "contact_id"]
                (fun r => sql_eq (col r "organisation_id") (arg 0 p)
                          && sql_eq (col r "contact_id") (arg 1 p)))
    [org_id; contact_id] false ;;
  results <- _db_query
    (fun p => sql_aggregate "count" count_star "role" ["contact_id"]
                (fun r => sql_eq (col r "contact_id") (arg 0 p)))
    [contact_id] false ;;
  r <- lift (first results) ;;
  n <- lift (py_getitem r "count") ;;
  if py_eqb n (PInt 0) then
    _db_manipulate
      (fun p => sql_delete "contact" ["id"]
                  (fun r => sql_eq (col r "id") (arg 0 p)))
      [contact_id] false ;;
    ret tt
  else ret tt.

Definition __remove_or_unlink_contacts (contacts org_id : pyval) : M unit :=
  l <- lift (py_iter contacts) ;;
  for_each (remove_or_unlink_contact org_id) l.

Definition contact_attribs : list string :=
  ["firstname"; "lastname"; "tel"; "openpgp_fpr"; "email"; "comment"].

(** [for attrib in needed_attribs: if (attrib not in d) or d[attrib] is None:
    raise CommitError("{} not set".format(attrib))] *)
Fixpoint require_attribs (attribs : list string) (d : pyval) : outcome unit :=
  match attribs with
  | [] => Ok tt
  | attrib :: rest =>
      obind (py_contains (PStr attrib) d) (fun present =>
      if present : bool then
        obind (py_getitem d attrib) (fun v =>
        if is_none v then Raise (CommitError "{} not set" [PStr attrib])
        else require_attribs rest d)
      else Raise (CommitError "{} not set" [PStr attrib]))
  end.

(** The body of the loop of [__fix_contacts_to_org]. *)
Definition fix_contact_to_org (org_id contact : pyval) : M unit :=
  lift (require_attribs contact_attribs contact) ;;
  contact <- lift (py_setitem contact "organisation_id" org_id) ;;
  params <- lift (named contact (contact_attribs ++ ["organisation_id"])) ;;
  _db_manipulate
    (fun p => sql_insert "contact"
                [("firstname", arg 0 p); ("lastname", arg 1 p); ("tel", arg 2 p);
                 ("openpgp_fpr", arg 3 p); ("email", arg 4 p);
                 ("comment", arg 5 p); ("organisation_id", arg 6 p)] [])
    params false ;;
  ret tt.

Definition __fix_contacts_to_org (contacts org_id : pyval) : M unit :=
  _db_manipulate
    (fun p => sql_delete "contact" ["organisation_id"]
                (fun r => sql_eq (col r "organisation_id") (arg 0 p)))
    [org_id] false ;;
  l <- lift (py_iter contacts) ;;
  for_each (fix_contact_to_org org_id) l.

(** ** Writers *)

Definition org_attribs : list string :=
  ["name"; "comment"; "ripe_org_hdl"; "ti_handle"; "first_handle"].

(** The first loop of [_create_org]: a needed attribute that is [None]
    becomes the empty string, one that is absent is an error. *)
Fixpoint default_attribs (attribs : list string) (org : pyval) : outcome pyval :=
  match attribs with
  | [] => Ok org
  | attrib :: rest =>
      obind (py_contains (PStr attrib) org) (fun present =>
      if present : bool then
        obind (py_getitem org attrib) (fun v =>
        if is_none v then
          obind (py_setitem org attrib (PStr "")) (default_attribs rest)
        else default_attribs rest org)
      else Raise (CommitError "{} not set" [PStr attrib]))
  end.

(** [('sector_id' not in org) or org['sector_id'] is None
     or org['sector_id'] == ''] *)
Definition no_sector (org : pyval) : outcome bool :=
  obind (py_contains (PStr "sector_id") org) (fun present =>
  if present : bool then
    obind (py_getitem org "sector_id") (fun v =>
    Ok (is_none v || py_eqb v (PStr "")))
  else Ok true).

(** The [WHERE] clause of the row search of [_create_org]; [p] holds name,
    comment, ripe_org_hdl, ti_handle, first_handle and, unless the sector
    is to be NULL, sector_id. *)
Definition same_org (sector_null : bool) (p : list pyval) (o : row) : bool :=
  sql_eq (col o "name") (arg 0 p)
  && sql_eq (col o "comment") (arg 1 p)
  && sql_eq (col o "ripe_org_hdl") (arg 2 p)
  && sql_eq (col o "ti_handle") (arg 3 p)
  && sql_eq (col o "first_handle") (arg 4 p)
  && (if sector_null then is_none (col o "sector_id")
      else sql_eq (col o "sector_id") (arg 5 p)).

Definition _create_org (org : pyval) : M pyval :=
  org <- lift (default_attribs org_attribs org) ;;
  name <- lift (py_getitem org "name") ;;
  if py_eqb name (PStr "") then
    raise (CommitError "Name of the organisation must be provided." [])
  else
    sector_null <- lift (no_sector org) ;;
    org <- (if sector_null : bool then lift (py_setitem org "sector_id" PNone)
            else ret org) ;;
    params <- lift (named org (org_attribs
                                 ++ (if sector_null : bool then [] else ["sector_id"]))) ;;
    results <- _db_query
      (fun p => sql_select (Some ["organisation_id"]) "organisation"
                  ["organisation_id"; "name"; "comment"; "ripe_org_hdl";
                   "ti_handle"; "first_handle"; "sector_id"]
                  (same_org sector_null p))
      params false ;;
    new_org_id <-
      (if Nat.ltb 1 (length results) then
         raise (CommitError "More than one organisation row like {} in the db" [org])
       else if Nat.eqb (length results) 1 then
         r <- lift (first results) ;;
         lift (py_getitem r "organisation_id")
       else
         params <- lift (named org ["name"; "sector_id"; "comment"; "ripe_org_hdl";
                                    "ti_handle"; "first_handle"]) ;;
         results <- _db_query
           (fun p => sql_insert "organisation"
                       [("name", arg 0 p); ("sector_id", arg 1 p);
                        ("comment", arg 2 p); ("ripe_org_hdl", arg 3 p);
                        ("ti_handle", arg 4 p); ("first_handle", arg 5 p)]
                       ["organisation_id"])
           params false ;;
         r <- lift (first results) ;;
         lift (py_getitem r "organisation_id")) ;;
    asns <- lift (py_getitem org "asns") ;;
    __fix_asns_to_org asns new_org_id ;;
    contacts <- lift (py_getitem org "contacts") ;;
    __fix_contacts_to_org contacts new_org_id ;;
    ret new_org_id.

(** ['name' not in org or org['name'] is None or org['name'] == ''] *)
Definition no_name (org : pyval) : outcome bool :=
  obind (py_contains (PStr "name") org) (fun present =>
  if present : bool then
    obind (py_getitem org "name") (fun v =>
    Ok (is_none v || py_eqb v (PStr "")))
  else Ok true).

Definition _update_org (org : pyval) : M pyval :=
  org_id <- lift (py_getitem org "id") ;;
  org_in_db <- __db_query_org org_id "" false ;;
  known <- lift (obind (py_contains (PStr "id") org_in_db) (fun present =>
                 if present : bool then
                   obind (py_getitem org_in_db "id") (fun v => Ok (py_eqb v org_id))
                 else Ok false)) ;;
  if negb known then
    raise (CommitError "Org {} to be updated not in db." [org_id])
  else
    unnamed <- lift (no_name org) ;;
    if unnamed : bool then
      raise (CommitError "Name of the organisation must be provided." [])
    else
      asns <- lift (py_getitem org "asns") ;;
      __fix_asns_to_org asns org_id ;;
      contacts <- lift (py_getitem org "contacts") ;;
      __fix_contacts_to_org contacts org_id ;;
      sector <- lift (py_getitem org "sector_id") ;;
      org <- (if py_eqb sector (PStr "") then lift (py_setitem org "sector_id" PNone)
              else ret org) ;;
      params <- lift (named org ["name"; "sector_id"; "comment"; "ripe_org_hdl";
                                 "ti_handle"; "first_handle"; "id"]) ;;
      _db_manipulate
        (fun p => sql_update "organisation"
                    [("name", arg 0 p); ("sector_id", arg 1 p);
                     ("comment", arg 2 p); ("ripe_org_hdl", arg 3 p);
                     ("ti_handle", arg 4 p); ("first_handle", arg 5 p)]
                    ["id"] (fun r => sql_eq (col r "id") (arg 6 p)))
        params false ;;
      ret org_id.

Definition _delete_org (org : pyval) : M pyval :=
  org_id <- lift (py_getitem org "id") ;;
  org_in_db <- __db_query_org org_id "" false ;;
  if negb (py_eqb org_in_db org) then
    raise (CommitError "Org to be deleted differs from db entry." [])
  else
    asns <- lift (py_getitem org "asns") ;;
    __remove_or_unlink_asns asns org_id ;;
    contacts <- lift (py_getitem org "contacts") ;;
    __remove_or_unlink_contacts contacts org_id ;;
    affected_rows <- _db_manipulate
      (fun p => sql_delete "organisation" ["id"]
                  (fun r => sql_eq (col r "id") (arg 0 p)))
      [org_id] false ;;
    if Z.eqb affected_rows 1 then ret org_id else ret PNone.

(** ** Endpoints *)

Definition searchasn (asn : Z) : M pyval :=
  __db_query_organisation_ids
    (fun tv p => sql_aggregate "organisation_ids"
                   (array_agg ("organisation" +:+ tv +:+ "_id"))
                   ("organisation_to_asn" +:+ tv)
                   ["organisation" +:+ tv +:+ "_id"; "asn"]
                   (fun r => sql_eq (col r "asn") (arg 0 p)))
    [PInt asn].

Definition searchorg (name : string) : M pyval :=
  __db_query_organisation_ids
    (fun tv p => sql_aggregate "organisation_ids"
                   (array_agg ("organisation" +:+ tv +:+ "_id"))
                   ("organisation" +:+ tv)
                   ["organisation" +:+ tv +:+ "_id"; "name"]
                   (fun o => sql_ilike (col o "name") (arg 0 p)
                             || sql_ilike (col o "name") (arg 1 p)
                             || sql_ilike (col o "name") (arg 2 p)
                             || sql_ilike (col o "name") (arg 3 p)))
    [PStr name; PStr ("%" +:+ name +:+ "%"); PStr ("%" +:+ name);
     PStr (name +:+ "%")].

Definition searchcontact (email : string) : M pyval :=
  __db_query_organisation_ids
    (fun tv p => sql_aggregate "organisation_ids"
                   (array_agg ("organisation" +:+ tv +:+ "_id"))
                   ("contact" +:+ tv)
                   ["organisation" +:+ tv +:+ "_id"; "email"]
                   (fun c => sql_like (col c "email") (arg 0 p)
                             || sql_like (col c "email") (arg 1 p)
                             || sql_like (col c "email") (arg 2 p)
                             || sql_like (col c "email") (arg 3 p)))
    [PStr email; PStr ("%" +:+ email +:+ "%"); PStr ("%" +:+ email);
     PStr (email +:+ "%")].

Definition get_manual_org_details (id : Z) : M pyval :=
  __db_query_org (PInt id) "" true.

Definition get_auto_org_details (id : Z) : M pyval :=
  __db_query_org (PInt id) "_automatic" true.

(** What the ASN endpoint answers: the ASN, or HTTP 404 with a reason. *)
Inductive asn_response : Type :=
| NotFound (reason : string)
| Found (asn : pyval).

Definition get_manual_asn_details (number : Z) : M asn_response :=
  asn <- __db_query_asn (PInt number) "" true ;;
  if is_none asn then ret (NotFound "ASN not found") else ret (Found asn).

(** What the commit endpoint answers: HTTP 400 with a reason, or the list
    of (command, result) pairs. *)
Inductive response : Type :=
| BadRequest (reason : string)
| Committed (results : list (pyval * pyval)).

(** [known_commands]: the function table, looked up with a value that has
    to be hashable. *)
Definition known_commands (command : pyval) : outcome (option (pyval -> M pyval)) :=
  match command with
  | PStr s =>
      if String.eqb s "create" then Ok (Some _create_org)
      else if String.eqb s "update" then Ok (Some _update_org)
      else if String.eqb s "delete" then Ok (Some _delete_org)
      else Ok None
  | PNone | PInt _ => Ok None
  | PList _ | PDict _ => Raise (TypeError "unhashable type")
  end.

(** The guard on the request body: commands and orgs present, not empty
    and of one length. *)
Definition well_formed_body (body : pyval) : outcome bool :=
  if negb (py_truthy body) then Ok false else
  obind (py_contains (PStr "commands") body) (fun has_commands =>
  if negb has_commands then Ok false else
  obind (py_getitem body "commands") (fun commands =>
  obind (py_len commands) (fun n =>
  if negb (Nat.ltb 0 n) then Ok false else
  obind (py_contains (PStr "orgs") body) (fun has_orgs =>
  if negb has_orgs then Ok false else
  obind (py_getitem body "orgs") (fun orgs =>
  obind (py_len orgs) (fun m =>
  if negb (Nat.ltb 0 m) then Ok false else
  Ok (Nat.eqb n m))))))).

(** [for command in commands: if command not in known_commands] *)
Fixpoint all_known (commands : list pyval) : outcome bool :=
  match commands with
  | [] => Ok true
  | command :: rest =>
      obind (known_commands command) (fun f =>
      match f with
      | Some _ => all_known rest
      | None => Ok false
      end)
  end.

(** The loop inside [try]: every writer is called in turn and its result
    appended. *)
Fixpoint run_commands (todo : list (pyval * pyval)) (results : list (pyval * pyval))
  : M (list (pyval * pyval)) :=
  match todo with
  | [] => ret results
  | (command, org) :: rest =>
      f <- lift (known_commands command) ;;
      match f with
      | Some writer =>
          r <- writer org ;;
          run_commands rest (results ++ [(command, r)])
      | None => raise (KeyError "command")
      end
  end.

Definition commit_pending_org_changes (body : pyval) : M response :=
  ok <- lift (well_formed_body body) ;;
  if negb ok then
    ret (BadRequest "Needs commands and orgs arrays of same length.")
  else
    commands <- lift (py_getitem body "commands") ;;
    orgs <- lift (py_getitem body "orgs") ;;
    cl <- lift (py_iter commands) ;;
    known <- lift (all_known cl) ;;
    if negb known then
      ret (BadRequest "Unknown command. Not in dict_keys(['create', 'update', 'delete'])")
    else
      ol <- lift (py_iter orgs) ;;
      fun c =>
        match run_commands (combine cl ol) [] c with
        | (Raise _, c') =>
            (__rollback_transaction ;;
             ret (BadRequest "Commit failed, see server logs.")) c'
        | (Ok results, c') =>
            (__commit_transaction ;; ret (Committed results)) c'
        end.

(** ** An example store

    The tables and columns that the readers, [_create_org] and the two
    [__fix_..._to_org] reconcilers name in their statements, with one
    organisation in the manual tables and one in the automatic ones. *)

Definition plain (c : string) : string * coldefault := (c, DefaultNull).

Definition generated (c : string) : string * coldefault := (c, DefaultSerial).

Definition organisation_columns (key : string) : list (string * coldefault) :=
  [generated key; plain "name"; plain "sector_id"; plain "comment";
   plain "ripe_org_hdl"; plain "ti_handle"; plain "first_handle"].

Definition contact_columns (key org_key : string) : list (string * coldefault) :=
  [generated key; plain "firstname"; plain "lastname"; plain "tel";
   plain "openpgp_fpr"; plain "email"; plain "comment"; plain org_key].

Definition acme : row :=
  [("organisation_id", PInt 1); ("name", PStr "Acme Corp"); ("sector_id", PNone);
   ("comment", PStr ""); ("ripe_org_hdl", PStr ""); ("ti_handle", PStr "");
   ("first_handle", PStr "")].

Definition acme_contact : row :=
  [("contact_id", PInt 1); ("firstname", PStr "Ada"); ("lastname", PStr "Abuse");
   ("tel", PStr ""); ("openpgp_fpr", PStr ""); ("email", PStr "Abuse@Acme.example");
   ("comment", PStr ""); ("organisation_id", PInt 1)].

Definition link (org_key : string) (org asn : Z) : row :=
  [(org_key, PInt org); ("asn", PInt asn); ("notification_interval", PInt 0)].

Definition contactdb : gmap string table :=
  list_to_map
    [("organisation", mkTable (organisation_columns "organisation_id") [acme] 1);
     ("organisation_to_asn",
      mkTable [plain "organisation_id"; plain "asn"; plain "notification_interval"]
              [link "organisation_id" 1 64496; link "organisation_id" 1 64511] 0);
     ("contact",
      mkTable (contact_columns "contact_id" "organisation_id") [acme_contact] 1);
     ("national_cert",
      mkTable [plain "country_code"; plain "organisation_id"; plain "comment"] [] 0);
     ("network", mkTable [generated "network_id"; plain "address"; plain "comment"] [] 0);
     ("organisation_to_network",
      mkTable [plain "organisation_id"; plain "network_id"] [] 0);
     ("fqdn", mkTable [generated "fqdn_id"; plain "fqdn"; plain "comment"] [] 0);
     ("organisation_to_fqdn", mkTable [plain "organisation_id"; plain "fqdn_id"] [] 0);
     ("organisation_annotation",
      mkTable [plain "organisation_id"; plain "annotation"] [] 0);
     ("autonomous_system_annotation",
      mkTable [plain "asn"; plain "annotation"]
              [[("asn", PInt 64496); ("annotation", PStr "a")];
               [("asn", PInt 64511); ("annotation", PStr "c")]] 0);
     ("organisation_automatic",
      mkTable (organisation_columns "organisation_automatic_id")
              [[("organisation_automatic_id", PInt 7); ("name", PStr "Acme Hosting");
                ("sector_id", PNone); ("comment", PStr ""); ("ripe_org_hdl", PStr "");
                ("ti_handle", PStr ""); ("first_handle", PStr "")]] 7);
     ("organisation_to_asn_automatic",
      mkTable [plain "organisation_automatic_id"; plain "asn";
               plain "notification_interval"]
              [link "organisation_automatic_id" 7 64496] 0);
     ("contact_automatic",
      mkTable (contact_columns "contact_automatic_id" "organisation_automatic_id")
              [] 0)].

(** A connection with no transaction open on the example store. *)
Definition idle : connection := mkConn contactdb contactdb.

Definition umbrella : pyval :=
  PDict [("name", PStr "Umbrella"); ("comment", PNone); ("ripe_org_hdl", PStr "");
         ("ti_handle", PStr ""); ("first_handle", PStr "");
         ("asns", PList []); ("contacts", PList [])].

Definition wanted_asn (asn : Z) (annotations : list string) : pyval :=
  PDict [("asn", PInt asn); ("annotations", PList (map PStr annotations))].

(** ** Notions used in the statements *)

(** The contacts stored for an organisation: the rows that
    [SELECT * FROM contact WHERE organisation_id = %s] finds. *)
Definition stored_contacts (org_id : pyval) (db : gmap string table) : list row :=
  match db !! "contact" with
  | Some tb => List.filter (fun r => sql_eq (col r "organisation_id") org_id) (rows tb)
  | None => []
  end.

(** The six attributes of a contact, of a stored row or of a payload. *)
Definition contact_values (d : row) : list pyval := map (col d) contact_attribs.

(** An attribute is missing from a payload when it is absent or [None]. *)
Definition lacks (d : row) (a : string) : bool :=
  match dict_get a d with
  | Some v => is_none v
  | None => true
  end.

(** A contact payload with every needed attribute present, not [None], and
    a value that can be sent to the database. *)
Definition complete_contact (d : row) : bool :=
  forallb (fun a => negb (lacks d a) && adaptable (col d a)) contact_attribs.

(** What a successful [INSERT INTO contact] leaves behind. *)
Definition contact_added (org_id : pyval) (d : row) (c c' : connection) : Prop :=
  exists tb r s,
    working c !! "contact" = Some tb
    /\ c' = mkConn (committed c)
              (<["contact" := mkTable (columns tb) (rows tb ++ [r]) s]> (working c))
    /\ col r "organisation_id" = org_id
    /\ contact_values r = contact_values d.

(** The value [_create_org] searches and inserts for a needed attribute:
    the empty string where the payload has [None]. *)
Definition attrib_value (d : row) (a : string) : pyval :=
  match dict_get a d with
  | Some v => if is_none v then PStr "" else v
  | None => PNone
  end.

(** The sector [_create_org] searches and inserts: NULL when the payload's
    sector is absent, [None] or the empty string. *)
Definition sector_value (d : row) : pyval :=
  match dict_get "sector_id" d with
  | Some v => if is_none v || py_eqb v (PStr "") then PNone else v
  | None => PNone
  end.

(** A stored organisation row matches a payload when name, comment and the
    three handles are equal and the sectors are equal, a payload without
    sector matching the rows whose sector is NULL. *)
Definition org_matches (d : row) (o : row) : bool :=
  forallb (fun a => sql_eq (col o a) (attrib_value d a)) org_attribs
  && (if is_none (sector_value d) then is_none (col o "sector_id")
      else sql_eq (col o "sector_id") (sector_value d)).

Definition matching_orgs (d : row) (db : gmap string table) : list row :=
  match db !! "organisation" with
  | Some tb => List.filter (org_matches d) (rows tb)
  | None => []
  end.

(** The tables a computation may write: every other table of the open
    transaction is as before, however the computation ends. *)
Definition touches {A : Type} (ts : list string) (m : M A) : Prop :=
  forall c r c', m c = (r, c') ->
  forall t, ~ In t ts -> working c' !! t = working c !! t.

Definition writes (ts : list string)
    (op : list pyval -> gmap string table -> outcome cursor) : Prop :=
  forall p db cur, op p db = Ok cur ->
  forall t, ~ In t ts -> store cur !! t = db !! t.

(** The end of [_create_org] and of [_update_org]: both reconcilers, then
    the id. *)
Definition reconcile_children (org id : pyval) : M pyval :=
  asns <- lift (py_getitem org "asns") ;;
  __fix_asns_to_org asns id ;;
  contacts <- lift (py_getitem org "contacts") ;;
  __fix_contacts_to_org contacts id ;;
  ret id.

(** The example store with the organisation row stored twice. *)
Definition duplicated : connection :=
  let db := <["organisation" :=
                mkTable (organisation_columns "organisation_id")
                        [acme; dict_set "organisation_id" (PInt 2) acme] 2]> contactdb in
  mkConn db db.

Definition acme_payload : row :=
  [("name", PStr "Acme Corp"); ("comment", PStr ""); ("ripe_org_hdl", PStr "");
   ("ti_handle", PStr ""); ("first_handle", PStr "");
   ("asns", PList []); ("contacts", PList [])].

(** The rows of the table that links organisations to ASNs. *)
Definition links (db : gmap string table) : list row :=
  match db !! "organisation_to_asn" with
  | Some tb => rows tb
  | None => []
  end.

(** Organisation [org] is linked to ASN [asn]. *)
Definition linked (org asn : Z) (db : gmap string table) : Prop :=
  exists r, In r (links db)
            /\ col r "organisation_id" = PInt org /\ col r "asn" = PInt asn.

(** The rows of the ASN table. *)
Definition as_rows (db : gmap string table) : list row :=
  match db !! "autonomous_system" with
  | Some tb => rows tb
  | None => []
  end.

(** The number of link rows that reference an ASN. *)
Definition link_count (asn_id : pyval) (db : gmap string table) : nat :=
  length (List.filter (fun r => sql_eq (col r "asn_id") asn_id) (links db)).

(** The loop of [__remove_or_unlink_asns], started in [c] on [asns], has
    come to the comparison for the payload [asn]: the payloads before it
    were handled without error and left [c0]; the link of [asn] was deleted
    and no link to its number [asn_id] was counted; then [asn_in_db] was
    read and the payload reduced to [stripped], which left [c3]. *)
Definition compared (asns : list pyval) (org_id : pyval) (c : connection)
    (asn asn_id asn_in_db stripped : pyval) (c0 c3 : connection) : Prop :=
  exists pre post k c1 c2,
    asns = pre ++ asn :: post
    /\ for_each (remove_or_unlink_asn org_id) pre c = (Ok tt, c0)
    /\ py_getitem asn "number" = Ok asn_id
    /\ unlink_asn org_id asn_id c0 = (Ok k, c1)
    /\ count_links asn_id c1 = (Ok (PInt 0), c1)
    /\ __db_query_asn asn_id "" false c1 = (Ok asn_in_db, c2)
    /\ without_link_fields asn c2 = (Ok stripped, c3).

(** A store for the statements of the delete path, which name the key of an
    organisation [id] and the number of a linked ASN [asn_id]: the example
    store with both names in the organisation and link tables, an ASN table,
    and two more organisations, the last without ASNs or contacts. *)
Definition globex_row : row :=
  [("id", PInt 2); ("organisation_id", PInt 2); ("name", PStr "Globex");
   ("sector_id", PNone); ("comment", PStr ""); ("ripe_org_hdl", PStr "");
   ("ti_handle", PStr ""); ("first_handle", PStr "")].

Definition initech_row : row :=
  [("id", PInt 3); ("organisation_id", PInt 3); ("name", PStr "Initech");
   ("sector_id", PNone); ("comment", PStr ""); ("ripe_org_hdl", PStr "");
   ("ti_handle", PStr ""); ("first_handle", PStr "")].

Definition asn_link (org asn : Z) : row :=
  [("organisation_id", PInt org); ("asn", PInt asn); ("asn_id", PInt asn);
   ("notification_interval", PInt 0)].

Definition transitional : connection :=
  let db :=
    <["organisation" :=
        mkTable (generated "id" :: organisation_columns "organisation_id")
                [("id", PInt 1) :: acme; globex_row; initech_row] 3]>
    (<["organisation_to_asn" :=
         mkTable [plain "organisation_id"; plain "asn"; plain "asn_id";
                  plain "notification_interval"]
                 [asn_link 1 64496; asn_link 1 64511; asn_link 2 64511] 0]>
     (<["autonomous_system" :=
          mkTable [plain "number"; plain "comment"]
                  [[("number", PInt 64496); ("comment", PStr "")];
                   [("number", PInt 64511); ("comment", PStr "")]] 0]>
      contactdb)) in
  mkConn db db.

(** The aggregate of the organisation without children, as read from the
    store above. *)
Definition initech : pyval :=
  PDict (initech_row
         ++ [("asns", PList []); ("contacts", PList []); ("nationalcerts", PList []);
             ("networks", PList []); ("fqdns", PList []); ("annotations", PNone)]).

(** An ASN payload of the delete path. *)
Definition asn_payload (org asn : Z) : pyval :=
  PDict (("number", PInt asn) :: asn_link org asn).

(** A payload with the six values of the stored example organisation and
    the given children. *)
Definition acme_with (asns : list pyval) (contacts : list row) : row :=
  [("name", PStr "Acme Corp"); ("comment", PStr ""); ("ripe_org_hdl", PStr "");
   ("ti_handle", PStr ""); ("first_handle", PStr "");
   ("asns", PList asns); ("contacts", PList (map PDict contacts))].

Definition grace : row :=
  [("firstname", PStr "Grace"); ("lastname", PStr "Hopper");
   ("tel", PStr "+1 555 0100"); ("openpgp_fpr", PStr "");
   ("email", PStr "grace@acme.example"); ("comment", PStr "")].

(** A snapshot of the example organisation that is out of date: it lacks
    the children the store holds. *)
Definition stale_acme : pyval := PDict (("id", PInt 1) :: acme).

(** The names in the organisation table of a store. *)
Definition organisation_names (db : gmap string table) : list pyval :=
  match db !! "organisation" with
  | Some tb => map (fun r => col r "name") (rows tb)
  | None => []
  end.

(** The request body of a batch. *)
Definition batch (commands : list string) (orgs : list pyval) : pyval :=
  PDict [("commands", PList (map PStr commands)); ("orgs", PList orgs)].

(** A payload extended with an id. *)
Definition with_id (id : Z) (org : pyval) : pyval :=
  match org with
  | PDict d => PDict (dict_set "id" (PInt id) d)
  | _ => org
  end.

(** A computation that never commits: the committed store is as before,
    however the computation ends. *)
Definition keeps_committed {A : Type} (m : M A) : Prop :=
  forall c r c', m c = (r, c') -> committed c' = committed c.

(** ** Notions used for the remaining functions *)

(** The value of a key of a request body, where the key is there, has a
    length: it is an array, a string or an object, not null or a number. *)
Definition has_length (k : string) (d : row) : Prop :=
  forall v, dict_get k d = Some v -> exists n, py_len v = Ok n.

(** A request body that passes the first test of the commit endpoint:
    commands and orgs are there and have one length, which is not zero. *)
Definition acceptable_body (d : row) : Prop :=
  exists cv ov n,
    dict_get "commands" d = Some cv /\ dict_get "orgs" d = Some ov
    /\ py_len cv = Ok n /\ py_len ov = Ok n /\ (0 < n)%nat.

(** Two stores hold the same tables with the same columns and rows; the
    values of the sequences may differ. *)
Definition same_contents (db db2 : gmap string table) : Prop :=
  forall t,
    match db !! t, db2 !! t with
    | Some tb, Some tb2 => columns tb2 = columns tb /\ rows tb2 = rows tb
    | None, None => True
    | _, _ => False
    end.

Definition command_names : list string := ["create"; "update"; "delete"].

(** A computation that writes nothing: the store of the open transaction
    is as before, however the computation ends. *)
Definition reads_only {A : Type} (m : M A) : Prop :=
  forall c r c', m c = (r, c') -> working c' = working c.

(** The example store with the remaining tables of the automatic variant,
    as the aggregate read names them. *)
Definition mirrored : connection :=
  let db :=
    <["national_cert_automatic" :=
        mkTable [plain "country_code"; plain "organisation_automatic_id";
                 plain "comment"] [] 0]>
    (<["network_automatic" :=
         mkTable [generated "network_automatic_id"; plain "address"; plain "comment"]
                 [] 0]>
     (<["organisation_to_network_automatic" :=
          mkTable [plain "organisation_automatic_id"; plain "network_automatic_id"]
                  [] 0]>
      (<["fqdn_automatic" :=
           mkTable [generated "fqdn_automatic_id"; plain "fqdn"; plain "comment"] [] 0]>
       (<["organisation_to_fqdn_automatic" :=
            mkTable [plain "organisation_automatic_id"; plain "fqdn_automatic_id"]
                    [] 0]>
        contactdb)))) in
  mkConn db db.

(** The characters that LIKE does not take literally. *)
Definition wildcard (a : ascii) : bool :=
  Ascii.eqb a "%" || Ascii.eqb a "_" || Ascii.eqb a "\".

(** A query without such characters. *)
Definition literal (s : string) : bool :=
  forallb (fun a => negb (wildcard a)) (list_ascii_of_string s).

(** A string with its letters A to Z in lower case. *)
Definition lower (s : string) : string :=
  string_of_list_ascii (map lower_ascii (list_ascii_of_string s)).

(** What a search collects: the value of the key column in every row that
    satisfies the condition, in the order of the table. *)
Definition found_ids (key : string) (p : row -> bool) (tb : table) : pyval :=
  PList (map (fun r => col r key) (List.filter p (rows tb))).

(** The name of an organisation row contains the query, letter case aside:
    [q.lower() in name.lower()]. *)
Definition name_contains (q : string) (o : row) : bool :=
  match col o "name" with
  | PStr s => substringb (lower q) (lower s)
  | _ => false
  end.

(** The address of a contact row contains the query as it is written:
    [q in email]. *)
Definition email_contains (q : string) (c : row) : bool :=
  match col c "email" with
  | PStr s => substringb q s
  | _ => false
  end.

(** A payload that renames the organisation without children of the store
    above. *)
Definition renamed : pyval :=
  PDict [("id", PInt 3); ("name", PStr "Initech Ltd"); ("sector_id", PStr "");
         ("comment", PStr "moved"); ("ripe_org_hdl", PStr ""); ("ti_handle", PStr "");
         ("first_handle", PStr ""); ("asns", PList []); ("contacts", PList [])].

(** The rows of a table of a store. *)
Definition rows_of (t : string) (db : gmap string table) : list row :=
  match db !! t with
  | Some tb => rows tb
  | None => []
  end.

(** The rows of a table that belong to other organisations than [org_id]:
    those [organisation_id = org_id] does not select. *)
Definition of_others (org_id : pyval) (t : string) (db : gmap string table)
  : list row :=
  List.filter (fun r => negb (sql_eq (col r "organisation_id") org_id)) (rows_of t db).

(** A computation that leaves the rows of other organisations in a table
    as they are, however it ends. *)
Definition keeps_others {A : Type} (org_id : pyval) (t : string) (m : M A) : Prop :=
  forall c r c', m c = (r, c') ->
  of_others org_id t (working c') = of_others org_id t (working c).

(** The example store with three networks, two of them inhibited. *)
Definition inhibited : connection :=
  let db :=
    <["inhibition" :=
        mkTable [generated "id"; plain "net_id"; plain "comment"]
                [[("id", PInt 1); ("net_id", PInt 10); ("comment", PStr "")];
                 [("id", PInt 2); ("net_id", PInt 11); ("comment", PStr "")]] 2]>
    (<["network" :=
         mkTable [generated "id"; plain "address"; plain "comment"]
                 [[("id", PInt 10); ("address", PStr "192.0.2.0/25"); ("comment", PStr "")];
                  [("id", PInt 11); ("address", PStr "192.0.2.128/25");
                   ("comment", PStr "")];
                  [("id", PInt 12); ("address", PStr "198.51.100.0/24");
                   ("comment", PStr "")]] 12]>
     contactdb) in
  mkConn db db.

(** The example store with a role table and a contact table keyed by
    [id], as the statements of [__remove_or_unlink_contacts] name them:
    contact 1 has a role in two organisations, contact 2 in one. *)
Definition with_roles : connection :=
  let db :=
    <["role" :=
        mkTable [plain "organisation_id"; plain "contact_id"]
                [[("organisation_id", PInt 1); ("contact_id", PInt 1)];
                 [("organisation_id", PInt 2); ("contact_id", PInt 1)];
                 [("organisation_id", PInt 1); ("contact_id", PInt 2)]] 0]>
    (<["contact" :=
         mkTable [generated "id"; plain "email"]
                 [[("id", PInt 1); ("email", PStr "abuse@acme.example")];
                  [("id", PInt 2); ("email", PStr "noc@acme.example")];
                  [("id", PInt 3); ("email", PStr "cert@globex.example")]] 3]>
     contactdb) in
  mkConn db db.

(** The annotations stored for an ASN, in the order of the table. *)
Definition annotations_of (asn_id : pyval) (db : gmap string table) : list pyval :=
  map (fun r => col r "annotation")
      (List.filter (fun r => sql_eq (col r "asn") asn_id)
         (rows_of "autonomous_system_annotation" db)).

(** * Properties *)

(** ** Running the monad *)

Lemma bind_run {A B : Type} (m : M A) (k : A -> M B) c a c' :
  m c = (Ok a, c') -> bind m k c = k a c'.
Proof. intros H. unfold bind. now rewrite H. Qed.

Lemma bind_raise {A B : Type} (m : M A) (k : A -> M B) c e c' :
  m c = (Raise e, c') -> bind m k c = (Raise e, c').
Proof. intros H. unfold bind. now rewrite H. Qed.

Lemma bind_ok {A B : Type} (m : M A) (k : A -> M B) c b c2 :
  bind m k c = (Ok b, c2) ->
  exists a c1, m c = (Ok a, c1) /\ k a c1 = (Ok b, c2).
Proof.
  unfold bind. destruct (m c) as [[a|e] c1]; intros H.
  - now exists a, c1.
  - discriminate.
Qed.

Lemma bind_cases {A B : Type} (m : M A) (k : A -> M B) c r c2 :
  bind m k c = (r, c2) ->
  (exists a c1, m c = (Ok a, c1) /\ k a c1 = (r, c2))
  \/ (exists e, m c = (Raise e, c2) /\ r = Raise e).
Proof.
  unfold bind. destruct (m c) as [[a|e] c1]; intros H.
  - left. now exists a, c1.
  - right. exists e. now inversion H.
Qed.

Lemma lift_ok {A : Type} (o : outcome A) c a c' :
  lift o c = (Ok a, c') -> o = Ok a /\ c' = c.
Proof. unfold lift. intros H. now inversion H. Qed.

Lemma lift_run {A : Type} (o : outcome A) c : lift o c = (o, c).
Proof. reflexivity. Qed.

Lemma obind_ok {A B : Type} (o : outcome A) (k : A -> outcome B) b :
  obind o k = Ok b -> exists a, o = Ok a /\ k a = Ok b.
Proof. destruct o as [a|e]; simpl; intros H; [now exists a | discriminate]. Qed.

(** Decompose a successful run hypothesis one bind at a time. *)
Ltac run_ok H :=
  lazymatch type of H with
  | bind _ _ _ = (Ok _, _) =>
      let a := fresh "a" in
      let c := fresh "c" in
      let H1 := fresh "H" in
      apply bind_ok in H as (a & c & H1 & H)
  | lift _ _ = (Ok _, _) =>
      let E := fresh "E" in
      apply lift_ok in H as [E ->]
  | ret _ _ = (Ok _, _) => unfold ret in H; inversion H; subst; clear H
  | raise _ _ = (Ok _, _) => discriminate H
  end.

(** ** Dictionaries *)

Lemma dict_get_set_eq {A : Type} k (v : A) d : dict_get k (dict_set k v d) = Some v.
Proof.
  induction d as [|[k' v'] d IH]; simpl.
  - now rewrite String.eqb_refl.
  - destruct (String.eqb k k') eqn:E; simpl; rewrite ?String.eqb_refl, ?E; auto.
Qed.

Lemma dict_get_set_ne {A : Type} k k' (v : A) d :
  k <> k' -> dict_get k (dict_set k' v d) = dict_get k d.
Proof.
  intros Hne. induction d as [|[k2 v2] d IH]; simpl.
  - destruct (String.eqb k k') eqn:E; [apply String.eqb_eq in E; contradiction | reflexivity].
  - destruct (String.eqb k' k2) eqn:E; simpl.
    + apply String.eqb_eq in E. subst k2.
      destruct (String.eqb k k') eqn:E'; [apply String.eqb_eq in E'; contradiction | reflexivity].
    + now rewrite IH.
Qed.

Lemma dict_get_map {A B : Type} (f : string * A -> B) k (l : list (string * A)) :
  dict_get k (map (fun cd => (fst cd, f cd)) l)
  = match dict_get k (map (fun cd => (fst cd, cd)) l) with
    | Some cd => Some (f cd)
    | None => None
    end.
Proof.
  induction l as [|[k' a] l IH]; simpl; [reflexivity|].
  destruct (String.eqb k k'); [reflexivity | apply IH].
Qed.

Lemma dict_get_map_fst {A : Type} k (l : list (string * A)) cd :
  dict_get k (map (fun cd => (fst cd, cd)) l) = Some cd -> fst cd = k.
Proof.
  induction l as [|[k' a] l IH]; simpl; [discriminate|].
  destruct (String.eqb k k') eqn:E.
  - intros H. inversion H. simpl. symmetry. now apply String.eqb_eq.
  - apply IH.
Qed.

Lemma dict_get_map_some {A : Type} k (l : list (string * A)) :
  existsb (String.eqb k) (map fst l) = true ->
  exists cd, dict_get k (map (fun cd => (fst cd, cd)) l) = Some cd.
Proof.
  induction l as [|[k' a] l IH]; simpl; [discriminate|].
  destruct (String.eqb k k'); simpl; eauto.
Qed.

(** A freshly inserted row holds the inserted value in every column the
    statement lists. *)
Lemma col_new_row tb vals k v :
  has_column tb k = true -> dict_get k vals = Some v ->
  col (new_row tb vals) k = v.
Proof.
  unfold has_column, col, new_row. intros Hc Hv.
  rewrite (dict_get_map (fun cd => match dict_get (fst cd) vals with
                                   | Some v => v
                                   | None => match snd cd with
                                             | DefaultNull => PNone
                                             | DefaultSerial => PInt (serial tb + 1)
                                             end
                                   end)).
  destruct (dict_get_map_some k (columns tb) Hc) as [cd Hcd].
  rewrite Hcd. apply dict_get_map_fst in Hcd. now rewrite Hcd, Hv.
Qed.

Lemma with_columns_ok tb cs :
  forallb (has_column tb) cs = true -> with_columns tb cs = Ok tt.
Proof. unfold with_columns. now intros ->. Qed.

Lemma with_columns_inv tb cs u :
  with_columns tb cs = Ok u -> forallb (has_column tb) cs = true.
Proof. unfold with_columns. destruct (forallb _ _); [reflexivity | discriminate]. Qed.

(** ** Which tables a computation writes *)

Lemma touches_ret {A : Type} ts (a : A) : touches ts (ret a).
Proof. intros c r c' H. now inversion H. Qed.

Lemma touches_raise {A : Type} ts e : touches ts (@raise A e).
Proof. intros c r c' H. now inversion H. Qed.

Lemma touches_lift {A : Type} ts (o : outcome A) : touches ts (lift o).
Proof. intros c r c' H. now inversion H. Qed.

Lemma touches_bind {A B : Type} ts (m : M A) (k : A -> M B) :
  touches ts m -> (forall a, touches ts (k a)) -> touches ts (bind m k).
Proof.
  intros Hm Hk c r c' H t Ht.
  apply bind_cases in H as [(a & c1 & H1 & H2) | (e & H1 & _)].
  - rewrite (Hk a _ _ _ H2 t Ht). now apply (Hm _ _ _ H1).
  - now apply (Hm _ _ _ H1).
Qed.

Lemma touches_for_each {A : Type} ts (body : A -> M unit) l :
  (forall x, touches ts (body x)) -> touches ts (for_each body l).
Proof.
  intros Hb. induction l as [|x l IH]; simpl.
  - apply touches_ret.
  - apply touches_bind; auto.
Qed.

Lemma touches_commit ts : touches ts __commit_transaction.
Proof. intros c r c' H. now inversion H. Qed.

Lemma touches_execute ts op ps : writes ts op -> touches ts (execute op ps).
Proof.
  intros Hw c r c' H t Ht. unfold execute in H.
  destruct (forallb adaptable ps); [|now inversion H].
  destruct (op ps (working c)) as [cur|e] eqn:E; inversion H; subst; simpl.
  - now apply (Hw _ _ _ E).
  - reflexivity.
Qed.

Lemma touches_db_query ts op ps et : writes ts op -> touches ts (_db_query op ps et).
Proof.
  intros Hw. unfold _db_query.
  apply touches_bind; [now apply touches_execute | intros cur].
  apply touches_bind; [destruct et; [apply touches_commit | apply touches_ret] | intros _].
  apply touches_ret.
Qed.

Lemma touches_db_manipulate ts op ps et :
  writes ts op -> touches ts (_db_manipulate op ps et).
Proof.
  intros Hw. unfold _db_manipulate.
  apply touches_bind; [now apply touches_execute | intros cur].
  apply touches_bind; [destruct et; [apply touches_commit | apply touches_ret] | intros _].
  apply touches_ret.
Qed.

(** A statement writes at most the table it names. *)
Ltac statement_frame :=
  let H := fresh "H" in
  let t := fresh "t" in
  let Ht := fresh "Ht" in
  intros ? ? ? H t Ht;
  unfold sql_select, sql_aggregate, sql_join, sql_delete, sql_insert,
    sql_update, obind in H;
  repeat match type of H with
         | context [match ?x with _ => _ end] => destruct x eqn:?; try discriminate
         end;
  inversion H; subst; simpl; try reflexivity;
  apply lookup_insert_ne; intros <-; apply Ht; simpl; tauto.

Ltac frame :=
  repeat first
    [ apply touches_ret
    | apply touches_raise
    | apply touches_lift
    | apply touches_commit
    | apply touches_db_query; statement_frame
    | apply touches_db_manipulate; statement_frame
    | apply touches_for_each; intros ?
    | apply touches_bind; [|intros ?]
    | match goal with
      | |- touches _ (match ?x with _ => _ end) => destruct x
      end ].

Lemma touches_db_query_asn_annotations asn et :
  touches [] (__db_query_asn_annotations asn et).
Proof. unfold __db_query_asn_annotations. frame. Qed.

Lemma touches_annotate_asns asns et : touches [] (annotate_asns asns et).
Proof.
  induction asns as [|asn rest IH]; simpl; frame.
  all: try apply touches_db_query_asn_annotations; try apply IH.
Qed.

Lemma touches_db_query_org org_id tv et : touches [] (__db_query_org org_id tv et).
Proof.
  unfold __db_query_org. frame. all: apply touches_annotate_asns.
Qed.

Lemma touches_db_query_asn asn tv et : touches [] (__db_query_asn asn tv et).
Proof. unfold __db_query_asn. frame. Qed.

Lemma touches_mono {A : Type} ts ts' (m : M A) :
  (forall t, In t ts -> In t ts') -> touches ts m -> touches ts' m.
Proof. intros Hs Hm c r c' H t Ht. apply (Hm _ _ _ H). auto. Qed.

Lemma touches_remove_inhibitions inhibitions :
  touches ["inhibition"; "network"] (__remove_inhibitions inhibitions).
Proof. unfold __remove_inhibitions. frame. Qed.

Lemma touches_remove_or_unlink_asns asns org_id :
  touches ["organisation_to_asn"; "inhibition"; "network"; "autonomous_system"]
    (__remove_or_unlink_asns asns org_id).
Proof.
  unfold __remove_or_unlink_asns, remove_or_unlink_asn, unlink_asn, count_links,
    without_link_fields.
  frame.
Qed.

Lemma touches_remove_or_unlink_contacts contacts org_id :
  touches ["role"; "contact"] (__remove_or_unlink_contacts contacts org_id).
Proof. unfold __remove_or_unlink_contacts, remove_or_unlink_contact. frame. Qed.

Lemma touches_fix_asns_to_org asns org_id :
  touches ["autonomous_system_annotation"; "organisation_to_asn"]
    (__fix_asns_to_org asns org_id).
Proof. unfold __fix_asns_to_org, fix_asn_to_org. frame. Qed.

Lemma touches_fix_contacts_to_org contacts org_id :
  touches ["contact"] (__fix_contacts_to_org contacts org_id).
Proof. unfold __fix_contacts_to_org, fix_contact_to_org. frame. Qed.

(** ** What a statement that completes has done *)

Lemma lift_inv {A : Type} (o : outcome A) c r c' :
  lift o c = (r, c') -> r = o /\ c' = c.
Proof. unfold lift. intros H. now inversion H. Qed.

Lemma bind_lift_ok {A B : Type} (a : A) (k : A -> M B) c :
  bind (lift (Ok a)) k c = k a c.
Proof. reflexivity. Qed.

Lemma execute_inv op ps c r c1 :
  execute op ps c = (r, c1) ->
  (exists e, r = Raise e /\ c1 = c)
  \/ (exists cur, forallb adaptable ps = true /\ op ps (working c) = Ok cur
                  /\ r = Ok cur /\ c1 = mkConn (committed c) (store cur)).
Proof.
  unfold execute. destruct (forallb adaptable ps).
  - destruct (op ps (working c)) as [cur|e]; intros H; inversion H; subst; eauto 8.
  - intros H; inversion H; subst; eauto.
Qed.

Lemma db_query_inv op ps c r c1 :
  _db_query op ps false c = (r, c1) ->
  (exists e, r = Raise e /\ c1 = c)
  \/ (exists cur, forallb adaptable ps = true /\ op ps (working c) = Ok cur
                  /\ r = Ok (fetched cur) /\ c1 = mkConn (committed c) (store cur)).
Proof.
  unfold _db_query. intros H.
  apply bind_cases in H as [(cur & c2 & H1 & H) | (e & H1 & ->)];
    apply execute_inv in H1 as [(e' & He & ->) | (cur' & Ha & Hop & Hr & ->)];
    try discriminate; eauto.
  inversion Hr; subst cur'. inversion H; subst. eauto 8.
Qed.

Lemma db_manipulate_inv op ps c r c1 :
  _db_manipulate op ps false c = (r, c1) ->
  (exists e, r = Raise e /\ c1 = c)
  \/ (exists cur, forallb adaptable ps = true /\ op ps (working c) = Ok cur
                  /\ r = Ok (rowcount cur) /\ c1 = mkConn (committed c) (store cur)).
Proof.
  unfold _db_manipulate. intros H.
  apply bind_cases in H as [(cur & c2 & H1 & H) | (e & H1 & ->)];
    apply execute_inv in H1 as [(e' & He & ->) | (cur' & Ha & Hop & Hr & ->)];
    try discriminate; eauto.
  inversion Hr; subst cur'. inversion H; subst. eauto 8.
Qed.

Lemma relation_inv db t tb : relation db t = Ok tb -> db !! t = Some tb.
Proof. unfold relation. destruct (db !! t); intros H; now inversion H. Qed.

Lemma sql_select_inv targets t cs p db cur :
  sql_select targets t cs p db = Ok cur ->
  exists tb, db !! t = Some tb /\ forallb (has_column tb) cs = true
    /\ fetched cur = map (project targets) (List.filter p (rows tb))
    /\ store cur = db.
Proof.
  unfold sql_select. intros H.
  apply obind_ok in H as (tb & Ht & H). apply obind_ok in H as (u & Hc & H).
  apply relation_inv in Ht. apply with_columns_inv in Hc.
  inversion H; subst. simpl. eauto.
Qed.

Lemma sql_aggregate_inv name agg t cs p db cur :
  sql_aggregate name agg t cs p db = Ok cur ->
  exists tb, db !! t = Some tb /\ forallb (has_column tb) cs = true
    /\ fetched cur = [[(name, agg (List.filter p (rows tb)))]]
    /\ store cur = db.
Proof.
  unfold sql_aggregate. intros H.
  apply obind_ok in H as (tb & Ht & H). apply obind_ok in H as (u & Hc & H).
  apply relation_inv in Ht. apply with_columns_inv in Hc.
  inversion H; subst. simpl. eauto.
Qed.

Lemma sql_insert_inv t vals returning db cur :
  sql_insert t vals returning db = Ok cur ->
  exists tb s, db !! t = Some tb
    /\ forallb (has_column tb) (map fst vals ++ returning) = true
    /\ fetched cur = match returning with
                     | [] => []
                     | _ => [project (Some returning) (new_row tb vals)]
                     end
    /\ store cur = <[t := mkTable (columns tb) (rows tb ++ [new_row tb vals]) s]> db.
Proof.
  unfold sql_insert. intros H.
  apply obind_ok in H as (tb & Ht & H). apply obind_ok in H as (u & Hc & H).
  apply relation_inv in Ht. apply with_columns_inv in Hc.
  inversion H; subst. simpl. eauto 8.
Qed.

Lemma sql_delete_inv t cs p db cur :
  sql_delete t cs p db = Ok cur ->
  exists tb, db !! t = Some tb /\ forallb (has_column tb) cs = true
    /\ rowcount cur = Z.of_nat (length (List.filter p (rows tb)))
    /\ store cur = <[t := mkTable (columns tb)
                             (List.filter (fun r => negb (p r)) (rows tb))
                             (serial tb)]> db.
Proof.
  unfold sql_delete. intros H.
  apply obind_ok in H as (tb & Ht & H). apply obind_ok in H as (u & Hc & H).
  apply relation_inv in Ht. apply with_columns_inv in Hc.
  inversion H; subst. simpl. eauto 8.
Qed.

Lemma conn_eta c : mkConn (committed c) (working c) = c.
Proof. now destruct c. Qed.

Lemma bind_assoc {A B C : Type} (m : M A) (k1 : A -> M B) (k2 : B -> M C) c :
  bind (bind m k1) k2 c = bind m (fun a => bind (k1 a) k2) c.
Proof. unfold bind. destruct (m c) as [[a|e] c1]; reflexivity. Qed.

(** ** The contact reconciler *)

Lemma for_each_app {A : Type} (body : A -> M unit) l1 l2 c :
  for_each body (l1 ++ l2) c = (for_each body l1 ;; for_each body l2) c.
Proof.
  revert c. induction l1 as [|x l1 IH]; intros c; simpl.
  - reflexivity.
  - unfold bind. destruct (body x c) as [[u|e] c1]; [|reflexivity].
    rewrite IH. reflexivity.
Qed.

Lemma named_dict d keys vs :
  Forall2 (fun k v => dict_get k d = Some v) keys vs -> named (PDict d) keys = Ok vs.
Proof.
  induction 1 as [|k v keys vs Hk _ IH]; simpl; [reflexivity|].
  now rewrite Hk, IH.
Qed.

Lemma py_eqb_int_refl n : py_eqb (PInt n) (PInt n) = true.
Proof. simpl. apply Z.eqb_refl. Qed.

Lemma sql_eq_int_refl n : sql_eq (PInt n) (PInt n) = true.
Proof. unfold sql_eq. simpl. apply Z.eqb_refl. Qed.

Lemma filter_neg_nil {A : Type} (p : A -> bool) l :
  List.filter p (List.filter (fun x => negb (p x)) l) = [].
Proof.
  induction l as [|x l IH]; simpl; [reflexivity|].
  destruct (p x) eqn:E; simpl; [assumption | now rewrite E].
Qed.

Lemma lacks_get d a :
  lacks d a = false -> exists v, dict_get a d = Some v /\ is_none v = false.
Proof.
  unfold lacks. destruct (dict_get a d) as [v|]; [|discriminate]. eauto.
Qed.

Lemma require_attribs_cons a attribs d :
  require_attribs (a :: attribs) (PDict d)
  = if lacks d a then Raise (CommitError "{} not set" [PStr a])
    else require_attribs attribs (PDict d).
Proof.
  cbn [require_attribs py_contains py_getitem obind].
  unfold dict_has, lacks.
  destruct (dict_get a d) as [v|]; [|reflexivity].
  cbn [obind]. now destruct (is_none v).
Qed.

(** The attribute check passes exactly on a dictionary that lacks none. *)
Lemma require_attribs_dict attribs d :
  (forall a, In a attribs -> lacks d a = false) ->
  require_attribs attribs (PDict d) = Ok tt.
Proof.
  induction attribs as [|a attribs IH]; intros H; [reflexivity|].
  rewrite require_attribs_cons, H by (simpl; tauto).
  apply IH. intros b Hb. apply H. simpl. tauto.
Qed.

Lemma require_attribs_lacking attribs d :
  (exists a, In a attribs /\ lacks d a = true) ->
  exists a, In a attribs /\ lacks d a = true
            /\ require_attribs attribs (PDict d) = Raise (CommitError "{} not set" [PStr a]).
Proof.
  induction attribs as [|a attribs IH]; intros (b & Hb & Hl); [destruct Hb|].
  rewrite require_attribs_cons.
  destruct (lacks d a) eqn:E.
  - exists a. split; [simpl; tauto|]. now split.
  - destruct Hb as [->|Hb]; [congruence|].
    destruct IH as (a' & Ha' & Hl' & Hr); [eauto|].
    exists a'. split; [simpl; tauto|]. now split.
Qed.

Lemma require_attribs_ok attribs x :
  attribs <> [] -> require_attribs attribs x = Ok tt ->
  exists d, x = PDict d /\ forall a, In a attribs -> lacks d a = false.
Proof.
  intros Hne H.
  destruct x as [| z | s | l | d].
  1-4: destruct attribs as [|a attribs]; [congruence|]; simpl in H;
       try discriminate;
       match type of H with
       | context [if ?b then _ else _] => destruct b; discriminate
       end.
  exists d. split; [reflexivity|]. clear Hne.
  induction attribs as [|a attribs IH]; intros b Hb; [destruct Hb|].
  rewrite require_attribs_cons in H.
  destruct (lacks d a) eqn:Hl; [discriminate|].
  destruct Hb as [<-|Hb]; [assumption | now apply IH].
Qed.

(** Once the attributes are known to be there, the loop body is the
    [INSERT] alone. *)
Lemma fix_contact_to_org_insert d org_id c :
  (forall a, In a contact_attribs -> lacks d a = false) ->
  fix_contact_to_org org_id (PDict d) c
  = (_db_manipulate
       (fun p => sql_insert "contact"
                   [("firstname", arg 0 p); ("lastname", arg 1 p); ("tel", arg 2 p);
                    ("openpgp_fpr", arg 3 p); ("email", arg 4 p);
                    ("comment", arg 5 p); ("organisation_id", arg 6 p)] [])
       (contact_values d ++ [org_id]) false ;; ret tt) c.
Proof.
  intros H. unfold fix_contact_to_org.
  rewrite (require_attribs_dict _ _ H). rewrite bind_lift_ok.
  unfold py_setitem. rewrite bind_lift_ok.
  rewrite (named_dict _ _ (contact_values d ++ [org_id])); [reflexivity|].
  unfold contact_values, contact_attribs. simpl.
  repeat constructor; rewrite ?dict_get_set_eq, ?dict_get_set_ne by discriminate;
    try reflexivity;
    match goal with
    | |- dict_get ?a d = Some _ =>
        destruct (lacks_get d a) as (v & Hv & _);
          [apply H; simpl; tauto | unfold col; now rewrite Hv]
    end.
Qed.


Lemma contact_insert_ok d org_id c u c' :
  (_db_manipulate
     (fun p => sql_insert "contact"
                 [("firstname", arg 0 p); ("lastname", arg 1 p); ("tel", arg 2 p);
                  ("openpgp_fpr", arg 3 p); ("email", arg 4 p);
                  ("comment", arg 5 p); ("organisation_id", arg 6 p)] [])
     (contact_values d ++ [org_id]) false ;; ret tt) c = (Ok u, c') ->
  contact_added org_id d c c'.
Proof.
  unfold _db_manipulate, execute, bind, ret.
  destruct (forallb adaptable _); [|discriminate].
  unfold sql_insert, relation.
  destruct (working c !! "contact") as [tb|] eqn:Htb; [|discriminate].
  simpl obind.
  destruct (with_columns tb _) as [[]|] eqn:Hc; [|discriminate].
  simpl. intros H. inversion H; subst. clear H.
  apply with_columns_inv in Hc. simpl in Hc.
  repeat (apply andb_prop in Hc as [? Hc]).
  eexists tb, _, _. split; [exact Htb|]. split; [reflexivity|].
  split; [now apply col_new_row|].
  unfold contact_values, contact_attribs. simpl map.
  repeat (apply (f_equal2 cons); [now apply col_new_row|]). reflexivity.
Qed.

Lemma contact_insert_run d org_id c tb :
  forallb adaptable (contact_values d ++ [org_id]) = true ->
  working c !! "contact" = Some tb ->
  forallb (has_column tb) (contact_attribs ++ ["organisation_id"]) = true ->
  exists c',
    (_db_manipulate
       (fun p => sql_insert "contact"
                   [("firstname", arg 0 p); ("lastname", arg 1 p); ("tel", arg 2 p);
                    ("openpgp_fpr", arg 3 p); ("email", arg 4 p);
                    ("comment", arg 5 p); ("organisation_id", arg 6 p)] [])
       (contact_values d ++ [org_id]) false ;; ret tt) c = (Ok tt, c').
Proof.
  intros Ha Htb Hc. unfold _db_manipulate, execute, bind, ret.
  rewrite Ha. unfold sql_insert, relation. rewrite Htb. simpl obind.
  rewrite with_columns_ok by exact Hc. simpl. eauto.
Qed.

Lemma stored_contacts_added org_id d c c' :
  sql_eq org_id org_id = true ->
  contact_added org_id d c c' ->
  exists r, stored_contacts org_id (working c')
            = stored_contacts org_id (working c) ++ [r]
            /\ contact_values r = contact_values d.
Proof.
  intros Hrefl (tb & r & s & Htb & -> & Ho & Hv).
  exists r. split; [|assumption].
  unfold stored_contacts. simpl. rewrite lookup_insert_eq, Htb. simpl.
  rewrite List.filter_app. simpl. now rewrite Ho, Hrefl.
Qed.

(** The loop of [__fix_contacts_to_org], when it completes, has appended one
    row per payload, in order. *)
Lemma fix_contacts_loop_ok org_id l :
  sql_eq org_id org_id = true ->
  forall c c',
  for_each (fix_contact_to_org org_id) l c = (Ok tt, c') ->
  exists ds, l = map PDict ds
    /\ map contact_values (stored_contacts org_id (working c'))
       = map contact_values (stored_contacts org_id (working c))
         ++ map contact_values ds.
Proof.
  intros Hrefl. induction l as [|x l IH]; intros c c' H; simpl in H.
  - inversion H; subst. exists []. simpl. now rewrite app_nil_r.
  - apply bind_ok in H as ([] & c1 & Hx & Hl).
    assert (Hreq : require_attribs contact_attribs x = Ok tt).
    { unfold fix_contact_to_org in Hx. apply bind_ok in Hx as (u & c2 & Hx & _).
      apply lift_ok in Hx as [Hx _]. now destruct u. }
    apply require_attribs_ok in Hreq as (d & -> & Hd); [|discriminate].
    rewrite (fix_contact_to_org_insert _ _ _ Hd) in Hx.
    apply contact_insert_ok in Hx.
    destruct (stored_contacts_added _ _ _ _ Hrefl Hx) as (r & Hs & Hv).
    destruct (IH _ _ Hl) as (ds & -> & Hds).
    exists (d :: ds). split; [reflexivity|].
    rewrite Hds, Hs, map_app. simpl. rewrite Hv, <- app_assoc. reflexivity.
Qed.

Lemma delete_contacts_run org_id c n c' :
  _db_manipulate
    (fun p => sql_delete "contact" ["organisation_id"]
                (fun r => sql_eq (col r "organisation_id") (arg 0 p)))
    [org_id] false c = (Ok n, c') ->
  stored_contacts org_id (working c') = []
  /\ exists tb rs, working c !! "contact" = Some tb
       /\ c' = mkConn (committed c)
                 (<["contact" := mkTable (columns tb) rs (serial tb)]> (working c)).
Proof.
  unfold _db_manipulate, execute, bind, ret.
  destruct (forallb adaptable _); [|discriminate].
  unfold sql_delete, relation.
  destruct (working c !! "contact") as [tb|] eqn:Htb; [|discriminate].
  simpl obind.
  destruct (with_columns tb _) as [[]|]; [|discriminate].
  simpl. intros H. inversion H; subst. clear H. split.
  - unfold stored_contacts. simpl. rewrite lookup_insert_eq. simpl.
    apply filter_neg_nil.
  - eauto.
Qed.

(** Whenever [__fix_contacts_to_org] completes, the contacts stored for the
    organisation are the payloads it was given. *)
Lemma fix_contacts_to_org_ok contacts org_id c c' :
  sql_eq org_id org_id = true ->
  __fix_contacts_to_org contacts org_id c = (Ok tt, c') ->
  exists ds, py_iter contacts = Ok (map PDict ds)
    /\ map contact_values (stored_contacts org_id (working c'))
       = map contact_values ds.
Proof.
  intros Hrefl H. unfold __fix_contacts_to_org in H.
  apply bind_ok in H as (n & c1 & Hdel & H).
  apply bind_ok in H as (l & c2 & Hl & H).
  apply lift_ok in Hl as [Hl ->].
  apply delete_contacts_run in Hdel as [Hnone _].
  destruct (fix_contacts_loop_ok _ _ Hrefl _ _ H) as (ds & -> & Hds).
  exists ds. split; [assumption|]. now rewrite Hds, Hnone.
Qed.

Lemma complete_contact_inv d :
  complete_contact d = true ->
  (forall a, In a contact_attribs -> lacks d a = false)
  /\ forallb adaptable (contact_values d) = true.
Proof.
  unfold complete_contact, contact_values. rewrite forallb_forall. intros H. split.
  - intros a Ha. specialize (H a Ha). apply andb_prop in H as [H _].
    now destruct (lacks d a).
  - rewrite forallb_forall. intros v Hv. apply in_map_iff in Hv as (a & <- & Ha).
    specialize (H a Ha). now apply andb_prop in H as [_ H].
Qed.

(** The loop completes on complete payloads. *)
Lemma fix_contacts_loop_run org_id ds :
  adaptable org_id = true ->
  Forall (fun d => complete_contact d = true) ds ->
  forall c tb,
  working c !! "contact" = Some tb ->
  forallb (has_column tb) (contact_attribs ++ ["organisation_id"]) = true ->
  exists c' tb',
    for_each (fix_contact_to_org org_id) (map PDict ds) c = (Ok tt, c')
    /\ working c' !! "contact" = Some tb' /\ columns tb' = columns tb.
Proof.
  intros Ha Hds. induction Hds as [|d ds Hd _ IH]; intros c tb Htb Hc; simpl.
  - exists c, tb. auto.
  - apply complete_contact_inv in Hd as [Hl Hv].
    assert (Hp : forallb adaptable (contact_values d ++ [org_id]) = true).
    { rewrite forallb_app, Hv. simpl. now rewrite Ha. }
    destruct (contact_insert_run d org_id c tb Hp Htb Hc) as (c1 & Hrun).
    pose proof (contact_insert_ok _ _ _ _ _ Hrun) as (tb0 & r & s & Htb0 & -> & _).
    rewrite Htb in Htb0. inversion Htb0; subst tb0. clear Htb0.
    rewrite <- (fix_contact_to_org_insert _ _ _ Hl) in Hrun.
    match type of Hrun with
    | _ = (_, ?c1) =>
        destruct (IH c1 (mkTable (columns tb) (rows tb ++ [r]) s))
          as (c' & tb' & Hrest & Htb' & Hcols)
    end.
    + simpl. apply lookup_insert_eq.
    + exact Hc.
    + exists c', tb'. split; [|auto].
      rewrite (bind_run _ _ _ _ _ Hrun). exact Hrest.
Qed.

(** C6. For every organisation id and list of contact payloads, on a
    store whose contact table has the columns the statements name:
    when every payload has all of firstname, lastname, tel, openpgp_fpr,
    email and comment present and not None, [__fix_contacts_to_org]
    completes and the contacts then stored for the organisation are exactly
    the payloads, in order, whatever was stored before; and when some payload
    lacks a needed attribute, the first such payload makes it raise
    [CommitError] with a message naming an attribute that payload lacks. *)
Theorem fix_contacts_to_org_replaces (contacts : list row) (org_id : Z) c tb :
  working c !! "contact" = Some tb ->
  forallb (has_column tb) (contact_attribs ++ ["organisation_id"]) = true ->
  (Forall (fun d => complete_contact d = true) contacts ->
   exists c',
     __fix_contacts_to_org (PList (map PDict contacts)) (PInt org_id) c = (Ok tt, c')
     /\ map contact_values (stored_contacts (PInt org_id) (working c'))
        = map contact_values contacts)
  /\ (forall pre d post,
      contacts = pre ++ d :: post ->
      Forall (fun d => complete_contact d = true) pre ->
      (exists a, In a contact_attribs /\ lacks d a = true) ->
      exists a c',
        In a contact_attribs /\ lacks d a = true
        /\ __fix_contacts_to_org (PList (map PDict contacts)) (PInt org_id) c
           = (Raise (CommitError "{} not set" [PStr a]), c')).
Proof.
  intros Htb Hc.
  assert (Hdel : exists n c0 tb0,
             _db_manipulate
               (fun p => sql_delete "contact" ["organisation_id"]
                           (fun r => sql_eq (col r "organisation_id") (arg 0 p)))
               [PInt org_id] false c = (Ok n, c0)
             /\ working c0 !! "contact" = Some tb0 /\ columns tb0 = columns tb).
  { unfold _db_manipulate, execute, bind, ret. simpl forallb.
    unfold sql_delete, relation. rewrite Htb. simpl obind.
    rewrite with_columns_ok.
    - simpl. eexists _, _, _. split; [reflexivity|]. simpl.
      rewrite lookup_insert_eq. split; reflexivity.
    - rewrite forallb_forall in Hc. simpl.
      rewrite Hc by (simpl; tauto). reflexivity. }
  destruct Hdel as (n & c0 & tb0 & Hdel & Htb0 & Hcols0).
  assert (Hc0 : forallb (has_column tb0) (contact_attribs ++ ["organisation_id"]) = true).
  { unfold has_column in *. now rewrite Hcols0. }
  split.
  - intros Hall.
    destruct (fix_contacts_loop_run (PInt org_id) contacts eq_refl Hall c0 tb0 Htb0 Hc0)
      as (c' & tb' & Hrun & _).
    assert (Hfull : __fix_contacts_to_org (PList (map PDict contacts)) (PInt org_id) c
                    = (Ok tt, c')).
    { unfold __fix_contacts_to_org. rewrite (bind_run _ _ _ _ _ Hdel).
      simpl py_iter. rewrite bind_lift_ok. exact Hrun. }
    exists c'. split; [exact Hfull|].
    destruct (fix_contacts_to_org_ok _ _ _ _ (sql_eq_int_refl org_id) Hfull)
      as (ds & Hds & Hstored).
    simpl in Hds. inversion Hds as [Heq].
    assert (ds = contacts) as ->; [|exact Hstored].
    clear -Heq. revert contacts Heq.
    induction ds as [|d ds IH]; intros [|d' ds'] H; simpl in H; try discriminate.
    + reflexivity.
    + inversion H. f_equal. now apply IH.
  - intros pre d post -> Hpre Hlack.
    destruct (fix_contacts_loop_run (PInt org_id) pre eq_refl Hpre c0 tb0 Htb0 Hc0)
      as (c1 & tb1 & Hrun & _).
    destruct (require_attribs_lacking contact_attribs d Hlack) as (a & Ha & Hl & Hr).
    exists a, c1. split; [exact Ha|]. split; [exact Hl|].
    unfold __fix_contacts_to_org. rewrite (bind_run _ _ _ _ _ Hdel).
    simpl py_iter. rewrite bind_lift_ok, map_app, for_each_app.
    rewrite (bind_run _ _ _ _ _ Hrun). simpl.
    apply bind_raise. unfold fix_contact_to_org.
    apply bind_raise. now rewrite Hr.
Qed.

Lemma fix_contacts_to_org_replaces_witness :
  exists c',
    __fix_contacts_to_org
      (PList (map PDict [[("firstname", PStr "Grace"); ("lastname", PStr "Hopper");
                          ("tel", PStr "+1 555 0100"); ("openpgp_fpr", PStr "");
                          ("email", PStr "grace@acme.example"); ("comment", PStr "")]]))
      (PInt 1) idle = (Ok tt, c')
    /\ map contact_values (stored_contacts (PInt 1) (working c'))
       = map contact_values
           [[("firstname", PStr "Grace"); ("lastname", PStr "Hopper");
             ("tel", PStr "+1 555 0100"); ("openpgp_fpr", PStr "");
             ("email", PStr "grace@acme.example"); ("comment", PStr "")]].
Proof.
  apply (fix_contacts_to_org_replaces _ 1 idle
           (mkTable (contact_columns "contact_id" "organisation_id") [acme_contact] 1)).
  - vm_compute. reflexivity.
  - vm_compute. reflexivity.
  - repeat constructor.
Defined.

(** ** Creating an organisation *)

Lemma py_eqb_refl v : adaptable v = true -> py_eqb v v = true.
Proof.
  revert v. fix IH 1. intros [| z | s | l | d]; simpl; intros H.
  - reflexivity.
  - apply Z.eqb_refl.
  - apply String.eqb_refl.
  - induction l as [|x l IHl]; [reflexivity|].
    simpl in H. apply andb_prop in H as [Hx Hl].
    rewrite (IH x Hx). simpl. apply IHl, Hl.
  - discriminate.
Qed.

Lemma sql_eq_refl v : is_none v = false -> adaptable v = true -> sql_eq v v = true.
Proof. intros Hn Ha. unfold sql_eq. now rewrite Hn, py_eqb_refl. Qed.

Lemma default_attribs_cons a attribs d :
  default_attribs (a :: attribs) (PDict d)
  = match dict_get a d with
    | Some v => default_attribs attribs
                  (PDict (if is_none v then dict_set a (PStr "") d else d))
    | None => Raise (CommitError "{} not set" [PStr a])
    end.
Proof.
  cbn [default_attribs py_contains py_getitem obind]. unfold dict_has.
  destruct (dict_get a d) as [v|]; [|reflexivity].
  cbn [obind]. now destruct (is_none v).
Qed.

Lemma attrib_value_set_ne d a b v :
  a <> b -> attrib_value (dict_set b v d) a = attrib_value d a.
Proof. intros H. unfold attrib_value. now rewrite dict_get_set_ne. Qed.

Lemma default_attribs_dict attribs : forall d org1,
  default_attribs attribs (PDict d) = Ok org1 ->
  exists d1, org1 = PDict d1
    /\ (forall a, In a attribs ->
          dict_get a d1 = Some (attrib_value d a) /\ is_none (attrib_value d a) = false)
    /\ (forall k, ~ In k attribs -> dict_get k d1 = dict_get k d).
Proof.
  induction attribs as [|a attribs IH]; intros d org1 H.
  - inversion H. exists d. split; [reflexivity|]. split; [intros a []|reflexivity].
  - rewrite default_attribs_cons in H.
    destruct (dict_get a d) as [v|] eqn:Hv; [|discriminate].
    apply IH in H as (d1 & -> & Hin & Hout).
    exists d1. split; [reflexivity|].
    assert (Hval : forall b, attrib_value (if is_none v then dict_set a (PStr "") d else d) b
                             = attrib_value d b).
    { intros b. destruct (is_none v) eqn:Hn; [|reflexivity].
      destruct (string_dec b a) as [->|Hne].
      - unfold attrib_value. now rewrite dict_get_set_eq, Hv, Hn.
      - now apply attrib_value_set_ne. }
    split.
    + intros b Hb. destruct (in_dec string_dec b attribs) as [Hi|Hni].
      * rewrite <- Hval. now apply Hin.
      * destruct Hb as [<-|Hb]; [|contradiction].
        rewrite (Hout _ Hni). unfold attrib_value. rewrite Hv.
        destruct (is_none v) eqn:Hn.
        -- now rewrite dict_get_set_eq.
        -- now rewrite Hv, Hn.
    + intros k Hk. rewrite Hout by (intros Hi; apply Hk; simpl; tauto).
      destruct (is_none v); [|reflexivity].
      apply dict_get_set_ne. intros ->. apply Hk. simpl. tauto.
Qed.

Lemma is_none_eq v : is_none v = true -> v = PNone.
Proof. now destruct v. Qed.

Lemma no_sector_dict d1 :
  no_sector (PDict d1)
  = Ok (match dict_get "sector_id" d1 with
        | Some v => is_none v || py_eqb v (PStr "")
        | None => true
        end).
Proof.
  unfold no_sector, py_contains, py_getitem, dict_has.
  now destruct (dict_get "sector_id" d1).
Qed.

Lemma sector_null_value d :
  match dict_get "sector_id" d with
  | Some v => is_none v || py_eqb v (PStr "")
  | None => true
  end = is_none (sector_value d).
Proof.
  unfold sector_value. destruct (dict_get "sector_id" d) as [v|]; [|reflexivity].
  destruct (is_none v) eqn:Hn; [reflexivity|]. simpl.
  destruct (py_eqb v (PStr "")); [reflexivity | now rewrite Hn].
Qed.

Lemma sector_value_get d :
  is_none (sector_value d) = false -> dict_get "sector_id" d = Some (sector_value d).
Proof.
  unfold sector_value. destruct (dict_get "sector_id" d) as [v|]; [|discriminate].
  now destruct (is_none v || py_eqb v (PStr "")).
Qed.

Lemma same_org_matches d o :
  same_org (is_none (sector_value d))
    (map (attrib_value d) org_attribs
     ++ (if is_none (sector_value d) then [] else [sector_value d])) o
  = org_matches d o.
Proof.
  unfold same_org, org_matches, org_attribs. simpl map. simpl forallb.
  rewrite andb_true_r, !andb_assoc.
  destruct (is_none (sector_value d)); reflexivity.
Qed.

Lemma first_returning k (o : row) rest :
  obind (first (map (project (Some [k])) (o :: rest))) (fun r => py_getitem r k)
  = Ok (col o k).
Proof. simpl. now rewrite String.eqb_refl. Qed.

Lemma bind_lift_lift {A B C : Type} (o : outcome A) (f : A -> outcome B) (k : B -> M C) c :
  bind (bind (lift o) (fun a => lift (f a))) k c = bind (lift (obind o f)) k c.
Proof. unfold bind, lift. now destruct o. Qed.

Lemma create_org_run d c r c' :
  _create_org (PDict d) c = (r, c') ->
  (exists e, r = Raise e /\ working c' = working c)
  \/ exists id c1,
       reconcile_children (PDict d) id c1 = (r, c')
       /\ ((working c1 = working c
            /\ exists o, matching_orgs d (working c) = [o] /\ id = col o "organisation_id")
           \/ (matching_orgs d (working c) = []
               /\ exists tb o s,
                    working c !! "organisation" = Some tb
                    /\ working c1 = <["organisation" := mkTable (columns tb) (rows tb ++ [o]) s]> (working c)
                    /\ org_matches d o = true
                    /\ id = col o "organisation_id")).
Proof.
  unfold _create_org. intros H.
  apply bind_cases in H as [(org1 & c1 & H1 & H) | (e & H1 & ->)];
    apply lift_inv in H1 as [H1 ->]; [|left; eauto].
  symmetry in H1. apply default_attribs_dict in H1 as (d1 & -> & Hin & Hout).
  assert (Hget : forall a, In a org_attribs -> dict_get a d1 = Some (attrib_value d a))
    by (intros a Ha; apply Hin, Ha).
  cbn [py_getitem] in H. rewrite (Hget "name") in H by (simpl; tauto).
  rewrite bind_lift_ok in H.
  destruct (py_eqb (attrib_value d "name") (PStr "")); [inversion H; left; eauto|].
  rewrite no_sector_dict, (Hout "sector_id"), sector_null_value in H
    by (simpl; intuition discriminate).
  rewrite bind_lift_ok in H.
  set (sn := is_none (sector_value d)) in *.
  set (d2 := if sn then dict_set "sector_id" PNone d1 else d1).
  assert (H2 : (if sn then lift (py_setitem (PDict d1) "sector_id" PNone) else ret (PDict d1))
               = lift (Ok (PDict d2))).
  { subst d2. now destruct sn. }
  rewrite H2 in H. clear H2. rewrite bind_lift_ok in H.
  assert (Hget2 : forall a, In a org_attribs -> dict_get a d2 = Some (attrib_value d a)).
  { intros a Ha. subst d2. destruct sn; [|now apply Hget].
    rewrite dict_get_set_ne; [now apply Hget|].
    intros ->. simpl in Ha. intuition discriminate. }
  assert (Hsec2 : dict_get "sector_id" d2 = Some (sector_value d)).
  { subst d2. destruct sn eqn:Hsn.
    - rewrite dict_get_set_eq. subst sn. apply is_none_eq in Hsn. now rewrite Hsn.
    - rewrite Hout by (simpl; intuition discriminate). now apply sector_value_get. }
  assert (Hrest : forall k, ~ In k ("sector_id" :: org_attribs) -> dict_get k d2 = dict_get k d).
  { intros k Hk. subst d2. destruct sn.
    - rewrite dict_get_set_ne by (intros ->; apply Hk; simpl; tauto).
      apply Hout. intros Hi. apply Hk. simpl. tauto.
    - apply Hout. intros Hi. apply Hk. simpl. tauto. }
  rewrite (named_dict d2 _ (map (attrib_value d) org_attribs
                            ++ (if sn then [] else [sector_value d]))) in H.
  2:{ destruct sn; simpl; repeat constructor; try (apply Hget2; simpl; tauto); exact Hsec2. }
  rewrite bind_lift_ok in H.
  apply bind_cases in H as [(results & c1 & Hq & H) | (e & Hq & ->)];
    apply db_query_inv in Hq as [(e' & He & ->) | (cur & Hadapt & Hop & Hr & ->)];
    try discriminate; [|left; eauto].
  apply sql_select_inv in Hop as (tb & Htb & Hcols & Hfetch & Hstore).
  inversion Hr; subst results. clear Hr. rewrite Hstore, conn_eta in H.
  rewrite Hfetch, length_map in H.
  rewrite (List.filter_ext _ _ (same_org_matches d)) in H.
  assert (Hm : matching_orgs d (working c) = List.filter (org_matches d) (rows tb)).
  { unfold matching_orgs. now rewrite Htb. }
  rewrite <- Hm in H.
  assert (Htail : forall id,
             (asns <- lift (py_getitem (PDict d2) "asns") ;;
              __fix_asns_to_org asns id ;;
              contacts <- lift (py_getitem (PDict d2) "contacts") ;;
              __fix_contacts_to_org contacts id ;; ret id)
             = reconcile_children (PDict d) id).
  { intros id. unfold reconcile_children. cbn [py_getitem].
    now rewrite !Hrest by (simpl; intuition discriminate). }
  destruct (matching_orgs d (working c)) as [|o [|o' l]] eqn:Hmo;
    unfold Nat.ltb in H; cbn [length Nat.leb Nat.eqb] in H.
  - rewrite (named_dict d2 _ [attrib_value d "name"; sector_value d;
                              attrib_value d "comment"; attrib_value d "ripe_org_hdl";
                              attrib_value d "ti_handle"; attrib_value d "first_handle"]) in H.
    2:{ repeat constructor; try (apply Hget2; simpl; tauto); exact Hsec2. }
    rewrite bind_assoc, bind_lift_ok, bind_assoc in H.
    apply bind_cases in H as [(results & c1 & Hq & H) | (e & Hq & ->)];
      apply db_query_inv in Hq as [(e' & He & ->) | (cur' & Hadapt' & Hop & Hr & ->)];
      try discriminate; [|left; eauto].
    inversion Hr; subst results. clear Hr.
    apply sql_insert_inv in Hop as (tb0 & s & Htb0 & Hcols0 & Hfetch0 & Hstore0).
    rewrite Htb in Htb0. inversion Htb0; subst tb0. clear Htb0.
    rewrite Hfetch0 in H.
    change [project (Some ["organisation_id"]) ?x]
      with (map (project (Some ["organisation_id"])) [x]) in H.
    rewrite bind_lift_lift, first_returning, bind_lift_ok, Htail in H.
    right. eexists _, _. split; [exact H|]. right. split; [reflexivity|].
    eexists tb, _, s. split; [exact Htb|]. split; [exact Hstore0|].
    split; [|reflexivity].
    simpl in Hcols0. repeat (apply andb_prop in Hcols0 as [? Hcols0]).
    assert (Hparams : forall a, In a org_attribs -> adaptable (attrib_value d a) = true).
    { intros a Ha. rewrite forallb_app in Hadapt. apply andb_prop in Hadapt as [Hadapt _].
      rewrite forallb_forall in Hadapt. apply Hadapt. now apply in_map. }
    unfold org_matches. apply andb_true_intro. split.
    + apply forallb_forall. intros a Ha.
      rewrite (col_new_row _ _ a (attrib_value d a)).
      * apply sql_eq_refl; [apply Hin, Ha | apply Hparams, Ha].
      * simpl in Ha. intuition (subst; assumption).
      * simpl in Ha. intuition (subst; reflexivity).
    + rewrite (col_new_row _ _ "sector_id" (sector_value d)); [|assumption|reflexivity].
      fold sn. destruct sn eqn:Hsn; [reflexivity|].
      apply sql_eq_refl; [exact Hsn|].
      rewrite forallb_app in Hadapt. apply andb_prop in Hadapt as [_ Hadapt].
      simpl in Hadapt. now apply andb_prop in Hadapt as [Hadapt _].
  - rewrite bind_lift_lift, first_returning, bind_lift_ok, Htail in H.
    right. exists (col o "organisation_id"), c. split; [exact H|]. left.
    split; [reflexivity|]. exists o. split; reflexivity.
  - inversion H. left. eauto.
Qed.

Lemma touches_reconcile_children org id :
  touches ["autonomous_system_annotation"; "organisation_to_asn"; "contact"]
    (reconcile_children org id).
Proof.
  unfold reconcile_children, __fix_asns_to_org, fix_asn_to_org,
    __fix_contacts_to_org, fix_contact_to_org.
  frame.
Qed.

Lemma reconcile_children_ok org id c1 id' c' :
  reconcile_children org id c1 = (Ok id', c') ->
  id' = id
  /\ exists asns contacts c2,
       py_getitem org "asns" = Ok asns
       /\ __fix_asns_to_org asns id c1 = (Ok tt, c2)
       /\ py_getitem org "contacts" = Ok contacts
       /\ __fix_contacts_to_org contacts id c2 = (Ok tt, c').
Proof.
  unfold reconcile_children. intros H.
  apply bind_ok in H as (asns & c2 & Ha & H). apply lift_ok in Ha as [Ha ->].
  apply bind_ok in H as ([] & c3 & Hfa & H).
  apply bind_ok in H as (contacts & c4 & Hc & H). apply lift_ok in Hc as [Hc ->].
  apply bind_ok in H as ([] & c5 & Hfc & H).
  inversion H; subst. split; [reflexivity|]. eauto 8.
Qed.

(** Whenever [_create_org] returns, exactly one organisation row matches
    the payload, and the id returned is that row's. *)
Lemma create_org_ok d c id c' :
  _create_org (PDict d) c = (Ok id, c') ->
  exists o, matching_orgs d (working c') = [o] /\ col o "organisation_id" = id.
Proof.
  intros H. apply create_org_run in H as [(e & He & _) | (id0 & c1 & Hrec & Hcase)];
    [discriminate|].
  pose proof (touches_reconcile_children _ _ _ _ _ Hrec "organisation") as Hfr.
  apply reconcile_children_ok in Hrec as [-> _].
  assert (Hsame : working c' !! "organisation" = working c1 !! "organisation").
  { apply Hfr. simpl. intuition discriminate. }
  unfold matching_orgs in *. rewrite Hsame.
  destruct Hcase as [(Hw & o & Hm & ->) | (Hm & tb & o & s & Htb & Hw & Ho & ->)].
  - rewrite Hw. eauto.
  - rewrite Hw, lookup_insert_eq. rewrite Htb in Hm. simpl.
    rewrite List.filter_app, Hm. simpl. rewrite Ho. eauto.
Qed.

(** Where one row matches the payload beforehand, [_create_org] writes
    nothing to the organisation table and can only return that row's id. *)
Lemma create_org_reuses d c o r c' :
  matching_orgs d (working c) = [o] ->
  _create_org (PDict d) c = (r, c') ->
  working c' !! "organisation" = working c !! "organisation"
  /\ forall id, r = Ok id -> id = col o "organisation_id".
Proof.
  intros Hm H.
  apply create_org_run in H as [(e & -> & Hw) | (id0 & c1 & Hrec & Hcase)].
  - rewrite Hw. split; [reflexivity | discriminate].
  - pose proof (touches_reconcile_children _ _ _ _ _ Hrec "organisation") as Hfr.
    destruct Hcase as [(Hw & o' & Hm' & ->) | (Hm' & _)]; [|congruence].
    rewrite Hm in Hm'. inversion Hm'; subst o'. split.
    + rewrite Hfr by (simpl; intuition discriminate). now rewrite Hw.
    + intros id ->. now apply reconcile_children_ok in Hrec as [-> _].
Qed.

(** C2, as amended. Whenever [_create_org] returns an id for a payload,
    exactly one organisation row then matches the payload, and it carries
    that id; a second call with the same payload leaves the organisation
    table as it is, inserting no duplicate, and if it returns, returns the
    same id. *)
Theorem create_org_twice (d : row) c id1 c1 :
  _create_org (PDict d) c = (Ok id1, c1) ->
  (exists o, matching_orgs d (working c1) = [o] /\ col o "organisation_id" = id1)
  /\ forall r c2,
       _create_org (PDict d) c1 = (r, c2) ->
       working c2 !! "organisation" = working c1 !! "organisation"
       /\ forall id2, r = Ok id2 -> id2 = id1.
Proof.
  intros H. destruct (create_org_ok _ _ _ _ H) as (o & Hm & Ho).
  split; [eauto|]. intros r c2 H2.
  destruct (create_org_reuses _ _ _ _ _ Hm H2) as [Hw Hid].
  split; [exact Hw|]. intros id2 Hr. rewrite <- Ho. now apply Hid.
Qed.

Lemma create_org_twice_witness :
  (exists o, matching_orgs acme_payload
               (working (snd (_create_org (PDict acme_payload) idle))) = [o]
             /\ col o "organisation_id" = PInt 1)
  /\ forall r c2,
       _create_org (PDict acme_payload) (snd (_create_org (PDict acme_payload) idle))
       = (r, c2) ->
       working c2 !! "organisation"
       = working (snd (_create_org (PDict acme_payload) idle)) !! "organisation"
       /\ forall id2, r = Ok id2 -> id2 = PInt 1.
Proof.
  apply (create_org_twice acme_payload idle (PInt 1)).
  vm_compute. reflexivity.
Defined.

(** C2, as stated, fails where the payload's row is already stored twice:
    all needed attributes are present and the name is not empty, yet the
    call raises and returns no id. *)
Lemma create_org_duplicated :
  require_attribs org_attribs (PDict acme_payload) = Ok tt
  /\ fst (_create_org (PDict acme_payload) duplicated)
     = Raise (CommitError "More than one organisation row like {} in the db"
                [PDict (acme_payload ++ [("sector_id", PNone)])]).
Proof. split; vm_compute; reflexivity. Qed.

(** ** The ASN reconciler and the link table *)

(** Name the tables a run may have written, from its equation. *)
Ltac framed H ts Hn :=
  match type of H with
  | ?m ?c = (?r, ?c') =>
      let T := fresh in
      assert (T : touches ts m) by frame;
      pose proof (T c r c' H) as Hn; clear T
  end.

Lemma sql_eq_int v n : sql_eq v (PInt n) = true -> v = PInt n.
Proof.
  unfold sql_eq. destruct v; simpl; try discriminate.
  intros H. apply Z.eqb_eq in H. now subst.
Qed.

Lemma links_same db db' :
  db' !! "organisation_to_asn" = db !! "organisation_to_asn" -> links db' = links db.
Proof. unfold links. now intros ->. Qed.

Lemma fix_asn_to_org_links org a n c c1 :
  py_getitem a "asn" = Ok (PInt n) ->
  fix_asn_to_org (PInt org) a c = (Ok tt, c1) ->
  (forall r, In r (links (working c)) -> In r (links (working c1)))
  /\ linked org n (working c1).
Proof.
  intros Hn H. unfold fix_asn_to_org in H.
  rewrite Hn, bind_lift_ok in H.
  apply bind_ok in H as (annos_should & c2 & Hs & H). apply lift_ok in Hs as [Hs ->].
  apply bind_ok in H as (annos_are & c2 & Hq & H).
  framed Hq (@nil string) F1.
  apply bind_ok in H as (missing & c3 & Hmi & H). apply lift_ok in Hmi as [Hmi ->].
  apply bind_ok in H as ([] & c3 & Hins & H).
  framed Hins ["autonomous_system_annotation"] F2.
  apply bind_ok in H as (superfluous & c4 & Hsu & H). apply lift_ok in Hsu as [Hsu ->].
  apply bind_ok in H as ([] & c4 & Hdel & H).
  framed Hdel ["autonomous_system_annotation"] F3.
  assert (Hl : links (working c4) = links (working c)).
  { apply links_same. rewrite F3, F2, F1; simpl; intuition discriminate. }
  apply bind_ok in H as (results & c5 & Hsel & H).
  apply db_query_inv in Hsel as [(e & He & _) | (cur & _ & Hop & Hr & ->)]; [discriminate|].
  apply sql_select_inv in Hop as (tb & Htb & Hcols & Hfetch & Hstore).
  inversion Hr; subst results. clear Hr.
  rewrite Hstore, conn_eta in H. rewrite Hfetch, length_map in H.
  rewrite <- Hl. clear Hl F1 F2 F3 Hq Hins Hdel.
  match type of H with
  | context [List.filter ?p (rows tb)] =>
      destruct (List.filter p (rows tb)) as [|r0 found] eqn:Hf
  end; cbn [length Nat.eqb] in H.
  - apply bind_ok in H as (k & c5 & Hi & H). inversion H; subst c5. clear H.
    apply db_manipulate_inv in Hi as [(e & He & _) | (cur2 & _ & Hop & _ & ->)];
      [discriminate|].
    apply sql_insert_inv in Hop as (tb2 & s & Htb2 & Hcols2 & _ & Hstore2).
    rewrite Htb in Htb2. inversion Htb2; subst tb2. clear Htb2.
    simpl in Hcols2. repeat (apply andb_prop in Hcols2 as [? Hcols2]).
    unfold linked, links. simpl. rewrite Hstore2, lookup_insert_eq, Htb. simpl. split.
    + intros r Hr. apply in_or_app. now left.
    + eexists. split; [apply in_or_app; right; left; reflexivity|].
      split; now apply col_new_row.
  - inversion H; subst c1. clear H. split; [auto|].
    assert (Hin : In r0 (r0 :: found)) by now left.
    rewrite <- Hf in Hin.
    apply filter_In in Hin as [Hin Hp]. apply andb_prop in Hp as [Ho Ha].
    exists r0. unfold links. rewrite Htb. split; [exact Hin|].
    split; now apply sql_eq_int.
Qed.

(** Rows of the link table survive the first loop, and every payload with an
    integer ASN ends up linked. *)
Lemma fix_asns_loop_links org l :
  Forall (fun a => exists n, py_getitem a "asn" = Ok (PInt n)) l ->
  forall c c1,
  for_each (fix_asn_to_org (PInt org)) l c = (Ok tt, c1) ->
  (forall r, In r (links (working c)) -> In r (links (working c1)))
  /\ forall a n, In a l -> py_getitem a "asn" = Ok (PInt n) -> linked org n (working c1).
Proof.
  induction 1 as [|a l (n & Hn) _ IH]; intros c c1 H; simpl in H.
  - inversion H; subst. split; [auto | intros a n []].
  - apply bind_ok in H as ([] & c2 & Ha & H).
    destruct (fix_asn_to_org_links _ _ _ _ _ Hn Ha) as [Hkeep (r & Hr & Ho & Hasn)].
    destruct (IH _ _ H) as [Hkeep2 Hall]. split; [auto|].
    intros a2 n2 [<-|Hin] Hn2.
    + rewrite Hn in Hn2. inversion Hn2; subst n2. exists r. auto.
    + eauto.
Qed.

Lemma items_of_in key l ws :
  items_of key l = Ok ws ->
  forall w, In w ws <-> exists a, In a l /\ py_getitem a key = Ok w.
Proof.
  revert ws. induction l as [|a l IH]; intros ws H w; simpl in H.
  - inversion H. simpl. split; [intros [] | intros (a & [] & _)].
  - apply obind_ok in H as (v & Hv & H). apply obind_ok in H as (vs & Hvs & H).
    inversion H; subst ws. simpl. rewrite (IH _ Hvs). split.
    + intros [<-|(a2 & Hin & Ha2)]; eauto.
    + intros (a2 & [<-|Hin] & Ha2); [left; congruence | right; eauto].
Qed.

Lemma forallb_false {A : Type} (p : A -> bool) l :
  forallb p l = false -> exists x, In x l /\ p x = false.
Proof.
  induction l as [|x l IH]; simpl; [discriminate|].
  destruct (p x) eqn:E; simpl; intros H.
  - destruct (IH H) as (y & Hy & Hp). eauto.
  - eauto.
Qed.

(** Whenever [__fix_asns_to_org] completes on payloads with integer ASNs,
    the organisation is linked to exactly the ASNs of the payloads. *)
Lemma fix_asns_to_org_links org l c c2 :
  Forall (fun a => exists n, py_getitem a "asn" = Ok (PInt n)) l ->
  __fix_asns_to_org (PList l) (PInt org) c = (Ok tt, c2) ->
  forall n, linked org n (working c2)
            <-> exists a, In a l /\ py_getitem a "asn" = Ok (PInt n).
Proof.
  intros Hint H. unfold __fix_asns_to_org in H.
  simpl py_iter in H. rewrite bind_lift_ok in H.
  apply bind_ok in H as ([] & c1 & Hloop & H).
  destruct (fix_asns_loop_links _ _ Hint _ _ Hloop) as [_ Hall].
  apply bind_ok in H as (ws & c3 & Hw & H). apply lift_ok in Hw as [Hw ->].
  pose proof (items_of_in _ _ _ Hw) as Hws.
  apply bind_ok in H as (k & c3 & Hdel & H).
  apply db_manipulate_inv in Hdel as [(e & He & _) | (cur & _ & Hop & _ & ->)];
    [discriminate|].
  apply sql_delete_inv in Hop as (tb & Htb & _ & _ & Hstore).
  apply bind_ok in H as (k2 & c4 & Hann & H). inversion H; subst c4. clear H.
  framed Hann ["autonomous_system_annotation"] F.
  assert (Hl : links (working c2)
               = List.filter
                   (fun r => negb (sql_eq (col r "organisation_id") (PInt org)
                                   && sql_ne_all (col r "asn") (PList ws)))
                   (links (working c1))).
  { unfold links. rewrite F by (simpl; intuition discriminate).
    simpl. rewrite Hstore, lookup_insert_eq, Htb. reflexivity. }
  intros n. unfold linked. rewrite Hl. split.
  - intros (r & Hr & Ho & Ha). apply filter_In in Hr as [_ Hp].
    rewrite Ho, Ha, sql_eq_int_refl in Hp. simpl in Hp.
    apply negb_true_iff, forallb_false in Hp as (w & Hin & Hne).
    apply Hws in Hin as (a & Hin & Hget). exists a. split; [exact Hin|].
    rewrite List.Forall_forall in Hint. destruct (Hint a Hin) as (m & Hm).
    rewrite Hm in Hget. inversion Hget; subst w.
    unfold sql_ne in Hne. simpl in Hne.
    apply negb_false_iff, Z.eqb_eq in Hne. now subst.
  - intros (a & Hin & Hget).
    destruct (Hall a n Hin Hget) as (r & Hr & Ho & Ha).
    exists r. split; [|auto]. apply filter_In. split; [exact Hr|].
    rewrite Ho, Ha, sql_eq_int_refl. simpl. apply negb_true_iff. unfold sql_not_in.
    destruct (forallb (sql_ne (PInt n)) ws) eqn:E; [|reflexivity].
    rewrite forallb_forall in E.
    assert (Hin2 : In (PInt n) ws) by (apply Hws; eauto).
    specialize (E _ Hin2). unfold sql_ne in E. simpl in E.
    now rewrite Z.eqb_refl in E.
Qed.

(** ** What a creation does to the children of a reused organisation *)

Lemma map_PDict_inj ds ds2 : map PDict ds = map PDict ds2 -> ds = ds2.
Proof.
  revert ds2. induction ds as [|d ds IH]; intros [|d2 ds2] H; simpl in H;
    try discriminate; [reflexivity|].
  inversion H. f_equal. now apply IH.
Qed.

Lemma py_getitem_dict d k v : py_getitem (PDict d) k = Ok v -> dict_get k d = Some v.
Proof. simpl. destruct (dict_get k d); intros H; now inversion H. Qed.

(** A creation that returns has run both reconcilers to completion with
    the payload's own lists. *)
Lemma create_org_ok_children d c id c2 :
  _create_org (PDict d) c = (Ok id, c2) ->
  exists c0 c1 asns contacts,
    dict_get "asns" d = Some asns
    /\ __fix_asns_to_org asns id c0 = (Ok tt, c1)
    /\ dict_get "contacts" d = Some contacts
    /\ __fix_contacts_to_org contacts id c1 = (Ok tt, c2).
Proof.
  intros H. apply create_org_run in H as [(e & He & _) | (id0 & c0 & Hrec & _)];
    [discriminate|].
  apply reconcile_children_ok in Hrec as (-> & asns & contacts & c1 & Ha & Hfa & Hc & Hfc).
  apply py_getitem_dict in Ha, Hc. eauto 10.
Qed.

(** The row search looks at the five needed attributes and the sector
    only. *)
Lemma org_matches_same_scalars d1 d2 :
  (forall k, In k ("sector_id" :: org_attribs) -> dict_get k d1 = dict_get k d2) ->
  forall o, org_matches d1 o = org_matches d2 o.
Proof.
  intros H o. unfold org_matches, sector_value, org_attribs, attrib_value.
  simpl forallb.
  rewrite (H "sector_id"), (H "name"), (H "comment"), (H "ripe_org_hdl"),
    (H "ti_handle"), (H "first_handle") by (simpl; tauto).
  reflexivity.
Qed.

Lemma matching_orgs_same_scalars d1 d2 :
  (forall k, In k ("sector_id" :: org_attribs) -> dict_get k d1 = dict_get k d2) ->
  forall db, matching_orgs d1 db = matching_orgs d2 db.
Proof.
  intros H db. unfold matching_orgs. destruct (db !! "organisation"); [|reflexivity].
  apply List.filter_ext. now apply org_matches_same_scalars.
Qed.

(** C10, as amended. The row search of [_create_org] depends on name,
    comment, the three handles and the sector only.  So when a creation has
    returned an id and a second payload with the same six values, whatever
    its ASN and contact lists, is created and returns, it returns the same
    id, the
    contacts stored for that organisation are then the second payload's
    contacts, and the organisation is linked to exactly the second payload's
    ASNs. *)
Theorem create_org_ignores_children (d1 d2 : row) c (org : Z) c1 id2 c2
    (asns : list pyval) (contacts : list row) :
  (forall k, In k ("sector_id" :: org_attribs) -> dict_get k d1 = dict_get k d2) ->
  dict_get "asns" d2 = Some (PList asns) ->
  Forall (fun a => exists n, py_getitem a "asn" = Ok (PInt n)) asns ->
  dict_get "contacts" d2 = Some (PList (map PDict contacts)) ->
  _create_org (PDict d1) c = (Ok (PInt org), c1) ->
  _create_org (PDict d2) c1 = (Ok id2, c2) ->
  (forall db, matching_orgs d2 db = matching_orgs d1 db)
  /\ id2 = PInt org
  /\ map contact_values (stored_contacts (PInt org) (working c2))
     = map contact_values contacts
  /\ forall n, linked org n (working c2)
               <-> exists a, In a asns /\ py_getitem a "asn" = Ok (PInt n).
Proof.
  intros Hsame Hasns Hint Hcontacts H1 H2.
  pose proof (matching_orgs_same_scalars _ _ Hsame) as Hm. split; [now symmetry|].
  destruct (create_org_ok _ _ _ _ H1) as (o & Ho & Hid).
  rewrite Hm in Ho.
  destruct (create_org_reuses _ _ _ _ _ Ho H2) as [_ Hid2].
  assert (id2 = PInt org) as -> by (rewrite <- Hid; now apply Hid2).
  split; [reflexivity|].
  apply create_org_ok_children in H2
    as (c3 & c4 & asns2 & contacts2 & Ha & Hfa & Hc & Hfc).
  rewrite Hasns in Ha. inversion Ha; subst asns2. clear Ha.
  rewrite Hcontacts in Hc. inversion Hc; subst contacts2. clear Hc.
  split.
  - destruct (fix_contacts_to_org_ok _ _ _ _ (sql_eq_int_refl org) Hfc)
      as (ds & Hds & Hstored).
    simpl in Hds. inversion Hds as [Heq]. apply map_PDict_inj in Heq. now subst ds.
  - intros n. rewrite <- (fix_asns_to_org_links _ _ _ _ Hint Hfa n).
    pose proof (touches_fix_contacts_to_org _ _ _ _ _ Hfc "organisation_to_asn") as F.
    unfold linked. rewrite (links_same (working c4) (working c2)); [reflexivity|].
    apply F. simpl. intuition discriminate.
Qed.

(** C10, as stated, fails where the second payload is one that
    [__fix_contacts_to_org] refuses: two payloads with the same six values,
    the second with a contact that has no last name.  The first creation
    returns the id; the second raises the CommitError and returns none. *)
Lemma create_org_second_refused :
  let d1 := acme_with [] [] in
  let d2 := acme_with [] [[("firstname", PStr "Grace")]] in
  map (fun k => dict_get k d1) ("sector_id" :: org_attribs)
  = map (fun k => dict_get k d2) ("sector_id" :: org_attribs)
  /\ fst (_create_org (PDict d1) idle) = Ok (PInt 1)
  /\ fst (_create_org (PDict d2) (snd (_create_org (PDict d1) idle)))
     = Raise (CommitError "{} not set" [PStr "lastname"]).
Proof. vm_compute. repeat split; reflexivity. Qed.

(** ** Deleting shared ASN rows *)

Lemma as_rows_same db db2 :
  db2 !! "autonomous_system" = db !! "autonomous_system" -> as_rows db2 = as_rows db.
Proof. unfold as_rows. now intros ->. Qed.

Lemma count_links_inv asn_id c n c1 :
  count_links asn_id c = (Ok n, c1) ->
  c1 = c /\ n = PInt (Z.of_nat (link_count asn_id (working c))).
Proof.
  unfold count_links. intros H.
  apply bind_ok in H as (results & c2 & Hq & H).
  apply db_query_inv in Hq as [(e & He & _) | (cur & _ & Hop & Hr & ->)]; [discriminate|].
  apply sql_aggregate_inv in Hop as (tb & Htb & _ & Hfetch & Hstore).
  inversion Hr; subst results. clear Hr.
  rewrite Hstore, conn_eta, Hfetch in H. simpl in H. inversion H; subst.
  split; [reflexivity|]. unfold count_star, link_count, links. now rewrite Htb.
Qed.

Lemma count_zero n : PInt (Z.of_nat n) = PInt 0 -> n = 0%nat.
Proof. intros H. inversion H. lia. Qed.

(** The comparison, once reached with differing values, ends the loop body
    with the error that names the ASN, and the ASN table is as it was. *)
Lemma remove_or_unlink_asn_differs org_id asn asn_id c0 k c1 asn_in_db c2 stripped c3 :
  py_getitem asn "number" = Ok asn_id ->
  unlink_asn org_id asn_id c0 = (Ok k, c1) ->
  count_links asn_id c1 = (Ok (PInt 0), c1) ->
  __db_query_asn asn_id "" false c1 = (Ok asn_in_db, c2) ->
  without_link_fields asn c2 = (Ok stripped, c3) ->
  py_eqb asn_in_db stripped = false ->
  remove_or_unlink_asn org_id asn c0
  = (Raise (CommitError "ASN{} to be deleted differs from db entry." [asn_id]), c3)
  /\ as_rows (working c3) = as_rows (working c0).
Proof.
  intros Hn Hu Hc Hq Hs Hne. split.
  - unfold remove_or_unlink_asn. rewrite Hn, bind_lift_ok.
    rewrite (bind_run _ _ _ _ _ Hu), (bind_run _ _ _ _ _ Hc).
    rewrite py_eqb_int_refl. cbv iota.
    rewrite (bind_run _ _ _ _ _ Hq), (bind_run _ _ _ _ _ Hs), Hne. reflexivity.
  - unfold unlink_asn in Hu. unfold without_link_fields in Hs.
    framed Hu ["organisation_to_asn"] F1.
    framed Hq (@nil string) F2.
    framed Hs ["inhibition"; "network"] F3.
    apply as_rows_same. rewrite F3, F2, F1; simpl; intuition discriminate.
Qed.

(** The loop body leaves the ASN table as it is, unless it has counted no
    link to the ASN and found the database entry equal to the reduced
    payload: then it completes and the rows with that number are gone. *)
Lemma remove_or_unlink_asn_cases org_id asn c0 r c4 :
  remove_or_unlink_asn org_id asn c0 = (r, c4) ->
  as_rows (working c4) = as_rows (working c0)
  \/ exists asn_id k c1 asn_in_db c2 stripped c3,
       py_getitem asn "number" = Ok asn_id
       /\ unlink_asn org_id asn_id c0 = (Ok k, c1)
       /\ count_links asn_id c1 = (Ok (PInt 0), c1)
       /\ __db_query_asn asn_id "" false c1 = (Ok asn_in_db, c2)
       /\ without_link_fields asn c2 = (Ok stripped, c3)
       /\ link_count asn_id (working c3) = 0%nat
       /\ py_eqb asn_in_db stripped = true
       /\ r = Ok tt
       /\ as_rows (working c4)
          = List.filter (fun x => negb (sql_eq (col x "number") asn_id))
              (as_rows (working c0)).
Proof.
  intros H. unfold remove_or_unlink_asn in H.
  apply bind_cases in H as [(asn_id & c & Hn & H) | (e & Hn & _)];
    apply lift_inv in Hn as [Hn E0]; [subst c | subst c4; now left].
  symmetry in Hn.
  apply bind_cases in H as [(k & c1 & Hu & H) | (e & Hu & _)];
    pose proof Hu as Hu2; unfold unlink_asn in Hu2;
    framed Hu2 ["organisation_to_asn"] F1; clear Hu2.
  2:{ left. apply as_rows_same, F1. simpl. intuition discriminate. }
  assert (A1 : as_rows (working c1) = as_rows (working c0)).
  { apply as_rows_same, F1. simpl. intuition discriminate. }
  apply bind_cases in H as [(n & c1b & Hc & H) | (e & Hc & _)].
  2:{ left. unfold count_links in Hc. framed Hc (@nil string) F.
      rewrite <- A1. apply as_rows_same, F. simpl. tauto. }
  destruct (count_links_inv _ _ _ _ Hc) as [E1 Hcount]. subst c1b.
  destruct (py_eqb n (PInt 0)) eqn:Hzero;
    [|unfold ret in H; injection H as _ E1; subst c4; now left].
  assert (n = PInt 0) as E.
  { subst n. simpl in Hzero. apply Z.eqb_eq in Hzero. now rewrite Hzero. }
  rewrite E in *. clear E.
  apply bind_cases in H as [(asn_in_db & c2 & Hq & H) | (e & Hq & _)];
    framed Hq (@nil string) F2.
  2:{ left. rewrite <- A1. apply as_rows_same, F2. simpl. tauto. }
  apply bind_cases in H as [(stripped & c3 & Hs & H) | (e & Hs & _)];
    pose proof Hs as Hs2; unfold without_link_fields in Hs2;
    framed Hs2 ["inhibition"; "network"] F3; clear Hs2.
  2:{ left. rewrite <- A1. apply as_rows_same.
      rewrite F3, F2; simpl; intuition discriminate. }
  assert (A3 : as_rows (working c3) = as_rows (working c0)).
  { rewrite <- A1. apply as_rows_same. rewrite F3, F2; simpl; intuition discriminate. }
  destruct (py_eqb asn_in_db stripped) eqn:Heq;
    [|unfold raise in H; injection H as _ E3; subst c4; now left].
  apply bind_cases in H as [(k2 & c5 & Hd & H) | (e & Hd & _)].
  - right. unfold ret in H. injection H as Hr E5. subst c5.
    apply db_manipulate_inv in Hd as [(e & He & _) | (cur & _ & Hop & _ & E4)];
      [discriminate|]. subst c4.
    apply sql_delete_inv in Hop as (tb & Htb & _ & _ & Hstore).
    exists asn_id, k, c1, asn_in_db, c2, stripped, c3.
    repeat (split; [assumption|]).
    split; [|split; [exact Heq|split; [now symmetry|]]].
    + unfold link_count. rewrite (links_same (working c1)).
      * apply count_zero. symmetry. exact Hcount.
      * rewrite F3, F2; simpl; intuition discriminate.
    + rewrite <- A3. unfold as_rows. simpl.
      rewrite Hstore, lookup_insert_eq, Htb. reflexivity.
  - left. apply db_manipulate_inv in Hd as [(e2 & _ & E3) | (cur & _ & _ & Hr & _)];
      [now subst c4 | discriminate].
Qed.

Lemma compared_cons org_id a l c c1 asn asn_id asn_in_db stripped c0 c3 :
  remove_or_unlink_asn org_id a c = (Ok tt, c1) ->
  compared l org_id c1 asn asn_id asn_in_db stripped c0 c3 ->
  compared (a :: l) org_id c asn asn_id asn_in_db stripped c0 c3.
Proof.
  intros Ha (pre & post & k & c2 & c4 & -> & Hpre & Hrest).
  exists (a :: pre), post, k, c2, c4. split; [reflexivity|]. split; [|exact Hrest].
  simpl. now rewrite (bind_run _ _ _ _ _ Ha).
Qed.

Lemma remove_loop_deletes org_id asns : forall c r cf x,
  for_each (remove_or_unlink_asn org_id) asns c = (r, cf) ->
  In x (as_rows (working c)) -> ~ In x (as_rows (working cf)) ->
  exists asn asn_id asn_in_db stripped c0 c3,
    compared asns org_id c asn asn_id asn_in_db stripped c0 c3
    /\ sql_eq (col x "number") asn_id = true
    /\ link_count asn_id (working c3) = 0%nat
    /\ py_eqb asn_in_db stripped = true.
Proof.
  induction asns as [|a l IH]; intros c r cf x H Hin Hout; simpl in H.
  - unfold ret in H. injection H as _ E. subst cf. contradiction.
  - apply bind_cases in H as [([] & c1 & Ha & H) | (e & Ha & _)].
    + destruct (remove_or_unlink_asn_cases _ _ _ _ _ Ha)
        as [Hsame | (asn_id & k & c2 & asn_in_db & c3 & stripped & c4
                     & Hn & Hu & Hc & Hq & Hs & Hcount & Heq & _ & Hrows)].
      * rewrite <- Hsame in Hin.
        destruct (IH _ _ _ _ H Hin Hout)
          as (asn & asn_id & asn_in_db & stripped & c0 & c3 & Hcmp & Hrest).
        exists asn, asn_id, asn_in_db, stripped, c0, c3.
        split; [|exact Hrest]. eapply compared_cons; eauto.
      * destruct (sql_eq (col x "number") asn_id) eqn:Ex.
        -- exists a, asn_id, asn_in_db, stripped, c, c4. split; [|auto].
           exists [], l, k, c2, c3. simpl. unfold ret. auto 10.
        -- assert (Hin1 : In x (as_rows (working c1))).
           { rewrite Hrows. apply filter_In. split; [exact Hin | now rewrite Ex]. }
           destruct (IH _ _ _ _ H Hin1 Hout)
             as (asn & asn_id2 & asn_in_db2 & stripped2 & c0 & c5 & Hcmp & Hrest).
           exists asn, asn_id2, asn_in_db2, stripped2, c0, c5.
           split; [|exact Hrest]. eapply compared_cons; eauto.
    + destruct (remove_or_unlink_asn_cases _ _ _ _ _ Ha)
        as [Hsame | (asn_id & k & c2 & asn_in_db & c3 & stripped & c4
                     & _ & _ & _ & _ & _ & _ & _ & Hr & _)]; [|discriminate].
      rewrite <- Hsame in Hin. contradiction.
Qed.

Lemma remove_loop_differs org_id asns c r cf asn asn_id asn_in_db stripped c0 c3 :
  for_each (remove_or_unlink_asn org_id) asns c = (r, cf) ->
  compared asns org_id c asn asn_id asn_in_db stripped c0 c3 ->
  py_eqb asn_in_db stripped = false ->
  r = Raise (CommitError "ASN{} to be deleted differs from db entry." [asn_id])
  /\ cf = c3 /\ as_rows (working c3) = as_rows (working c0).
Proof.
  intros H (pre & post & k & c1 & c2 & -> & Hpre & Hn & Hu & Hc & Hq & Hs) Hne.
  destruct (remove_or_unlink_asn_differs _ _ _ _ _ _ _ _ _ _ Hn Hu Hc Hq Hs Hne)
    as [Hstep Hrows].
  rewrite for_each_app, (bind_run _ _ _ _ _ Hpre) in H. simpl in H.
  rewrite (bind_raise _ _ _ _ _ Hstep) in H. injection H as <- <-. auto.
Qed.

(** C7. In every run of the loop that unlinks the ASNs of an organisation,
    a row leaves the ASN table only for a payload that carries its number
    and for which, when its link had been deleted, no link to that number
    was left and the entry read from the database was equal to the payload
    reduced by its link fields; and when the loop comes to that comparison
    with values that differ, it ends with the CommitError that names the
    ASN and the ASN table is as it was before the payload was handled. *)
Theorem remove_or_unlink_asns_guarded (asns : list pyval) org_id c r cf :
  __remove_or_unlink_asns (PList asns) org_id c = (r, cf) ->
  (forall x, In x (as_rows (working c)) -> ~ In x (as_rows (working cf)) ->
     exists asn asn_id asn_in_db stripped c0 c3,
       compared asns org_id c asn asn_id asn_in_db stripped c0 c3
       /\ sql_eq (col x "number") asn_id = true
       /\ link_count asn_id (working c3) = 0%nat
       /\ py_eqb asn_in_db stripped = true)
  /\ (forall asn asn_id asn_in_db stripped c0 c3,
       compared asns org_id c asn asn_id asn_in_db stripped c0 c3 ->
       py_eqb asn_in_db stripped = false ->
       r = Raise (CommitError "ASN{} to be deleted differs from db entry." [asn_id])
       /\ cf = c3 /\ as_rows (working c3) = as_rows (working c0)).
Proof.
  unfold __remove_or_unlink_asns. simpl py_iter. rewrite bind_lift_ok. intros H.
  split.
  - intros x. now apply remove_loop_deletes with (r := r).
  - intros asn asn_id asn_in_db stripped c0 c3. now apply remove_loop_differs.
Qed.

(** ** Deleting an organisation *)

Lemma db_query_select_run targets t cs (P : list pyval -> row -> bool) ps c tb :
  working c !! t = Some tb ->
  forallb (has_column tb) cs = true ->
  forallb adaptable ps = true ->
  _db_query (fun p => sql_select targets t cs (P p)) ps false c
  = (Ok (map (project targets) (List.filter (P ps) (rows tb))), c).
Proof.
  intros Htb Hc Ha. unfold _db_query, execute, bind, ret. rewrite Ha.
  unfold sql_select, relation. rewrite Htb. simpl obind.
  rewrite (with_columns_ok _ _ Hc). simpl. now rewrite conn_eta.
Qed.

(** Where no organisation row carries the id, the reader returns the empty
    dictionary. *)
Lemma db_query_org_gone org_id c tb :
  adaptable org_id = true ->
  working c !! "organisation" = Some tb ->
  has_column tb "organisation_id" = true ->
  List.filter (fun r => sql_eq (col r "organisation_id") org_id) (rows tb) = [] ->
  __db_query_org org_id "" false c = (Ok (PDict []), c).
Proof.
  intros Ha Htb Hc Hnone. unfold __db_query_org.
  change ("organisation" +:+ "") with "organisation".
  change ("organisation" +:+ "_id") with "organisation_id".
  assert (Hcs : forallb (has_column tb) ["organisation_id"] = true)
    by (simpl; now rewrite Hc).
  assert (Hps : forallb adaptable [org_id] = true) by (simpl; now rewrite Ha).
  rewrite (bind_run _ _ _ _ _
             (db_query_select_run None "organisation" ["organisation_id"]
                (fun p r => sql_eq (col r "organisation_id") (arg 0 p))
                [org_id] c tb Htb Hcs Hps)).
  unfold arg. change (nth 0 [org_id] PNone) with org_id.
  rewrite Hnone. reflexivity.
Qed.

Lemma py_eqb_empty_dict org k v :
  py_getitem org k = Ok v -> py_eqb (PDict []) org = false.
Proof.
  destruct org as [| | | |d]; simpl; try discriminate.
  destruct d; [discriminate | reflexivity].
Qed.

(** C4, as amended.  For a payload with an id: [_delete_org] raises
    CommitError whenever the aggregate read for that id differs from the
    payload; it does so in particular when no organisation row carries the
    id, so that a second delete of an id raises as well instead of returning
    nothing; and whenever it returns, the aggregate was equal to the payload,
    the rows with that id are gone from the organisation table, and the
    result is the id if exactly one row was deleted and None otherwise. *)
Theorem delete_org_guarded (org org_id : pyval) c :
  py_getitem org "id" = Ok org_id ->
  (forall org_in_db c1,
     __db_query_org org_id "" false c = (Ok org_in_db, c1) ->
     py_eqb org_in_db org = false ->
     _delete_org org c
     = (Raise (CommitError "Org to be deleted differs from db entry." []), c1))
  /\ (forall tb,
      adaptable org_id = true ->
      working c !! "organisation" = Some tb ->
      has_column tb "organisation_id" = true ->
      List.filter (fun r => sql_eq (col r "organisation_id") org_id) (rows tb) = [] ->
      _delete_org org c
      = (Raise (CommitError "Org to be deleted differs from db entry." []), c))
  /\ (forall r c2,
      _delete_org org c = (Ok r, c2) ->
      exists org_in_db c1 tb,
        __db_query_org org_id "" false c = (Ok org_in_db, c1)
        /\ py_eqb org_in_db org = true
        /\ working c !! "organisation" = Some tb
        /\ working c2 !! "organisation"
           = Some (mkTable (columns tb)
                     (List.filter (fun o => negb (sql_eq (col o "id") org_id)) (rows tb))
                     (serial tb))
        /\ r = if Nat.eqb (length (List.filter (fun o => sql_eq (col o "id") org_id)
                                     (rows tb))) 1
               then org_id else PNone).
Proof.
  intros Hid.
  assert (Hdiff : forall org_in_db c1,
             __db_query_org org_id "" false c = (Ok org_in_db, c1) ->
             py_eqb org_in_db org = false ->
             _delete_org org c
             = (Raise (CommitError "Org to be deleted differs from db entry." []), c1)).
  { intros org_in_db c1 Hq Hne. unfold _delete_org.
    rewrite Hid, bind_lift_ok, (bind_run _ _ _ _ _ Hq), Hne. reflexivity. }
  split; [exact Hdiff|]. split.
  - intros tb Ha Htb Hc Hnone. apply (Hdiff (PDict [])).
    + now apply db_query_org_gone with (tb := tb).
    + now apply py_eqb_empty_dict with (k := "id") (v := org_id).
  - intros r c2 H. unfold _delete_org in H.
    rewrite Hid, bind_lift_ok in H.
    apply bind_ok in H as (org_in_db & c1 & Hq & H).
    destruct (py_eqb org_in_db org) eqn:Heq; [|discriminate]. simpl negb in H.
    apply bind_ok in H as (asns & c3 & Ha & H). apply lift_ok in Ha as [Ha ->].
    apply bind_ok in H as ([] & c3 & Hra & H).
    apply bind_ok in H as (contacts & c4 & Hc & H). apply lift_ok in Hc as [Hc ->].
    apply bind_ok in H as ([] & c4 & Hrc & H).
    apply bind_ok in H as (n & c5 & Hd & H).
    apply db_manipulate_inv in Hd as [(e & He & _) | (cur & _ & Hop & Hn & ->)];
      [discriminate|].
    apply sql_delete_inv in Hop as (tb & Htb & _ & Hcount & Hstore).
    pose proof (touches_db_query_org _ _ _ _ _ _ Hq "organisation") as F1.
    pose proof (touches_remove_or_unlink_asns _ _ _ _ _ Hra "organisation") as F2.
    pose proof (touches_remove_or_unlink_contacts _ _ _ _ _ Hrc "organisation") as F3.
    rewrite F3, F2, F1 in Htb by (simpl; intuition discriminate).
    exists org_in_db, c1, tb. split; [exact Hq|]. split; [exact Heq|].
    split; [exact Htb|].
    inversion Hn; subst n. clear Hn. rewrite Hcount in H.
    unfold arg in *. change (nth 0 [org_id] PNone) with org_id in *.
    assert (Hr : (Z.of_nat (length (List.filter (fun r => sql_eq (col r "id") org_id)
                                      (rows tb))) =? 1)
                 = Nat.eqb (length (List.filter (fun o => sql_eq (col o "id") org_id)
                                      (rows tb))) 1).
    { destruct (Nat.eqb_spec (length (List.filter (fun o => sql_eq (col o "id") org_id)
                                        (rows tb))) 1) as [E|E].
      - rewrite E. reflexivity.
      - apply Z.eqb_neq. lia. }
    rewrite Hr in H. split.
    + destruct (Nat.eqb _ 1); inversion H; subst; simpl;
        rewrite Hstore; apply lookup_insert_eq.
    + destruct (Nat.eqb _ 1); now inversion H.
Qed.

Lemma delete_org_guarded_witness :
  (forall org_in_db c1,
     __db_query_org (PInt 3) "" false transitional = (Ok org_in_db, c1) ->
     py_eqb org_in_db initech = false ->
     _delete_org initech transitional
     = (Raise (CommitError "Org to be deleted differs from db entry." []), c1))
  /\ (forall tb,
      adaptable (PInt 3) = true ->
      working transitional !! "organisation" = Some tb ->
      has_column tb "organisation_id" = true ->
      List.filter (fun r => sql_eq (col r "organisation_id") (PInt 3)) (rows tb) = [] ->
      _delete_org initech transitional
      = (Raise (CommitError "Org to be deleted differs from db entry." []), transitional))
  /\ (forall r c2,
      _delete_org initech transitional = (Ok r, c2) ->
      exists org_in_db c1 tb,
        __db_query_org (PInt 3) "" false transitional = (Ok org_in_db, c1)
        /\ py_eqb org_in_db initech = true
        /\ working transitional !! "organisation" = Some tb
        /\ working c2 !! "organisation"
           = Some (mkTable (columns tb)
                     (List.filter (fun o => negb (sql_eq (col o "id") (PInt 3))) (rows tb))
                     (serial tb))
        /\ r = if Nat.eqb (length (List.filter (fun o => sql_eq (col o "id") (PInt 3))
                                     (rows tb))) 1
               then PInt 3 else PNone).
Proof.
  apply (delete_org_guarded initech (PInt 3) transitional).
  vm_compute. reflexivity.
Defined.

(** C4, as stated, fails on its last part: the first delete returns the
    id, and the second delete of the same id raises CommitError; it does
    not return nothing. *)
Lemma delete_org_twice_raises :
  fst (_delete_org initech transitional) = Ok (PInt 3)
  /\ fst (_delete_org initech (snd (_delete_org initech transitional)))
     = Raise (CommitError "Org to be deleted differs from db entry." []).
Proof. split; vm_compute; reflexivity. Qed.

(** ** Witnesses on the example stores *)

Lemma remove_or_unlink_asns_guarded_witness :
  let asns := [asn_payload 1 64511; asn_payload 1 64496] in
  let r : outcome unit :=
    Raise (CommitError "ASN{} to be deleted differs from db entry." [PInt 64496]) in
  let cf := snd (__remove_or_unlink_asns (PList asns) (PInt 1) transitional) in
  (forall x, In x (as_rows (working transitional)) -> ~ In x (as_rows (working cf)) ->
     exists asn asn_id asn_in_db stripped c0 c3,
       compared asns (PInt 1) transitional asn asn_id asn_in_db stripped c0 c3
       /\ sql_eq (col x "number") asn_id = true
       /\ link_count asn_id (working c3) = 0%nat
       /\ py_eqb asn_in_db stripped = true)
  /\ (forall asn asn_id asn_in_db stripped c0 c3,
       compared asns (PInt 1) transitional asn asn_id asn_in_db stripped c0 c3 ->
       py_eqb asn_in_db stripped = false ->
       r = Raise (CommitError "ASN{} to be deleted differs from db entry." [asn_id])
       /\ cf = c3 /\ as_rows (working c3) = as_rows (working c0)).
Proof.
  intros asns r cf.
  apply (remove_or_unlink_asns_guarded asns (PInt 1) transitional r cf).
  vm_compute. reflexivity.
Defined.

Lemma create_org_ignores_children_witness :
  let d1 := acme_with [wanted_asn 64496 ["a"]; wanted_asn 64511 ["c"]] [] in
  let d2 := acme_with [wanted_asn 64496 ["a"]] [grace] in
  let c2 := snd (_create_org (PDict d2) (snd (_create_org (PDict d1) idle))) in
  (forall db, matching_orgs d2 db = matching_orgs d1 db)
  /\ PInt 1 = PInt 1
  /\ map contact_values (stored_contacts (PInt 1) (working c2))
     = map contact_values [grace]
  /\ forall n, linked 1 n (working c2)
               <-> exists a, In a [wanted_asn 64496 ["a"]]
                             /\ py_getitem a "asn" = Ok (PInt n).
Proof.
  intros d1 d2 c2.
  apply (create_org_ignores_children d1 d2 idle 1
           (snd (_create_org (PDict d1) idle)) (PInt 1) c2
           [wanted_asn 64496 ["a"]] [grace]).
  - intros k Hk. simpl in Hk.
    repeat (destruct Hk as [<-|Hk]; [reflexivity|]). destruct Hk.
  - reflexivity.
  - repeat constructor. now exists 64496.
  - reflexivity.
  - vm_compute. reflexivity.
  - vm_compute. reflexivity.
Defined.

(** ** Where the code departs from the specification *)

(** C1. A batch of a create and a delete whose snapshot is out of date is
    answered with the rejection, yet the organisation the create inserted
    is in the committed store afterwards: reading the aggregate for the
    delete commits the open transaction, since the organisation read has an
    annotated ASN. *)
Theorem commit_pending_org_changes_keeps_create :
  let run := commit_pending_org_changes
               (batch ["create"; "delete"] [umbrella; stale_acme]) idle in
  fst run = Ok (BadRequest "Commit failed, see server logs.")
  /\ organisation_names (committed idle) = [PStr "Acme Corp"]
  /\ organisation_names (committed (snd run)) = [PStr "Acme Corp"; PStr "Umbrella"].
Proof. vm_compute. repeat split; reflexivity. Qed.

(** The aggregate takes every key but those of the children from the
    organisation row. *)
Lemma db_query_org_key org_id et c v c1 k :
  __db_query_org org_id "" et c = (Ok v, c1) ->
  ~ In k ["asns"; "contacts"; "nationalcerts"; "networks"; "fqdns"; "annotations"] ->
  v = PDict []
  \/ exists tb r d,
       working c !! "organisation" = Some tb /\ In r (rows tb)
       /\ v = PDict d /\ dict_get k d = dict_get k r.
Proof.
  intros H Hk. unfold __db_query_org in H.
  change ("organisation" +:+ "") with "organisation" in H.
  apply bind_ok in H as (results & c2 & Hq & H).
  apply db_query_inv in Hq as [(e & He & _) | (cur & _ & Hop & Hr & ->)]; [discriminate|].
  apply sql_select_inv in Hop as (tb & Htb & _ & Hfetch & Hstore).
  inversion Hr; subst results. clear Hr. rewrite Hfetch in H.
  unfold project in H. rewrite map_id in H.
  match type of H with
  | context [List.filter ?p (rows tb)] =>
      destruct (List.filter p (rows tb)) as [|r [|r2 rest]] eqn:Hf
  end; cbn [length Nat.eqb negb] in H; try (left; now inversion H).
  right.
  assert (Hin : In r (rows tb)).
  { assert (Hin : In r [r]) by now left. rewrite <- Hf in Hin.
    now apply filter_In in Hin as [Hin _]. }
  cbn [first] in H. rewrite bind_lift_ok in H.
  change (negb ("" =? "")%string) with false in H. cbv iota in H.
  change (ret (PDict r)) with (lift (Ok (PDict r))) in H. rewrite bind_lift_ok in H.
  assert (Hset : forall d key x org2,
             py_setitem (PDict d) key x = Ok org2 ->
             In key ["asns"; "contacts"; "nationalcerts"; "networks"; "fqdns";
                     "annotations"] ->
             dict_get k d = dict_get k r ->
             exists d2, org2 = PDict d2 /\ dict_get k d2 = dict_get k r).
  { intros d key x org2 Hs Hkey Hd. simpl in Hs. inversion Hs.
    eexists. split; [reflexivity|]. rewrite dict_get_set_ne; [exact Hd|].
    intros ->. contradiction. }
  apply bind_ok in H as (asns & c3 & _ & H).
  apply bind_ok in H as (o1 & c4 & Hs & H). apply lift_ok in Hs as [Hs ->].
  apply Hset in Hs as (d1 & -> & H1); [|simpl; tauto|reflexivity].
  apply bind_ok in H as (res2 & c4 & _ & H).
  apply bind_ok in H as (o2 & c5 & Hs & H). apply lift_ok in Hs as [Hs ->].
  apply Hset in Hs as (d2 & -> & H2); [|simpl; tauto|exact H1].
  apply bind_ok in H as (res3 & c5 & _ & H).
  apply bind_ok in H as (o3 & c6 & Hs & H). apply lift_ok in Hs as [Hs ->].
  apply Hset in Hs as (d3 & -> & H3); [|simpl; tauto|exact H2].
  apply bind_ok in H as (res4 & c6 & _ & H).
  apply bind_ok in H as (o4 & c7 & Hs & H). apply lift_ok in Hs as [Hs ->].
  apply Hset in Hs as (d4 & -> & H4); [|simpl; tauto|exact H3].
  apply bind_ok in H as (res5 & c7 & _ & H).
  apply bind_ok in H as (o5 & c8 & Hs & H). apply lift_ok in Hs as [Hs ->].
  apply Hset in Hs as (d5 & -> & H5); [|simpl; tauto|exact H4].
  change ("" =? "")%string with true in H. cbv iota in H.
  apply bind_ok in H as (res6 & c8 & _ & H).
  apply bind_ok in H as (r6 & c9 & _ & H).
  apply bind_ok in H as (annos & c10 & _ & H).
  apply bind_ok in H as (o6 & c11 & Hs & H). apply lift_ok in Hs as [Hs ->].
  apply Hset in Hs as (d6 & -> & H6); [|simpl; tauto|exact H5].
  apply bind_ok in H as (asns2 & c11 & _ & H).
  apply lift_ok in H as [Hs ->].
  apply Hset in Hs as (d7 & -> & H7); [|simpl; tauto|exact H6].
  exists tb, r, d7. auto.
Qed.

(** X16. On a store whose organisation rows have no key "id", the update
    of an organisation never returns. *)
Lemma update_org_needs_id org c r c2 :
  (forall tb x, working c !! "organisation" = Some tb -> In x (rows tb) ->
                dict_get "id" x = None) ->
  _update_org org c = (r, c2) -> exists e, r = Raise e.
Proof.
  intros Hno H. destruct r as [v|e]; [|eauto]. exfalso.
  unfold _update_org in H.
  apply bind_ok in H as (org_id & c3 & Hid & H). apply lift_ok in Hid as [_ ->].
  apply bind_ok in H as (org_in_db & c4 & Hq & H).
  apply bind_ok in H as (known & c5 & Hk & H). apply lift_ok in Hk as [Hk ->].
  destruct (db_query_org_key _ _ _ _ _ "id" Hq)
    as [-> | (tb & x & d & Htb & Hin & -> & Hd)]; [simpl; intuition discriminate| |].
  - simpl in Hk. inversion Hk; subst known. discriminate.
  - rewrite (Hno tb x Htb Hin) in Hd. simpl in Hk. unfold dict_has in Hk.
    rewrite Hd in Hk. inversion Hk; subst known. discriminate.
Qed.

(** C3. On the store whose organisation key is named as the reader and
    [_create_org] name it, a created organisation cannot be updated: the
    update looks for the key "id" in the aggregate, which has
    "organisation_id". *)
Theorem update_org_after_create_raises :
  let created := _create_org umbrella idle in
  fst created = Ok (PInt 2)
  /\ fst (_update_org (with_id 2 umbrella) (snd created))
     = Raise (CommitError "Org {} to be updated not in db." [PInt 2]).
Proof. vm_compute. split; reflexivity. Qed.

(** Over no annotation rows the reader of ASN annotations returns None. *)
Lemma db_query_asn_annotations_none asn c tb :
  working c !! "autonomous_system_annotation" = Some tb ->
  forallb (has_column tb) ["annotation"; "asn"] = true ->
  adaptable asn = true ->
  List.filter (fun r => sql_eq (col r "asn") asn) (rows tb) = [] ->
  __db_query_asn_annotations asn false c = (Ok PNone, c).
Proof.
  intros Htb Hc Ha Hnone.
  unfold __db_query_asn_annotations, _db_query, execute, bind, ret, lift.
  simpl forallb. rewrite Ha. simpl.
  unfold sql_aggregate, relation. rewrite Htb. simpl obind.
  rewrite (with_columns_ok _ _ Hc). simpl.
  unfold arg. simpl nth. rewrite Hnone. simpl. now rewrite conn_eta.
Qed.

(** X23. A wanted ASN without annotation rows stops the reconciler with a
    TypeError, whatever its wanted annotations. *)
Lemma fix_asn_to_org_unannotated org_id asn asn_id xs c tb :
  py_getitem asn "asn" = Ok asn_id ->
  py_getitem asn "annotations" = Ok (PList xs) ->
  working c !! "autonomous_system_annotation" = Some tb ->
  forallb (has_column tb) ["annotation"; "asn"] = true ->
  adaptable asn_id = true ->
  List.filter (fun r => sql_eq (col r "asn") asn_id) (rows tb) = [] ->
  exists what, fix_asn_to_org org_id asn c = (Raise (TypeError what), c).
Proof.
  intros Hn Hx Htb Hc Ha Hnone. unfold fix_asn_to_org.
  rewrite Hn, bind_lift_ok, Hx, bind_lift_ok.
  rewrite (bind_run _ _ _ _ _ (db_query_asn_annotations_none _ _ _ Htb Hc Ha Hnone)).
  simpl py_iter. destruct xs as [|x xs]; simpl; eauto.
Qed.

(** C5. With ASNs 64496 and 64511 stored for the organisation and 64496
    and 64500 wanted, the reconciler raises TypeError at the ASN that has no
    annotation stored: 64500 is not linked and 64511 stays linked. *)
Theorem fix_asns_to_org_new_asn_raises :
  let run := __fix_asns_to_org
               (PList [wanted_asn 64496 ["a"]; wanted_asn 64500 ["b"]]) (PInt 1) idle in
  fst run = Raise (TypeError "argument of type 'NoneType' is not iterable")
  /\ links (working (snd run))
     = [link "organisation_id" 1 64496; link "organisation_id" 1 64511].
Proof. vm_compute. split; reflexivity. Qed.

(** C8. For an ASN without annotation rows the reader of ASN annotations
    returns None, and the aggregate of an organisation without annotation
    rows has None as its annotations: neither is the empty list. *)
Theorem annotations_none_when_empty :
  fst (__db_query_asn_annotations (PInt 64500) false idle) = Ok PNone
  /\ obind (fst (__db_query_org (PInt 1) "" false idle))
           (fun org => py_getitem org "annotations") = Ok PNone.
Proof. vm_compute. split; reflexivity. Qed.

(** C9. The contact search is case-sensitive: the stored address
    "Abuse@Acme.example" contains the query "abuse@acme" up to letter case,
    as ILIKE would find, but the organisation is not returned; queried in
    the stored case it is. *)
Theorem searchcontact_is_case_sensitive :
  map (fun r => col r "email") (stored_contacts (PInt 1) contactdb)
  = [PStr "Abuse@Acme.example"]
  /\ sql_ilike (PStr "Abuse@Acme.example") (PStr "%abuse@acme%") = true
  /\ fst (searchcontact "abuse@acme" idle)
     = Ok (PDict [("manual", PList []); ("auto", PList [])])
  /\ fst (searchcontact "Abuse@Acme" idle)
     = Ok (PDict [("manual", PList [PInt 1]); ("auto", PList [])]).
Proof. vm_compute. repeat split; reflexivity. Qed.

(** ** Batches of creations

    [_create_org] passes [end_transaction=False] to every statement it
    runs and does not read an aggregate, so a failing batch of creations is
    rolled back as a whole. *)

Lemma keeps_ret {A : Type} (a : A) : keeps_committed (ret a).
Proof. intros c r c2 H. now inversion H. Qed.

Lemma keeps_raise {A : Type} e : keeps_committed (@raise A e).
Proof. intros c r c2 H. now inversion H. Qed.

Lemma keeps_lift {A : Type} (o : outcome A) : keeps_committed (lift o).
Proof. intros c r c2 H. now inversion H. Qed.

Lemma keeps_bind {A B : Type} (m : M A) (k : A -> M B) :
  keeps_committed m -> (forall a, keeps_committed (k a)) -> keeps_committed (bind m k).
Proof.
  intros Hm Hk c r c2 H.
  apply bind_cases in H as [(a & c1 & H1 & H2) | (e & H1 & _)].
  - rewrite (Hk a _ _ _ H2). now apply (Hm _ _ _ H1).
  - now apply (Hm _ _ _ H1).
Qed.

Lemma keeps_for_each {A : Type} (body : A -> M unit) l :
  (forall x, keeps_committed (body x)) -> keeps_committed (for_each body l).
Proof.
  intros Hb. induction l as [|x l IH]; simpl.
  - apply keeps_ret.
  - apply keeps_bind; auto.
Qed.

Lemma keeps_execute op ps : keeps_committed (execute op ps).
Proof.
  intros c r c2 H. unfold execute in H.
  destruct (forallb adaptable ps); [|now inversion H].
  destruct (op ps (working c)); now inversion H.
Qed.

Lemma keeps_db_query op ps : keeps_committed (_db_query op ps false).
Proof.
  unfold _db_query. apply keeps_bind; [apply keeps_execute | intros cur].
  apply keeps_bind; [apply keeps_ret | intros _; apply keeps_ret].
Qed.

Lemma keeps_db_manipulate op ps : keeps_committed (_db_manipulate op ps false).
Proof.
  unfold _db_manipulate. apply keeps_bind; [apply keeps_execute | intros cur].
  apply keeps_bind; [apply keeps_ret | intros _; apply keeps_ret].
Qed.

Ltac no_commit :=
  repeat first
    [ apply keeps_ret
    | apply keeps_raise
    | apply keeps_lift
    | apply keeps_db_query
    | apply keeps_db_manipulate
    | apply keeps_for_each; intros ?
    | apply keeps_bind; [|intros ?]
    | match goal with
      | |- keeps_committed (match ?x with _ => _ end) => destruct x
      end ].

Lemma keeps_create_org org : keeps_committed (_create_org org).
Proof.
  unfold _create_org, __fix_asns_to_org, fix_asn_to_org, __db_query_asn_annotations,
    __fix_contacts_to_org, fix_contact_to_org.
  no_commit.
Qed.

Lemma keeps_run_creates todo : forall results,
  Forall (fun co => fst co = PStr "create") todo ->
  keeps_committed (run_commands todo results).
Proof.
  induction todo as [|[command org] todo IH]; intros results Hall; simpl.
  - apply keeps_ret.
  - inversion Hall as [|? ? Hc Hrest]; subst. simpl in Hc. subst command.
    change (known_commands (PStr "create")) with (Ok (Some _create_org)).
    intros c r c2 H. rewrite bind_lift_ok in H. revert c r c2 H.
    apply keeps_bind; [apply keeps_create_org | intros x].
    now apply IH.
Qed.

Lemma keep_sequences_contents written stored :
  same_contents stored (keep_sequences written stored).
Proof.
  intros t. unfold keep_sequences. rewrite lookup_merge.
  destruct (stored !! t) as [tb|], (written !! t) as [tw|]; simpl; auto.
Qed.

(** X4. A batch of creations that is answered with "Commit failed" is
    rolled back as a whole: no change is left pending, and every table
    holds the columns and rows that were committed before the request.
    The sequences keep the values they have reached. *)
Lemma commit_of_creates_rolls_back (orgs : list pyval) (n : nat) c c2 :
  commit_pending_org_changes (batch (repeat "create" n) orgs) c
  = (Ok (BadRequest "Commit failed, see server logs."), c2) ->
  working c2 = committed c2 /\ same_contents (committed c) (committed c2).
Proof.
  unfold commit_pending_org_changes. intros H.
  apply bind_ok in H as (ok & c1 & Hok & H). apply lift_ok in Hok as [_ ->].
  destruct (negb ok); [inversion H|].
  apply bind_ok in H as (commands & c1 & Hc & H). apply lift_ok in Hc as [Hc ->].
  apply bind_ok in H as (orgs2 & c1 & Ho & H). apply lift_ok in Ho as [_ ->].
  apply bind_ok in H as (cl & c1 & Hcl & H). apply lift_ok in Hcl as [Hcl ->].
  apply bind_ok in H as (known & c1 & Hk & H). apply lift_ok in Hk as [_ ->].
  destruct (negb known); [inversion H|].
  apply bind_ok in H as (ol & c1 & Hol & H). apply lift_ok in Hol as [_ ->].
  simpl in Hc. inversion Hc; subst commands. simpl in Hcl. inversion Hcl; subst cl.
  destruct (run_commands (combine (map PStr (repeat "create" n)) ol) [] c)
    as [[results|e] c3] eqn:Hrun; [inversion H|].
  assert (Hkeep : committed c3 = committed c).
  { apply (keeps_run_creates _ [] ) in Hrun; [exact Hrun|].
    clear. revert ol. induction n as [|n IH]; intros [|o ol]; simpl; constructor; auto. }
  unfold bind, __rollback_transaction, ret in H. injection H as <-.
  cbn [working committed]. split; [reflexivity|].
  rewrite <- Hkeep. apply keep_sequences_contents.
Qed.

(** The ids that a rejected batch has taken are not given out again: after
    the rollback of a batch that created one organisation on the example
    store, whose sequence stood at 1, the next organisation gets the id 3. *)
Lemma rolled_back_ids_are_not_reused :
  let rejected := commit_pending_org_changes
                    (batch ["create"; "create"] [umbrella; PDict []]) idle in
  fst rejected = Ok (BadRequest "Commit failed, see server logs.")
  /\ organisation_names (committed (snd rejected)) = [PStr "Acme Corp"]
  /\ fst (_create_org umbrella (snd rejected)) = Ok (PInt 3).
Proof. vm_compute. repeat split; reflexivity. Qed.

(** ** The commit endpoint *)

Lemma well_formed_acceptable d :
  acceptable_body d -> well_formed_body (PDict d) = Ok true.
Proof.
  intros (cv & ov & n & Hc & Ho & Hlc & Hlo & Hn). unfold well_formed_body.
  cbn [py_truthy py_contains py_getitem obind]. unfold dict_has.
  destruct d as [|kv d]; [discriminate|]. cbn [length Nat.eqb negb].
  rewrite Hc. cbn [negb obind]. rewrite Hlc. cbn [obind].
  destruct n as [|n]; [lia|]. change (negb (Nat.ltb 0 (S n))) with false. cbv iota.
  rewrite Ho. cbn [negb obind]. rewrite Hlo. cbn [obind].
  now rewrite Nat.eqb_refl.
Qed.

Lemma well_formed_unacceptable d :
  has_length "commands" d -> has_length "orgs" d -> ~ acceptable_body d ->
  well_formed_body (PDict d) = Ok false.
Proof.
  intros Hc Ho Hbad. unfold well_formed_body.
  cbn [py_truthy py_contains py_getitem obind].
  destruct (Nat.eqb (length d) 0) eqn:Hlen; [reflexivity|]. cbn [negb].
  unfold dict_has.
  destruct (dict_get "commands" d) as [cv|] eqn:Ecv; [|reflexivity].
  destruct (Hc cv Ecv) as (n & Hn). cbn [negb obind]. rewrite Hn. cbn [obind].
  destruct n as [|n]; [reflexivity|].
  change (negb (Nat.ltb 0 (S n))) with false. cbv iota.
  destruct (dict_get "orgs" d) as [ov|] eqn:Eov; [|reflexivity].
  destruct (Ho ov Eov) as (m & Hm). cbn [negb obind]. rewrite Hm. cbn [obind].
  destruct m as [|m]; [reflexivity|].
  change (negb (Nat.ltb 0 (S m))) with false. cbv iota.
  destruct (Nat.eqb_spec (S n) (S m)) as [E|E]; [|reflexivity].
  exfalso. apply Hbad. exists cv, ov, (S n). rewrite E in Hn |- *.
  repeat split; auto. lia.
Qed.

(** Past the first test the endpoint gives another answer than the first
    rejection, if it gives one. *)
Lemma commit_accepted_answer body c r c2 :
  well_formed_body body = Ok true ->
  commit_pending_org_changes body c = (r, c2) ->
  r <> Ok (BadRequest "Needs commands and orgs arrays of same length.").
Proof.
  intros Hwf H Hr. subst r. unfold commit_pending_org_changes in H.
  rewrite Hwf, bind_lift_ok in H. cbn [negb] in H.
  apply bind_ok in H as (commands & c1 & _ & H).
  apply bind_ok in H as (orgs & c3 & _ & H).
  apply bind_ok in H as (cl & c4 & _ & H).
  apply bind_ok in H as (known & c5 & _ & H).
  destruct (negb known); [discriminate|].
  apply bind_ok in H as (ol & c6 & _ & H).
  destruct (run_commands (combine cl ol) [] c6) as [[results|e] c7]; discriminate.
Qed.

(** X1. A request body that is an object is answered with the first
    rejection, the connection left as it was, exactly when commands and
    orgs are not both there with one length that is not zero; this for
    values that have a length, which arrays, strings and objects do.  A
    value without a length, null or a number, makes the test itself raise
    the TypeError, again with the connection as it was. *)
Theorem commit_rejects_malformed_body (d : row) c :
  (has_length "commands" d -> has_length "orgs" d ->
   (commit_pending_org_changes (PDict d) c
    = (Ok (BadRequest "Needs commands and orgs arrays of same length."), c)
    <-> ~ acceptable_body d))
  /\ (forall cv e,
        dict_get "commands" d = Some cv -> py_len cv = Raise e ->
        commit_pending_org_changes (PDict d) c = (Raise e, c))
  /\ (forall cv n ov e,
        dict_get "commands" d = Some cv -> py_len cv = Ok (S n) ->
        dict_get "orgs" d = Some ov -> py_len ov = Raise e ->
        commit_pending_org_changes (PDict d) c = (Raise e, c)).
Proof.
  split; [|split].
  - intros Hc Ho. split.
    + intros H Hacc.
      apply (commit_accepted_answer _ _ _ _ (well_formed_acceptable d Hacc) H).
      reflexivity.
    + intros Hbad. unfold commit_pending_org_changes.
      rewrite (well_formed_unacceptable d Hc Ho Hbad), bind_lift_ok. reflexivity.
  - intros cv e Hcv He. unfold commit_pending_org_changes, well_formed_body.
    cbn [py_truthy py_contains py_getitem obind]. unfold dict_has.
    destruct d as [|kv d]; [discriminate|]. cbn [length Nat.eqb negb].
    rewrite Hcv. cbn [negb obind]. rewrite He. reflexivity.
  - intros cv n ov e Hcv Hn Hov He. unfold commit_pending_org_changes, well_formed_body.
    cbn [py_truthy py_contains py_getitem obind]. unfold dict_has.
    destruct d as [|kv d]; [discriminate|]. cbn [length Nat.eqb negb].
    rewrite Hcv. cbn [negb obind]. rewrite Hn. cbn [obind].
    change (negb (Nat.ltb 0 (S n))) with false. cbv iota.
    rewrite Hov. cbn [negb obind]. rewrite He. reflexivity.
Qed.

Lemma commit_rejects_malformed_body_witness :
  commit_pending_org_changes (PDict [("one", PStr "two")]) idle
  = (Ok (BadRequest "Needs commands and orgs arrays of same length."), idle)
  /\ commit_pending_org_changes
       (PDict [("commands", PInt 5); ("orgs", PList [umbrella])]) idle
     = (Raise (TypeError "object of type 'int' has no len()"), idle).
Proof.
  split.
  - apply (commit_rejects_malformed_body [("one", PStr "two")] idle).
    + intros v H. discriminate.
    + intros v H. discriminate.
    + intros (cv & ov & n & H & _). discriminate.
  - apply (proj1 (proj2 (commit_rejects_malformed_body
                           [("commands", PInt 5); ("orgs", PList [umbrella])] idle))
             (PInt 5)); reflexivity.
Defined.

Lemma well_formed_batch names ol :
  names <> [] -> length names = length ol ->
  well_formed_body (batch names ol) = Ok true.
Proof.
  intros Hne Hlen. unfold well_formed_body, batch.
  cbn [py_truthy py_contains py_getitem obind length Nat.eqb negb dict_has dict_get].
  simpl. rewrite length_map.
  destruct names as [|n names]; [congruence|].
  destruct ol as [|o ol]; [discriminate|]. simpl.
  simpl in Hlen. injection Hlen as Hlen. now rewrite Hlen, Nat.eqb_refl.
Qed.

Lemma all_known_names names :
  all_known (map PStr names)
  = Ok (forallb (fun s => existsb (String.eqb s) command_names) names).
Proof.
  induction names as [|s names IH]; [reflexivity|].
  cbn [map all_known forallb]. unfold known_commands, command_names. simpl existsb.
  destruct (String.eqb s "create"); simpl; [exact IH|].
  destruct (String.eqb s "update"); simpl; [exact IH|].
  destruct (String.eqb s "delete"); simpl; [exact IH|reflexivity].
Qed.

(** X2. A batch that names a command other than create, update and delete
    is rejected as a whole before any writer runs: the connection is as it
    was, even where known commands come first in the batch. *)
Theorem commit_rejects_unknown_command (names : list string) (ol : list pyval) c s :
  length names = length ol ->
  In s names -> ~ In s command_names ->
  commit_pending_org_changes (batch names ol) c
  = (Ok (BadRequest "Unknown command. Not in dict_keys(['create', 'update', 'delete'])"),
     c).
Proof.
  intros Hlen Hin Hunknown. unfold commit_pending_org_changes.
  rewrite well_formed_batch; [|now destruct names|exact Hlen].
  rewrite bind_lift_ok. cbn [negb].
  unfold batch at 1 2. cbn [py_getitem dict_get]. simpl String.eqb.
  cbv iota. rewrite !bind_lift_ok. cbn [py_iter]. rewrite bind_lift_ok.
  rewrite all_known_names, bind_lift_ok.
  assert (Hf : forallb (fun s => existsb (String.eqb s) command_names) names = false).
  { destruct (forallb _ names) eqn:E; [|reflexivity].
    rewrite forallb_forall in E. specialize (E s Hin).
    apply existsb_exists in E as (k & Hk & Hs). apply String.eqb_eq in Hs. subst k.
    contradiction. }
  rewrite Hf. reflexivity.
Qed.

Lemma commit_rejects_unknown_command_witness :
  commit_pending_org_changes (batch ["create"; "merge"] [umbrella; umbrella]) idle
  = (Ok (BadRequest "Unknown command. Not in dict_keys(['create', 'update', 'delete'])"),
     idle).
Proof.
  apply (commit_rejects_unknown_command _ _ idle "merge").
  - reflexivity.
  - simpl. tauto.
  - simpl. intuition discriminate.
Defined.

Lemma run_commands_order todo : forall acc c results c',
  run_commands todo acc c = (Ok results, c') ->
  map fst results = map fst acc ++ map fst todo.
Proof.
  induction todo as [|[command org] todo IH]; intros acc c results c' H; simpl in H.
  - unfold ret in H. injection H as -> _. now rewrite app_nil_r.
  - apply bind_ok in H as (f & c1 & Hf & H). apply lift_ok in Hf as [_ ->].
    destruct f as [writer|]; [|discriminate].
    apply bind_ok in H as (r & c2 & _ & H).
    apply IH in H. rewrite H, map_app, <- app_assoc. reflexivity.
Qed.

(** X3. A batch of known commands with as many organisations is always
    answered: the endpoint does not raise.  The answer is the rejection
    after a rollback, or one result per command in the order of the
    commands after a commit; either way no change is left pending on the
    connection. *)
Theorem commit_answers_known_batch (names : list string) (ol : list pyval) c :
  names <> [] -> length names = length ol ->
  Forall (fun s => In s command_names) names ->
  exists resp c',
    commit_pending_org_changes (batch names ol) c = (Ok resp, c')
    /\ committed c' = working c'
    /\ (resp = BadRequest "Commit failed, see server logs."
        \/ exists results,
             resp = Committed results
             /\ map fst results = map PStr names
             /\ length results = length ol).
Proof.
  intros Hne Hlen Hknown. unfold commit_pending_org_changes.
  rewrite well_formed_batch by assumption.
  rewrite bind_lift_ok. cbn [negb].
  unfold batch at 1 2. cbn [py_getitem dict_get]. simpl String.eqb.
  cbv iota. rewrite !bind_lift_ok. cbn [py_iter]. rewrite bind_lift_ok.
  rewrite all_known_names, bind_lift_ok.
  assert (Hf : forallb (fun s => existsb (String.eqb s) command_names) names = true).
  { apply forallb_forall. intros s Hs. rewrite List.Forall_forall in Hknown.
    apply existsb_exists. exists s. split; [now apply Hknown | apply String.eqb_refl]. }
  rewrite Hf. cbn [negb]. rewrite bind_lift_ok.
  destruct (run_commands (combine (map PStr names) ol) [] c) as [[results|e] c1] eqn:Hrun.
  - eexists _, _. split; [reflexivity|]. split; [reflexivity|]. right.
    exists results. split; [reflexivity|].
    apply run_commands_order in Hrun. simpl in Hrun.
    assert (Hmap : map fst (combine (map PStr names) ol) = map PStr names).
    { clear - Hlen. revert ol Hlen.
      induction names as [|n names IH]; intros [|o ol] Hlen; try discriminate; simpl.
      - reflexivity.
      - f_equal. apply IH. now injection Hlen. }
    rewrite Hmap in Hrun. split; [exact Hrun|].
    rewrite <- Hlen, <- (length_map PStr names), <- Hrun. now rewrite length_map.
  - eexists _, _. split; [reflexivity|]. split; [reflexivity|]. now left.
Qed.

Lemma commit_answers_known_batch_witness :
  exists resp c',
    commit_pending_org_changes (batch ["create"; "create"] [umbrella; umbrella]) idle
    = (Ok resp, c')
    /\ committed c' = working c'
    /\ (resp = BadRequest "Commit failed, see server logs."
        \/ exists results,
             resp = Committed results
             /\ map fst results = map PStr ["create"; "create"]
             /\ length results = length [umbrella; umbrella]).
Proof.
  apply commit_answers_known_batch.
  - discriminate.
  - reflexivity.
  - repeat constructor; simpl; tauto.
Defined.

(** ** What [_create_org] refuses *)

Lemma dict_has_set {A : Type} k k' (v : A) d :
  dict_has k (dict_set k' v d) = (String.eqb k k' || dict_has k d)%bool.
Proof.
  unfold dict_has. destruct (String.eqb_spec k k') as [->|Hne].
  - now rewrite dict_get_set_eq.
  - now rewrite dict_get_set_ne.
Qed.

Lemma default_attribs_missing pre a post : forall d,
  (forall k, In k pre -> dict_has k d = true) -> dict_has a d = false ->
  default_attribs (pre ++ a :: post) (PDict d)
  = Raise (CommitError "{} not set" [PStr a]).
Proof.
  induction pre as [|k pre IH]; intros d Hpre Ha; simpl app;
    rewrite default_attribs_cons.
  - unfold dict_has in Ha. now destruct (dict_get a d).
  - pose proof (Hpre k (or_introl eq_refl)) as Hk. unfold dict_has in Hk.
    destruct (dict_get k d) as [v|] eqn:Ev; [|discriminate].
    apply IH.
    + intros k' Hk'. destruct (is_none v); [|now apply Hpre; right].
      rewrite dict_has_set, (Hpre k' (or_intror Hk')). apply orb_true_r.
    + destruct (is_none v); [|exact Ha].
      rewrite dict_has_set, Ha, orb_false_r. apply String.eqb_neq. intros ->.
      unfold dict_has in Ha. rewrite Ev in Ha. discriminate.
Qed.

Lemma default_attribs_total attribs : forall d,
  (forall k, In k attribs -> dict_has k d = true) ->
  exists d1, default_attribs attribs (PDict d) = Ok (PDict d1).
Proof.
  induction attribs as [|k attribs IH]; intros d Hall.
  - now exists d.
  - rewrite default_attribs_cons.
    pose proof (Hall k (or_introl eq_refl)) as Hk. unfold dict_has in Hk.
    destruct (dict_get k d) as [v|]; [|discriminate].
    apply IH. intros k' Hk'. destruct (is_none v); [|now apply Hall; right].
    rewrite dict_has_set, (Hall k' (or_intror Hk')). apply orb_true_r.
Qed.

(** X5. A payload that lacks one of name, comment, ripe_org_hdl, ti_handle
    and first_handle is refused with a CommitError that names the first
    attribute that is absent, before any statement runs. *)
Theorem create_org_missing_attribute (d : row) c pre a post :
  org_attribs = pre ++ a :: post ->
  (forall k, In k pre -> dict_has k d = true) ->
  dict_has a d = false ->
  _create_org (PDict d) c = (Raise (CommitError "{} not set" [PStr a]), c).
Proof.
  intros Hsplit Hpre Ha. unfold _create_org. rewrite Hsplit.
  now rewrite (default_attribs_missing pre a post d Hpre Ha).
Qed.

Lemma create_org_missing_attribute_witness :
  _create_org (PDict [("name", PStr "Umbrella"); ("comment", PNone)]) idle
  = (Raise (CommitError "{} not set" [PStr "ripe_org_hdl"]), idle).
Proof.
  apply (create_org_missing_attribute _ idle ["name"; "comment"] "ripe_org_hdl"
           ["ti_handle"; "first_handle"]).
  - reflexivity.
  - intros k [<-|[<-|[]]]; reflexivity.
  - reflexivity.
Defined.

(** X6. A payload that has the five attributes but whose name is None or
    the empty string is refused, before any statement runs: None has become
    the empty string by then. *)
Theorem create_org_needs_name (d : row) c :
  (forall k, In k org_attribs -> dict_has k d = true) ->
  dict_get "name" d = Some PNone \/ dict_get "name" d = Some (PStr "") ->
  _create_org (PDict d) c
  = (Raise (CommitError "Name of the organisation must be provided." []), c).
Proof.
  intros Hall Hname. unfold _create_org.
  destruct (default_attribs_total org_attribs d Hall) as [d1 Hd1].
  rewrite Hd1, bind_lift_ok.
  apply default_attribs_dict in Hd1 as (d2 & Heq & Hin & _).
  injection Heq as <-.
  destruct (Hin "name") as [Hget _]; [simpl; tauto|].
  cbn [py_getitem]. rewrite Hget, bind_lift_ok.
  assert (Hv : attrib_value d "name" = PStr "").
  { unfold attrib_value. destruct Hname as [-> | ->]; reflexivity. }
  rewrite Hv. reflexivity.
Qed.

Lemma create_org_needs_name_witness :
  _create_org (PDict [("name", PNone); ("comment", PStr "x"); ("ripe_org_hdl", PStr "");
                      ("ti_handle", PStr ""); ("first_handle", PStr "")]) idle
  = (Raise (CommitError "Name of the organisation must be provided." []), idle).
Proof.
  apply create_org_needs_name.
  - intros k Hk. simpl in Hk.
    repeat (destruct Hk as [<-|Hk]; [reflexivity|]). destruct Hk.
  - now left.
Defined.

(** ** The rollback of a batch of creations, on the example store *)

Lemma commit_of_creates_rolls_back_witness :
  let run := commit_pending_org_changes
               (batch (repeat "create" 2) [umbrella; PDict []]) idle in
  fst run = Ok (BadRequest "Commit failed, see server logs.")
  /\ working (snd run) = committed (snd run)
  /\ same_contents (committed idle) (committed (snd run)).
Proof.
  intros run. split; [vm_compute; reflexivity|].
  apply (commit_of_creates_rolls_back [umbrella; PDict []] 2 idle).
  vm_compute. reflexivity.
Defined.

(** ** What [_create_org] leaves of the organisation table *)

(** X29. However [_create_org] ends, the organisation table holds the
    rows from before the call, unchanged and in their order, and at most
    one more: a row that matches the payload, added only where no stored
    row matched. *)
Theorem create_org_adds_at_most_one (d : row) c r c2 :
  _create_org (PDict d) c = (r, c2) ->
  rows_of "organisation" (working c2) = rows_of "organisation" (working c)
  \/ (matching_orgs d (working c) = []
      /\ exists o,
           rows_of "organisation" (working c2)
           = rows_of "organisation" (working c) ++ [o]
           /\ org_matches d o = true).
Proof.
  intros H.
  apply create_org_run in H
    as [(e & _ & Hw) | (id & c1 & Hrec & [[Hw _] | (Hnone & tb & o & s & Htb & Hw & Ho & _)])].
  - left. now rewrite Hw.
  - left. unfold rows_of.
    rewrite (touches_reconcile_children _ _ _ _ _ Hrec "organisation"), Hw;
      [reflexivity | simpl; intuition discriminate].
  - right. split; [exact Hnone|]. exists o. split; [|exact Ho].
    unfold rows_of.
    rewrite (touches_reconcile_children _ _ _ _ _ Hrec "organisation"), Hw;
      [|simpl; intuition discriminate].
    now rewrite lookup_insert_eq, Htb.
Qed.

Lemma create_org_adds_at_most_one_witness :
  let d := [("name", PStr "Umbrella"); ("comment", PNone); ("ripe_org_hdl", PStr "");
            ("ti_handle", PStr ""); ("first_handle", PStr "");
            ("asns", PList []); ("contacts", PList [])] in
  let c2 := snd (_create_org (PDict d) idle) in
  rows_of "organisation" (working c2) = rows_of "organisation" (working idle)
  \/ (matching_orgs d (working idle) = []
      /\ exists o,
           rows_of "organisation" (working c2)
           = rows_of "organisation" (working idle) ++ [o]
           /\ org_matches d o = true).
Proof.
  intros d c2.
  apply (create_org_adds_at_most_one d idle (fst (_create_org (PDict d) idle)) c2).
  symmetry. apply surjective_pairing.
Defined.

(** ** The readers *)

Lemma touches_nothing {A : Type} (m : M A) : touches [] m -> reads_only m.
Proof.
  intros Hm c r c' H. apply map_eq. intros t. apply (Hm _ _ _ H). simpl. tauto.
Qed.

Lemma touches_db_query_organisation_ids operation parameters :
  (forall tv, writes [] (operation tv)) ->
  touches [] (__db_query_organisation_ids operation parameters).
Proof.
  intros Hw. unfold __db_query_organisation_ids.
  apply touches_bind; [now apply touches_db_query | intros results].
  apply touches_bind; [apply touches_lift | intros manual].
  apply touches_bind; [now apply touches_db_query | intros results2].
  apply touches_bind; [apply touches_lift | intros auto]. apply touches_ret.
Qed.

(** X7. The readers and the search endpoints write nothing: whatever they
    are asked and however they end, the store of the open transaction is as
    it was. *)
Theorem readers_write_nothing :
  (forall org_id tv et, reads_only (__db_query_org org_id tv et))
  /\ (forall asn tv et, reads_only (__db_query_asn asn tv et))
  /\ (forall asn et, reads_only (__db_query_asn_annotations asn et))
  /\ (forall asn, reads_only (searchasn asn))
  /\ (forall name, reads_only (searchorg name))
  /\ (forall email, reads_only (searchcontact email))
  /\ (forall id, reads_only (get_manual_org_details id))
  /\ (forall id, reads_only (get_auto_org_details id))
  /\ (forall number, reads_only (get_manual_asn_details number)).
Proof.
  repeat split; intros; apply touches_nothing.
  - apply touches_db_query_org.
  - apply touches_db_query_asn.
  - apply touches_db_query_asn_annotations.
  - apply touches_db_query_organisation_ids. intros tv. statement_frame.
  - apply touches_db_query_organisation_ids. intros tv. statement_frame.
  - apply touches_db_query_organisation_ids. intros tv. statement_frame.
  - apply touches_db_query_org.
  - apply touches_db_query_org.
  - unfold get_manual_asn_details.
    apply touches_bind; [apply touches_db_query_asn | intros asn].
    destruct (is_none asn); apply touches_ret.
Qed.

Lemma dict_set_not_nil {A : Type} k (v : A) d : dict_set k v d <> [].
Proof. destruct d as [|[k' v'] d]; simpl; [|destruct (String.eqb k k')]; discriminate. Qed.

Lemma py_setitem_inv org key x org2 :
  py_setitem org key x = Ok org2 ->
  exists d, org = PDict d /\ org2 = PDict (dict_set key x d).
Proof. destruct org; simpl; intros H; inversion H. eauto. Qed.

Lemma dict_get_del_eq {A : Type} k (d : list (string * A)) : dict_get k (dict_del k d) = None.
Proof.
  induction d as [|[k' v] d IH]; simpl; [reflexivity|].
  destruct (String.eqb k k') eqn:E; simpl; [exact IH | now rewrite E].
Qed.

Lemma dict_get_del_ne {A : Type} k k' (d : list (string * A)) :
  k <> k' -> dict_get k (dict_del k' d) = dict_get k d.
Proof.
  intros Hne. induction d as [|[k2 v] d IH]; simpl; [reflexivity|].
  destruct (String.eqb k' k2) eqn:E; simpl.
  - apply String.eqb_eq in E. subst k2.
    destruct (String.eqb_spec k k'); [contradiction | exact IH].
  - now rewrite IH.
Qed.

(** The first statement of [__db_query_org], when it completes. *)
Lemma db_query_org_rows org_id tv et c v c1 :
  __db_query_org org_id tv et c = (Ok v, c1) ->
  exists tb,
    working c !! ("organisation" +:+ tv) = Some tb
    /\ has_column tb ("organisation" +:+ tv +:+ "_id") = true
    /\ adaptable org_id = true.
Proof.
  unfold __db_query_org. intros H.
  apply bind_ok in H as (results & c2 & Hq & _).
  apply db_query_inv in Hq as [(e & He & _) | (cur & Ha & Hop & _ & _)]; [discriminate|].
  apply sql_select_inv in Hop as (tb & Htb & Hc & _ & _).
  exists tb. simpl in Hc, Ha. rewrite andb_true_r in Hc, Ha. auto.
Qed.

(** Unless exactly one row carries the id, the reader returns the empty
    dictionary and leaves the connection as it was, whatever
    [end_transaction] says. *)
Lemma db_query_org_absent org_id tv et c tb :
  adaptable org_id = true ->
  working c !! ("organisation" +:+ tv) = Some tb ->
  has_column tb ("organisation" +:+ tv +:+ "_id") = true ->
  length (List.filter (fun r => sql_eq (col r ("organisation" +:+ tv +:+ "_id")) org_id)
            (rows tb)) <> 1%nat ->
  __db_query_org org_id tv et c = (Ok (PDict []), c).
Proof.
  intros Ha Htb Hc Hnot. unfold __db_query_org.
  assert (Hcs : forallb (has_column tb) ["organisation" +:+ tv +:+ "_id"] = true)
    by (simpl; now rewrite Hc).
  assert (Hps : forallb adaptable [org_id] = true) by (simpl; now rewrite Ha).
  rewrite (bind_run _ _ _ _ _
             (db_query_select_run None ("organisation" +:+ tv)
                ["organisation" +:+ tv +:+ "_id"]
                (fun p r => sql_eq (col r ("organisation" +:+ tv +:+ "_id")) (arg 0 p))
                [org_id] c tb Htb Hcs Hps)).
  unfold arg. change (nth 0 [org_id] PNone) with org_id.
  unfold project. rewrite map_id.
  apply Nat.eqb_neq in Hnot. now rewrite Hnot.
Qed.

(** X8. The aggregate that [__db_query_org] returns is the empty
    dictionary exactly when the rows of the organisation table that carry
    the id are not one: none, or more than one. *)
Theorem db_query_org_empty_iff org_id tv et c v c1 :
  __db_query_org org_id tv et c = (Ok v, c1) ->
  exists tb,
    working c !! ("organisation" +:+ tv) = Some tb
    /\ (v = PDict []
        <-> length (List.filter
                      (fun r => sql_eq (col r ("organisation" +:+ tv +:+ "_id")) org_id)
                      (rows tb)) <> 1%nat).
Proof.
  intros H. destruct (db_query_org_rows _ _ _ _ _ _ H) as (tb & Htb & Hc & Ha).
  exists tb. split; [exact Htb|]. split.
  - intros -> Hone. revert H. unfold __db_query_org.
    assert (Hcs : forallb (has_column tb) ["organisation" +:+ tv +:+ "_id"] = true)
      by (simpl; now rewrite Hc).
    assert (Hps : forallb adaptable [org_id] = true) by (simpl; now rewrite Ha).
    rewrite (bind_run _ _ _ _ _
               (db_query_select_run None ("organisation" +:+ tv)
                  ["organisation" +:+ tv +:+ "_id"]
                  (fun p r => sql_eq (col r ("organisation" +:+ tv +:+ "_id")) (arg 0 p))
                  [org_id] c tb Htb Hcs Hps)).
    unfold arg. change (nth 0 [org_id] PNone) with org_id.
    unfold project. rewrite map_id, Hone. cbn [Nat.eqb negb].
    intros H.
    apply bind_ok in H as (org0 & c2 & _ & H).
    apply bind_ok in H as (org1 & c3 & _ & H).
    apply bind_ok in H as (asns & c4 & _ & H).
    apply bind_ok in H as (org2 & c5 & _ & H).
    apply bind_ok in H as (res3 & c6 & _ & H).
    apply bind_ok in H as (org3 & c7 & _ & H).
    apply bind_ok in H as (res4 & c8 & _ & H).
    apply bind_ok in H as (org4 & c9 & _ & H).
    apply bind_ok in H as (res5 & c10 & _ & H).
    apply bind_ok in H as (org5 & c11 & _ & H).
    apply bind_ok in H as (res6 & c12 & _ & H).
    apply bind_ok in H as (org6 & c13 & Hs & H). apply lift_ok in Hs as [Hs ->].
    apply py_setitem_inv in Hs as (d5 & -> & ->).
    destruct (String.eqb tv "").
    + apply bind_ok in H as (res7 & c14 & _ & H).
      apply bind_ok in H as (r7 & c15 & _ & H).
      apply bind_ok in H as (annos & c16 & _ & H).
      apply bind_ok in H as (org7 & c17 & _ & H).
      apply bind_ok in H as (asns2 & c18 & _ & H).
      apply lift_ok in H as [Hs _].
      apply py_setitem_inv in Hs as (d7 & _ & Hv). injection Hv as Hv.
      symmetry in Hv. now apply dict_set_not_nil in Hv.
    + unfold ret in H. injection H as Hv _. now apply dict_set_not_nil in Hv.
  - intros Hnot. rewrite (db_query_org_absent _ _ _ _ _ Ha Htb Hc Hnot) in H.
    now injection H as <- _.
Qed.

Lemma db_query_org_empty_iff_witness :
  exists tb,
    working duplicated !! ("organisation" +:+ "") = Some tb
    /\ (PDict [] = PDict []
        <-> length (List.filter
                      (fun r => sql_eq (col r ("organisation" +:+ "" +:+ "_id")) (PInt 5))
                      (rows tb)) <> 1%nat).
Proof.
  apply (db_query_org_empty_iff (PInt 5) "" false duplicated (PDict []) duplicated).
  vm_compute. reflexivity.
Defined.

(** X9. The aggregate of an automatic organisation names its id
    "organisation_id", as the manual one does: the key
    "organisation_automatic_id" of the stored row is renamed. *)
Theorem db_query_org_automatic_key org_id et c v c1 :
  __db_query_org org_id "_automatic" et c = (Ok v, c1) ->
  v = PDict []
  \/ exists tb r d id,
       working c !! "organisation_automatic" = Some tb /\ In r (rows tb)
       /\ dict_get "organisation_automatic_id" r = Some id
       /\ sql_eq id org_id = true
       /\ v = PDict d
       /\ dict_get "organisation_id" d = Some id
       /\ dict_get "organisation_automatic_id" d = None.
Proof.
  intros H. unfold __db_query_org in H.
  change ("organisation" +:+ "_automatic" +:+ "_id")
    with "organisation_automatic_id" in H.
  change ("organisation" +:+ "_automatic") with "organisation_automatic" in H.
  apply bind_ok in H as (results & c2 & Hq & H).
  apply db_query_inv in Hq as [(e & He & _) | (cur & _ & Hop & Hr & ->)]; [discriminate|].
  apply sql_select_inv in Hop as (tb & Htb & _ & Hfetch & Hstore).
  inversion Hr; subst results. clear Hr. rewrite Hfetch in H.
  unfold project in H. rewrite map_id in H.
  unfold arg in H. change (nth 0 [org_id] PNone) with org_id in H.
  match type of H with
  | context [List.filter ?p (rows tb)] =>
      destruct (List.filter p (rows tb)) as [|r [|r2 rest]] eqn:Hf
  end; cbn [length Nat.eqb negb] in H; try (left; now inversion H).
  right.
  assert (Hin : In r (rows tb)
                /\ sql_eq (col r "organisation_automatic_id") org_id = true).
  { assert (Hin : In r [r]) by now left. rewrite <- Hf in Hin.
    now apply filter_In in Hin. }
  destruct Hin as [Hin Heq].
  cbn [first] in H. rewrite bind_lift_ok in H.
  change (negb ("_automatic" =? "")%string) with true in H. cbv iota in H.
  apply bind_ok in H as (org1 & c3 & Hren & H).
  apply bind_ok in Hren as (id & c4 & Hid & Hren). apply lift_ok in Hid as [Hid ->].
  apply bind_ok in Hren as (org0 & c4 & Hdel & Hren). apply lift_ok in Hdel as [Hdel ->].
  apply lift_ok in Hren as [Hren ->].
  apply py_getitem_dict in Hid.
  simpl in Hdel. unfold dict_has in Hdel. rewrite Hid in Hdel.
  injection Hdel as <-. simpl in Hren. injection Hren as <-.
  assert (Hset : forall d key x org2,
             py_setitem (PDict d) key x = Ok org2 ->
             In key ["asns"; "contacts"; "nationalcerts"; "networks"; "fqdns"] ->
             dict_get "organisation_id" d = Some id
             /\ dict_get "organisation_automatic_id" d = None ->
             exists d2, org2 = PDict d2
                        /\ dict_get "organisation_id" d2 = Some id
                        /\ dict_get "organisation_automatic_id" d2 = None).
  { intros d key x org2 Hs Hkey [Hd1 Hd2]. simpl in Hs. inversion Hs.
    eexists. split; [reflexivity|].
    rewrite !dict_get_set_ne; [auto| |]; intros <-; simpl in Hkey;
      intuition discriminate. }
  assert (H0 : dict_get "organisation_id"
                 (dict_set "organisation_id" id (dict_del "organisation_automatic_id" r))
               = Some id
               /\ dict_get "organisation_automatic_id"
                    (dict_set "organisation_id" id
                       (dict_del "organisation_automatic_id" r)) = None).
  { split; [apply dict_get_set_eq|].
    rewrite dict_get_set_ne by discriminate. apply dict_get_del_eq. }
  apply bind_ok in H as (asns & c3 & _ & H).
  apply bind_ok in H as (o1 & c4 & Hs & H). apply lift_ok in Hs as [Hs ->].
  apply Hset in Hs as (d1 & -> & H1); [|simpl; tauto|exact H0].
  apply bind_ok in H as (res2 & c4 & _ & H).
  apply bind_ok in H as (o2 & c5 & Hs & H). apply lift_ok in Hs as [Hs ->].
  apply Hset in Hs as (d2 & -> & H2); [|simpl; tauto|exact H1].
  apply bind_ok in H as (res3 & c5 & _ & H).
  apply bind_ok in H as (o3 & c6 & Hs & H). apply lift_ok in Hs as [Hs ->].
  apply Hset in Hs as (d3 & -> & H3); [|simpl; tauto|exact H2].
  apply bind_ok in H as (res4 & c6 & _ & H).
  apply bind_ok in H as (o4 & c7 & Hs & H). apply lift_ok in Hs as [Hs ->].
  apply Hset in Hs as (d4 & -> & H4); [|simpl; tauto|exact H3].
  apply bind_ok in H as (res5 & c7 & _ & H).
  apply bind_ok in H as (o5 & c8 & Hs & H). apply lift_ok in Hs as [Hs ->].
  apply Hset in Hs as (d5 & -> & H5); [|simpl; tauto|exact H4].
  change ("_automatic" =? "")%string with false in H. cbv iota in H.
  unfold ret in H. injection H as <- _.
  exists tb, r, d5, id. unfold col in Heq. rewrite Hid in Heq.
  destruct H5 as [H5 H6]. repeat split; assumption || reflexivity.
Qed.

Lemma db_query_org_automatic_key_witness :
  let v := fst (__db_query_org (PInt 7) "_automatic" true mirrored) in
  exists org,
    v = Ok org
    /\ (org = PDict []
        \/ exists tb r d id,
             working mirrored !! "organisation_automatic" = Some tb /\ In r (rows tb)
             /\ dict_get "organisation_automatic_id" r = Some id
             /\ sql_eq id (PInt 7) = true
             /\ org = PDict d
             /\ dict_get "organisation_id" d = Some id
             /\ dict_get "organisation_automatic_id" d = None).
Proof.
  intros v. eexists. split; [vm_compute; reflexivity|].
  eapply (db_query_org_automatic_key (PInt 7) true mirrored).
  vm_compute. reflexivity.
Defined.

(** ** The search endpoints *)

Lemma db_query_aggregate_run name agg t cs (P : list pyval -> row -> bool) ps et c tb :
  working c !! t = Some tb ->
  forallb (has_column tb) cs = true ->
  forallb adaptable ps = true ->
  _db_query (fun p => sql_aggregate name agg t cs (P p)) ps et c
  = (Ok [[(name, agg (List.filter (P ps) (rows tb)))]],
     if et then mkConn (working c) (working c) else c).
Proof.
  intros Htb Hc Ha. unfold _db_query, execute, bind, ret. rewrite Ha.
  unfold sql_aggregate, relation. rewrite Htb. simpl obind.
  rewrite (with_columns_ok _ _ Hc). simpl.
  destruct et; simpl; [reflexivity | now rewrite conn_eta].
Qed.

Lemma array_agg_or_empty key rs :
  (if is_none (array_agg key rs) then PList [] else array_agg key rs)
  = PList (map (fun r => col r key) rs).
Proof. now destruct rs. Qed.

Lemma organisation_ids_run (key t : string -> string) (cs : string -> list string)
    (P : string -> list pyval -> row -> bool) ps c tb tba :
  forallb adaptable ps = true ->
  working c !! t "" = Some tb ->
  working c !! t "_automatic" = Some tba ->
  forallb (has_column tb) (cs "") = true ->
  forallb (has_column tba) (cs "_automatic") = true ->
  __db_query_organisation_ids
    (fun tv p => sql_aggregate "organisation_ids" (array_agg (key tv)) (t tv) (cs tv)
                   (P tv p)) ps c
  = (Ok (PDict [("manual", found_ids (key "") (P "" ps) tb);
                ("auto", found_ids (key "_automatic") (P "_automatic" ps) tba)]),
     mkConn (working c) (working c)).
Proof.
  intros Ha Htb Htba Hc Hca. unfold __db_query_organisation_ids.
  rewrite (bind_run _ _ _ _ _
             (db_query_aggregate_run "organisation_ids" (array_agg (key "")) (t "")
                (cs "") (P "") ps true c tb Htb Hc Ha)).
  cbn [length Nat.eqb first obind py_getitem dict_get]. rewrite String.eqb_refl.
  cbn [obind]. rewrite bind_lift_ok, array_agg_or_empty.
  rewrite (bind_run _ _ _ _ _
             (db_query_aggregate_run "organisation_ids" (array_agg (key "_automatic"))
                (t "_automatic") (cs "_automatic") (P "_automatic") ps true
                (mkConn (working c) (working c)) tba Htba Hca Ha)).
  cbn [length Nat.eqb first obind py_getitem dict_get]. rewrite String.eqb_refl.
  cbn [obind]. rewrite bind_lift_ok, array_agg_or_empty. reflexivity.
Qed.

(** X10. The ASN search lists, for the manual and for the automatic
    tables, the organisation of every link row with the number, in the
    order of the table and as often as it is linked; where no row has the
    number the list is empty, not None.  The search ends the transaction:
    what was pending on the connection is committed. *)
Theorem searchasn_lists_linked (asn : Z) c tb tba :
  working c !! "organisation_to_asn" = Some tb ->
  working c !! "organisation_to_asn_automatic" = Some tba ->
  forallb (has_column tb) ["organisation_id"; "asn"] = true ->
  forallb (has_column tba) ["organisation_automatic_id"; "asn"] = true ->
  searchasn asn c
  = (Ok (PDict [("manual",
                 found_ids "organisation_id"
                   (fun r => sql_eq (col r "asn") (PInt asn)) tb);
                ("auto",
                 found_ids "organisation_automatic_id"
                   (fun r => sql_eq (col r "asn") (PInt asn)) tba)]),
     mkConn (working c) (working c)).
Proof.
  intros Htb Htba Hc Hca. unfold searchasn.
  exact (organisation_ids_run
           (fun tv => "organisation" +:+ tv +:+ "_id")
           (fun tv => "organisation_to_asn" +:+ tv)
           (fun tv => ["organisation" +:+ tv +:+ "_id"; "asn"])
           (fun tv p r => sql_eq (col r "asn") (arg 0 p))
           [PInt asn] c tb tba eq_refl Htb Htba Hc Hca).
Qed.

Lemma searchasn_lists_linked_witness :
  exists tb tba,
    working idle !! "organisation_to_asn" = Some tb
    /\ working idle !! "organisation_to_asn_automatic" = Some tba
    /\ searchasn 64496 idle
       = (Ok (PDict [("manual",
                      found_ids "organisation_id"
                        (fun r => sql_eq (col r "asn") (PInt 64496)) tb);
                     ("auto",
                      found_ids "organisation_automatic_id"
                        (fun r => sql_eq (col r "asn") (PInt 64496)) tba)]),
          mkConn (working idle) (working idle)).
Proof.
  eexists _, _. split; [vm_compute; reflexivity|]. split; [vm_compute; reflexivity|].
  apply searchasn_lists_linked; vm_compute; reflexivity.
Defined.

(** ** LIKE with a query that has no wildcard *)

Lemma like_nil s : like_chars [] s = true <-> s = [].
Proof. destruct s; simpl; split; intros H; congruence. Qed.

Lemma like_percent_unfold p s :
  like_chars ("%"%char :: p) s
  = (like_chars p s
     || match s with
        | [] => false
        | _ :: s' => like_chars ("%"%char :: p) s'
        end)%bool.
Proof. destruct s; reflexivity. Qed.

Lemma like_percent p s :
  like_chars ("%"%char :: p) s = true
  <-> exists pre post, s = pre ++ post /\ like_chars p post = true.
Proof.
  induction s as [|a s IH]; rewrite like_percent_unfold, orb_true_iff.
  - split.
    + intros [H|H]; [|discriminate]. now exists [], [].
    + intros (pre & post & Hs & H). left.
      symmetry in Hs. apply app_eq_nil in Hs as [_ ->]. exact H.
  - split.
    + intros [H|H]; [now exists [], (a :: s)|].
      apply IH in H as (pre & post & -> & H). now exists (a :: pre), post.
    + intros ([|b pre] & post & Hs & H).
      * left. simpl in Hs. now subst post.
      * right. apply IH. simpl in Hs. injection Hs as _ ->. now exists pre, post.
Qed.

Lemma like_literal_cons a p s :
  wildcard a = false ->
  like_chars (a :: p) s
  = match s with
    | [] => false
    | c :: s' => Ascii.eqb a c && like_chars p s'
    end.
Proof.
  unfold wildcard. intros H.
  apply orb_false_iff in H as [H H3]. apply orb_false_iff in H as [H1 H2].
  simpl. now rewrite H1, H2, H3.
Qed.

Lemma like_literal_app l : 
  forallb (fun a => negb (wildcard a)) l = true ->
  forall p s,
  like_chars (l ++ p) s = true <-> exists s', s = l ++ s' /\ like_chars p s' = true.
Proof.
  induction l as [|a l IH]; intros Hl p s.
  - simpl. split; [intros H; now exists s | now intros (s' & -> & H)].
  - simpl in Hl. apply andb_true_iff in Hl as [Ha Hl]. apply negb_true_iff in Ha.
    simpl app. rewrite (like_literal_cons _ _ _ Ha).
    destruct s as [|c s].
    + split; [discriminate | intros (s' & Hs & _); discriminate].
    + rewrite andb_true_iff, (IH Hl). split.
      * intros [Hac (s' & -> & H)]. apply Ascii.eqb_eq in Hac. subst c. now exists s'.
      * intros (s' & Hs & H). injection Hs as -> ->. split; [apply Ascii.eqb_refl|].
        now exists s'.
Qed.

Lemma like_any_run s : like_chars ["%"%char] s = true.
Proof. apply like_percent. exists s, []. now rewrite app_nil_r. Qed.

(** The four patterns of the searches, for a query without wildcards, ask
    together for the query to occur in the value. *)
Lemma like_four l s :
  forallb (fun a => negb (wildcard a)) l = true ->
  (like_chars l s
   || like_chars ("%"%char :: l ++ ["%"%char]) s
   || like_chars ("%"%char :: l) s
   || like_chars (l ++ ["%"%char]) s)%bool = true
  <-> exists pre post, s = pre ++ l ++ post.
Proof.
  intros Hl. split.
  - rewrite !orb_true_iff. intros [[[H|H]|H]|H].
    + rewrite <- (app_nil_r l) in H. apply (like_literal_app l Hl) in H as (s' & -> & H).
      apply like_nil in H. subst s'. now exists [], [].
    + apply like_percent in H as (pre & post & -> & H).
      apply (like_literal_app l Hl) in H as (s' & -> & _). now exists pre, s'.
    + apply like_percent in H as (pre & post & -> & H).
      rewrite <- (app_nil_r l) in H. apply (like_literal_app l Hl) in H as (s' & -> & H).
      apply like_nil in H. subst s'. now exists pre, [].
    + apply (like_literal_app l Hl) in H as (s' & -> & _). now exists [], s'.
  - intros (pre & post & ->). rewrite !orb_true_iff. left. left. right.
    apply like_percent. exists pre, (l ++ post). split; [reflexivity|].
    apply (like_literal_app l Hl). exists post. split; [reflexivity | apply like_any_run].
Qed.

Lemma prefixb_spec q s :
  prefixb q s = true
  <-> exists post, list_ascii_of_string s = list_ascii_of_string q ++ post.
Proof.
  revert s. induction q as [|a q IH]; intros s; simpl.
  - split; [intros _; now exists (list_ascii_of_string s) | reflexivity].
  - destruct s as [|b s]; simpl.
    + split; [discriminate | intros (post & H); discriminate].
    + rewrite andb_true_iff, IH. split.
      * intros [Hab (post & ->)]. apply Ascii.eqb_eq in Hab. subst b. now exists post.
      * intros (post & H). injection H as -> ->. split; [apply Ascii.eqb_refl|].
        now exists post.
Qed.

Lemma substringb_spec q s :
  substringb q s = true
  <-> exists pre post,
        list_ascii_of_string s = pre ++ list_ascii_of_string q ++ post.
Proof.
  induction s as [|a s IH].
  - simpl. rewrite orb_false_r, prefixb_spec. split.
    + intros (post & H). now exists [], post.
    + intros ([|b pre] & post & H); [now exists post | discriminate].
  - cbn [substringb]. rewrite orb_true_iff, prefixb_spec, IH. split.
    + intros [(post & H) | (pre & post & H)].
      * now exists [], post.
      * exists (a :: pre), post. simpl. now rewrite H.
    + intros ([|b pre] & post & H).
      * left. now exists post.
      * right. simpl in H. injection H as _ H. now exists pre, post.
Qed.

Lemma list_ascii_of_string_app a b :
  list_ascii_of_string (a +:+ b) = list_ascii_of_string a ++ list_ascii_of_string b.
Proof. induction a as [|x a IH]; simpl; [reflexivity | now rewrite IH]. Qed.

Lemma wildcard_lower a : wildcard (lower_ascii a) = wildcard a.
Proof. destruct a as [[] [] [] [] [] [] [] []]; reflexivity. Qed.

Lemma literal_lower q :
  literal q = true ->
  forallb (fun a => negb (wildcard a)) (map lower_ascii (list_ascii_of_string q)) = true.
Proof.
  unfold literal. induction (list_ascii_of_string q) as [|a l IH]; simpl; [reflexivity|].
  rewrite wildcard_lower. intros H. apply andb_true_iff in H as [-> H]. now apply IH.
Qed.

Lemma lower_chars s :
  list_ascii_of_string (lower s) = map lower_ascii (list_ascii_of_string s).
Proof. unfold lower. apply list_ascii_of_string_of_list_ascii. Qed.

Lemma bool_eq_iff (a b : bool) : (a = true <-> b = true) -> a = b.
Proof.
  destruct a, b; intros [H1 H2]; try reflexivity.
  - symmetry. now apply H1.
  - now apply H2.
Qed.

Lemma like_substring q s :
  literal q = true ->
  (sql_like (PStr s) (PStr q)
   || sql_like (PStr s) (PStr ("%" +:+ q +:+ "%"))
   || sql_like (PStr s) (PStr ("%" +:+ q))
   || sql_like (PStr s) (PStr (q +:+ "%")))%bool
  = substringb q s.
Proof.
  intros Hq. apply bool_eq_iff. rewrite substringb_spec. unfold sql_like.
  change ("%" +:+ q +:+ "%") with (String "%" (q +:+ "%")).
  change ("%" +:+ q) with (String "%" q).
  cbn [list_ascii_of_string]. rewrite !list_ascii_of_string_app.
  change (list_ascii_of_string "%") with ["%"%char].
  now apply like_four.
Qed.

Lemma ilike_substring q s :
  literal q = true ->
  (sql_ilike (PStr s) (PStr q)
   || sql_ilike (PStr s) (PStr ("%" +:+ q +:+ "%"))
   || sql_ilike (PStr s) (PStr ("%" +:+ q))
   || sql_ilike (PStr s) (PStr (q +:+ "%")))%bool
  = substringb (lower q) (lower s).
Proof.
  intros Hq. apply bool_eq_iff. rewrite substringb_spec, !lower_chars. unfold sql_ilike.
  change ("%" +:+ q +:+ "%") with (String "%" (q +:+ "%")).
  change ("%" +:+ q) with (String "%" q).
  cbn [list_ascii_of_string]. rewrite !list_ascii_of_string_app.
  change (list_ascii_of_string "%") with ["%"%char].
  cbn [map]. rewrite !map_app. cbn [map].
  change (lower_ascii "%") with "%"%char.
  apply like_four. now apply literal_lower.
Qed.

Lemma ilike_name_contains name o :
  literal name = true ->
  (sql_ilike (col o "name") (PStr name)
   || sql_ilike (col o "name") (PStr ("%" +:+ name +:+ "%"))
   || sql_ilike (col o "name") (PStr ("%" +:+ name))
   || sql_ilike (col o "name") (PStr (name +:+ "%")))%bool
  = name_contains name o.
Proof.
  intros Hq. unfold name_contains.
  destruct (col o "name"); try reflexivity. now apply ilike_substring.
Qed.

Lemma like_email_contains email r :
  literal email = true ->
  (sql_like (col r "email") (PStr email)
   || sql_like (col r "email") (PStr ("%" +:+ email +:+ "%"))
   || sql_like (col r "email") (PStr ("%" +:+ email))
   || sql_like (col r "email") (PStr (email +:+ "%")))%bool
  = email_contains email r.
Proof.
  intros Hq. unfold email_contains.
  destruct (col r "email"); try reflexivity. now apply like_substring.
Qed.

(** X11. For a name without the characters LIKE reads as wildcards, the
    organisation search lists the rows whose name contains the queried
    name, letter case aside; rows without a name are not listed. *)
Theorem searchorg_finds_substring (name : string) c tb tba :
  literal name = true ->
  working c !! "organisation" = Some tb ->
  working c !! "organisation_automatic" = Some tba ->
  forallb (has_column tb) ["organisation_id"; "name"] = true ->
  forallb (has_column tba) ["organisation_automatic_id"; "name"] = true ->
  searchorg name c
  = (Ok (PDict [("manual", found_ids "organisation_id" (name_contains name) tb);
                ("auto",
                 found_ids "organisation_automatic_id" (name_contains name) tba)]),
     mkConn (working c) (working c)).
Proof.
  intros Hq Htb Htba Hc Hca. unfold searchorg.
  rewrite (organisation_ids_run
             (fun tv => "organisation" +:+ tv +:+ "_id")
             (fun tv => "organisation" +:+ tv)
             (fun tv => ["organisation" +:+ tv +:+ "_id"; "name"])
             (fun tv p o => sql_ilike (col o "name") (arg 0 p)
                            || sql_ilike (col o "name") (arg 1 p)
                            || sql_ilike (col o "name") (arg 2 p)
                            || sql_ilike (col o "name") (arg 3 p))
             [PStr name; PStr ("%" +:+ name +:+ "%"); PStr ("%" +:+ name);
              PStr (name +:+ "%")] c tb tba eq_refl Htb Htba Hc Hca).
  unfold found_ids, arg. cbn [nth].
  now rewrite !(filter_ext _ _ (fun o => ilike_name_contains name o Hq)).
Qed.

Lemma searchorg_finds_substring_witness :
  exists tb tba,
    working idle !! "organisation" = Some tb
    /\ working idle !! "organisation_automatic" = Some tba
    /\ searchorg "ACME h" idle
       = (Ok (PDict [("manual", found_ids "organisation_id" (name_contains "ACME h") tb);
                     ("auto",
                      found_ids "organisation_automatic_id"
                        (name_contains "ACME h") tba)]),
          mkConn (working idle) (working idle)).
Proof.
  eexists _, _. split; [vm_compute; reflexivity|]. split; [vm_compute; reflexivity|].
  apply searchorg_finds_substring; vm_compute; reflexivity.
Defined.

(** X12. For an address without wildcard characters, the contact search
    lists the organisation of every contact row whose address contains the
    queried one in the same letter case, once for each such contact. *)
Theorem searchcontact_finds_substring (email : string) c tb tba :
  literal email = true ->
  working c !! "contact" = Some tb ->
  working c !! "contact_automatic" = Some tba ->
  forallb (has_column tb) ["organisation_id"; "email"] = true ->
  forallb (has_column tba) ["organisation_automatic_id"; "email"] = true ->
  searchcontact email c
  = (Ok (PDict [("manual", found_ids "organisation_id" (email_contains email) tb);
                ("auto",
                 found_ids "organisation_automatic_id" (email_contains email) tba)]),
     mkConn (working c) (working c)).
Proof.
  intros Hq Htb Htba Hc Hca. unfold searchcontact.
  rewrite (organisation_ids_run
             (fun tv => "organisation" +:+ tv +:+ "_id")
             (fun tv => "contact" +:+ tv)
             (fun tv => ["organisation" +:+ tv +:+ "_id"; "email"])
             (fun tv p r => sql_like (col r "email") (arg 0 p)
                            || sql_like (col r "email") (arg 1 p)
                            || sql_like (col r "email") (arg 2 p)
                            || sql_like (col r "email") (arg 3 p))
             [PStr email; PStr ("%" +:+ email +:+ "%"); PStr ("%" +:+ email);
              PStr (email +:+ "%")] c tb tba eq_refl Htb Htba Hc Hca).
  unfold found_ids, arg. cbn [nth].
  now rewrite !(filter_ext _ _ (fun r => like_email_contains email r Hq)).
Qed.

Lemma searchcontact_finds_substring_witness :
  exists tb tba,
    working idle !! "contact" = Some tb
    /\ working idle !! "contact_automatic" = Some tba
    /\ searchcontact "Acme.ex" idle
       = (Ok (PDict [("manual", found_ids "organisation_id" (email_contains "Acme.ex") tb);
                     ("auto",
                      found_ids "organisation_automatic_id"
                        (email_contains "Acme.ex") tba)]),
          mkConn (working idle) (working idle)).
Proof.
  eexists _, _. split; [vm_compute; reflexivity|]. split; [vm_compute; reflexivity|].
  apply searchcontact_finds_substring; vm_compute; reflexivity.
Defined.

(** ** The ASN endpoint *)

Lemma db_query_any_inv op ps et c r c1 :
  _db_query op ps et c = (r, c1) ->
  (exists e, r = Raise e /\ c1 = c)
  \/ (exists cur, forallb adaptable ps = true /\ op ps (working c) = Ok cur
                  /\ r = Ok (fetched cur)
                  /\ c1 = if et then mkConn (store cur) (store cur)
                          else mkConn (committed c) (store cur)).
Proof.
  destruct et; [|apply db_query_inv].
  unfold _db_query. intros H.
  apply bind_cases in H as [(cur & c2 & H1 & H) | (e & H1 & ->)];
    apply execute_inv in H1 as [(e' & He & ->) | (cur' & Ha & Hop & Hr & ->)];
    try discriminate; eauto.
  inversion Hr; subst cur'. inversion H; subst. eauto 8.
Qed.

Lemma db_query_select_run_any targets t cs (P : list pyval -> row -> bool) ps et c tb :
  working c !! t = Some tb ->
  forallb (has_column tb) cs = true ->
  forallb adaptable ps = true ->
  _db_query (fun p => sql_select targets t cs (P p)) ps et c
  = (Ok (map (project targets) (List.filter (P ps) (rows tb))),
     if et then mkConn (working c) (working c) else c).
Proof.
  intros Htb Hc Ha. unfold _db_query, execute, bind, ret. rewrite Ha.
  unfold sql_select, relation. rewrite Htb. simpl obind.
  rewrite (with_columns_ok _ _ Hc). simpl.
  destruct et; simpl; [reflexivity | now rewrite conn_eta].
Qed.

(** The reader of ASN annotations returns the annotation of every row
    with the number, in the order of the table. *)
Lemma db_query_asn_annotations_inv asn et c v c1 :
  __db_query_asn_annotations asn et c = (Ok v, c1) ->
  exists ta,
    working c !! "autonomous_system_annotation" = Some ta
    /\ forallb (has_column ta) ["annotation"; "asn"] = true
    /\ adaptable asn = true
    /\ v = array_agg "annotation"
             (List.filter (fun r => sql_eq (col r "asn") asn) (rows ta))
    /\ c1 = if et then mkConn (working c) (working c) else c.
Proof.
  unfold __db_query_asn_annotations. intros H.
  apply bind_ok in H as (results & c2 & Hq & H).
  apply db_query_any_inv in Hq as [(e & He & _) | (cur & Ha & Hop & Hr & ->)];
    [discriminate|].
  apply sql_aggregate_inv in Hop as (ta & Hta & Hc & Hfetch & Hstore).
  injection Hr as ->. rewrite Hfetch in H.
  cbn [first] in H. rewrite bind_lift_ok in H. apply lift_ok in H as [H ->].
  simpl in H. injection H as <-.
  exists ta. simpl in Ha. rewrite andb_true_r in Ha.
  repeat split; try assumption. rewrite Hstore. destruct et; [reflexivity|].
  apply conn_eta.
Qed.

(** X13. The ASN endpoint answers "ASN not found" exactly when no row of
    the link table has the number; what it answers otherwise is the first
    such row, with the annotations stored for the number under
    "annotations". *)
Theorem get_manual_asn_details_answers (number : Z) c tb :
  working c !! "organisation_to_asn" = Some tb ->
  has_column tb "asn" = true ->
  (fst (get_manual_asn_details number c) = Ok (NotFound "ASN not found")
   <-> List.filter (fun r => sql_eq (col r "asn") (PInt number)) (rows tb) = [])
  /\ forall asn c1,
       get_manual_asn_details number c = (Ok (Found asn), c1) ->
       exists r rest ta,
         List.filter (fun r => sql_eq (col r "asn") (PInt number)) (rows tb) = r :: rest
         /\ working c !! "autonomous_system_annotation" = Some ta
         /\ asn = PDict (dict_set "annotations"
                           (array_agg "annotation"
                              (List.filter (fun a => sql_eq (col a "asn") (PInt number))
                                 (rows ta))) r).
Proof.
  intros Htb Hc.
  assert (Hcs : forallb (has_column tb) ["asn"] = true) by (simpl; now rewrite Hc).
  assert (Hrun : forall k : pyval -> M asn_response,
             bind (__db_query_asn (PInt number) "" true) k c
             = match List.filter (fun r => sql_eq (col r "asn") (PInt number)) (rows tb) with
               | [] => k PNone (mkConn (working c) (working c))
               | r :: _ =>
                   bind (annos <- __db_query_asn_annotations (PInt number) true ;;
                         lift (py_setitem (PDict r) "annotations" annos)) k
                        (mkConn (working c) (working c))
               end).
  { intros k. unfold __db_query_asn. rewrite bind_assoc.
    change ("organisation_to_asn" +:+ "") with "organisation_to_asn".
    rewrite (bind_run _ _ _ _ _
               (db_query_select_run_any None "organisation_to_asn" ["asn"]
                  (fun p r => sql_eq (col r "asn") (arg 0 p))
                  [PInt number] true c tb Htb Hcs eq_refl)).
    unfold project, arg. rewrite map_id. cbn [nth].
    destruct (List.filter _ (rows tb)) as [|r rest]; reflexivity. }
  unfold get_manual_asn_details. rewrite Hrun.
  destruct (List.filter _ (rows tb)) as [|r rest] eqn:Hf.
  - split; [split; reflexivity|]. intros asn c1 H. discriminate.
  - split.
    + split; [|discriminate]. intros H. exfalso.
      destruct (bind _ _ _) as [[resp|e] c2] eqn:Hb; [|discriminate].
      simpl in H. injection H as ->.
      apply bind_ok in Hb as (asn & c3 & Ha & Hb).
      apply bind_ok in Ha as (annos & c4 & _ & Ha). apply lift_ok in Ha as [Ha _].
      simpl in Ha. injection Ha as <-. discriminate.
    + intros asn c1 H.
      apply bind_ok in H as (asn0 & c3 & Ha & H).
      apply bind_ok in Ha as (annos & c4 & Hq & Ha). apply lift_ok in Ha as [Ha ->].
      simpl in Ha. injection Ha as <-. simpl in H. injection H as <- _.
      apply db_query_asn_annotations_inv in Hq as (ta & Hta & _ & _ & -> & _).
      exists r, rest, ta. auto.
Qed.

Lemma get_manual_asn_details_answers_witness :
  exists tb,
    working idle !! "organisation_to_asn" = Some tb
    /\ (fst (get_manual_asn_details 64500 idle) = Ok (NotFound "ASN not found")
        <-> List.filter (fun r => sql_eq (col r "asn") (PInt 64500)) (rows tb) = [])
    /\ forall asn c1,
         get_manual_asn_details 64500 idle = (Ok (Found asn), c1) ->
         exists r rest ta,
           List.filter (fun r => sql_eq (col r "asn") (PInt 64500)) (rows tb) = r :: rest
           /\ working idle !! "autonomous_system_annotation" = Some ta
           /\ asn = PDict (dict_set "annotations"
                             (array_agg "annotation"
                                (List.filter (fun a => sql_eq (col a "asn") (PInt 64500))
                                   (rows ta))) r).
Proof.
  eexists. split; [vm_compute; reflexivity|].
  apply get_manual_asn_details_answers; vm_compute; reflexivity.
Defined.

(** ** Updating an organisation *)

Lemma sql_update_inv t sets cs p db cur :
  sql_update t sets cs p db = Ok cur ->
  exists tb, db !! t = Some tb
    /\ forallb (has_column tb) (map fst sets ++ cs) = true
    /\ rowcount cur = Z.of_nat (length (List.filter p (rows tb)))
    /\ store cur
       = <[t := mkTable (columns tb)
                  (List.filter (fun r => negb (p r)) (rows tb)
                   ++ map (fun r => fold_left (fun r kv => dict_set (fst kv) (snd kv) r)
                                      sets r)
                          (List.filter p (rows tb)))
                  (serial tb)]> db.
Proof.
  unfold sql_update. intros H.
  apply obind_ok in H as (tb & Ht & H). apply obind_ok in H as (u & Hc & H).
  apply relation_inv in Ht. apply with_columns_inv in Hc.
  inversion H; subst. simpl. eauto 8.
Qed.

(** The rows an UPDATE leaves are the rows from before, the selected ones
    rewritten, in some order. *)
Lemma updated_rows_permutation {A : Type} (p : A -> bool) (f : A -> A) l :
  Permutation (List.filter (fun r => negb (p r)) l ++ map f (List.filter p l))
              (map (fun r => if p r then f r else r) l).
Proof.
  induction l as [|x l IH]; simpl; [constructor|].
  destruct (p x); simpl.
  - apply Permutation_sym, Permutation_cons_app, Permutation_sym, IH.
  - now constructor.
Qed.

Lemma named_inv d keys vs :
  named (PDict d) keys = Ok vs -> Forall2 (fun k v => dict_get k d = Some v) keys vs.
Proof.
  revert vs. induction keys as [|k keys IH]; intros vs H; simpl in H.
  - injection H as <-. constructor.
  - destruct (dict_get k d) as [v|] eqn:Ev; [|discriminate]. simpl in H.
    apply obind_ok in H as (ws & Hws & H). injection H as <-.
    constructor; auto.
Qed.

Lemma dict_get_set {A : Type} k k' (v : A) d :
  dict_get k (dict_set k' v d) = if String.eqb k k' then Some v else dict_get k d.
Proof.
  destruct (String.eqb_spec k k') as [->|Hne].
  - apply dict_get_set_eq.
  - now apply dict_get_set_ne.
Qed.

(** X14. An update whose id is carried by no organisation row, or by more
    than one, is refused with "Org {} to be updated not in db." and leaves
    the connection as it was. *)
Theorem update_org_unknown (org org_id : pyval) c tb :
  py_getitem org "id" = Ok org_id ->
  adaptable org_id = true ->
  working c !! "organisation" = Some tb ->
  has_column tb "organisation_id" = true ->
  length (List.filter (fun r => sql_eq (col r "organisation_id") org_id) (rows tb))
  <> 1%nat ->
  _update_org org c
  = (Raise (CommitError "Org {} to be updated not in db." [org_id]), c).
Proof.
  intros Hid Ha Htb Hc Hnot. unfold _update_org.
  rewrite Hid, bind_lift_ok.
  rewrite (bind_run _ _ _ _ _ (db_query_org_absent org_id "" false c tb Ha Htb Hc Hnot)).
  reflexivity.
Qed.

Lemma update_org_unknown_witness :
  _update_org (with_id 9 umbrella) idle
  = (Raise (CommitError "Org {} to be updated not in db." [PInt 9]), idle).
Proof.
  eapply update_org_unknown; try (vm_compute; reflexivity).
  vm_compute. discriminate.
Defined.

(** X15. When an update returns, it returns the id of the payload, and
    the organisation table holds the rows from before the call, in some
    order, changed in the rows whose id is that id only: these now hold
    the payload's name, comment and handles and its sector, NULL where the
    payload's sector is the empty string, and are unchanged in every other
    column. *)
Theorem update_org_writes (org r : pyval) c c2 :
  _update_org org c = (Ok r, c2) ->
  exists d tb tb2 upd,
    org = PDict d
    /\ dict_get "id" d = Some r
    /\ working c !! "organisation" = Some tb
    /\ working c2 !! "organisation" = Some tb2
    /\ columns tb2 = columns tb
    /\ Permutation (rows tb2) (map upd (rows tb))
    /\ forall x,
         (sql_eq (col x "id") r = false -> upd x = x)
         /\ (sql_eq (col x "id") r = true ->
             (forall a, In a org_attribs -> dict_get a d = Some (col (upd x) a))
             /\ col (upd x) "sector_id" = sector_value d
             /\ forall k, ~ In k ("sector_id" :: org_attribs) ->
                          dict_get k (upd x) = dict_get k x).
Proof.
  intros H. unfold _update_org in H.
  apply bind_ok in H as (org_id & c0 & Hid & H). apply lift_ok in Hid as [Hid ->].
  destruct org as [| | | |d]; try discriminate.
  apply py_getitem_dict in Hid.
  apply bind_ok in H as (org_in_db & c3 & Hq & H).
  pose proof (touches_db_query_org _ _ _ _ _ _ Hq "organisation") as F3.
  apply bind_ok in H as (known & c4 & Hk & H). apply lift_ok in Hk as [_ ->].
  destruct (negb known); [discriminate|].
  apply bind_ok in H as (unnamed & c4 & Hn & H). apply lift_ok in Hn as [_ ->].
  destruct unnamed; [discriminate|].
  apply bind_ok in H as (asns & c4 & Hasns & H). apply lift_ok in Hasns as [_ ->].
  apply bind_ok in H as (u1 & c4 & Hfa & H).
  pose proof (touches_fix_asns_to_org _ _ _ _ _ Hfa "organisation") as F4.
  apply bind_ok in H as (contacts & c5 & Hcs & H). apply lift_ok in Hcs as [_ ->].
  apply bind_ok in H as (u2 & c5 & Hfc & H).
  pose proof (touches_fix_contacts_to_org _ _ _ _ _ Hfc "organisation") as F5.
  apply bind_ok in H as (sector & c6 & Hs & H). apply lift_ok in Hs as [Hs ->].
  apply py_getitem_dict in Hs.
  apply bind_ok in H as (org2 & c6 & Hset & H).
  assert (Hd2 : exists d2,
             org2 = PDict d2 /\ c6 = c5
             /\ dict_get "sector_id" d2 = Some (sector_value d)
             /\ forall k, k <> "sector_id" -> dict_get k d2 = dict_get k d).
  { unfold sector_value. rewrite Hs.
    destruct (py_eqb sector (PStr "")) eqn:Hempty.
    - apply lift_ok in Hset as [Hset ->]. simpl in Hset. injection Hset as <-.
      eexists. split; [reflexivity|]. split; [reflexivity|].
      rewrite orb_true_r. split; [apply dict_get_set_eq|].
      intros k Hk. now apply dict_get_set_ne.
    - unfold ret in Hset. injection Hset as <- <-.
      exists d. repeat split; auto. rewrite orb_false_r.
      destruct (is_none sector) eqn:Hnone; [|exact Hs].
      apply is_none_eq in Hnone. now subst sector. }
  destruct Hd2 as (d2 & -> & -> & Hsec & Hother).
  apply bind_ok in H as (params & c6 & Hp & H). apply lift_ok in Hp as [Hp ->].
  apply named_inv in Hp.
  repeat match goal with
         | Hp : Forall2 _ (_ :: _) _ |- _ =>
             inversion Hp; subst; clear Hp
         | Hp : Forall2 _ [] _ |- _ => inversion Hp; subst; clear Hp
         end.
  apply bind_ok in H as (n & c6 & Hm & H).
  unfold ret in H. injection H as <- <-.
  apply db_manipulate_inv in Hm as [(e & He & _) | (cur & _ & Hop & _ & ->)];
    [discriminate|].
  apply sql_update_inv in Hop as (tb & Htb & _ & _ & Hstore).
  rewrite F5, F4, F3 in Htb by (simpl; intuition discriminate).
  unfold arg in Hstore. cbn [nth] in Hstore.
  assert (Hidr : y5 = org_id).
  { match goal with
    | Hy : dict_get "id" d2 = Some y5 |- _ =>
        rewrite Hother, Hid in Hy by discriminate; now injection Hy
    end. }
  subst y5.
  match type of Hstore with
  | context [map ?f (List.filter ?p (rows tb))] =>
      exists d, tb,
        (mkTable (columns tb)
           (List.filter (fun r => negb (p r)) (rows tb) ++ map f (List.filter p (rows tb)))
           (serial tb)),
        (fun x => if p x then f x else x)
  end.
  split; [reflexivity|].
  split; [exact Hid|]. split; [exact Htb|].
  split; [cbn [working]; rewrite Hstore; apply lookup_insert_eq|].
  split; [reflexivity|].
  split; [apply updated_rows_permutation|].
  intros x. split.
  - now intros ->.
  - intros ->. cbn [fold_left fst snd]. unfold col.
    split; [|split].
    + intros a Ha. simpl in Ha.
      repeat (destruct Ha as [<-|Ha];
              [rewrite !dict_get_set; cbn [String.eqb Ascii.eqb Bool.eqb];
               rewrite <- Hother by discriminate; assumption|]).
      destruct Ha.
    + rewrite !dict_get_set. cbn [String.eqb Ascii.eqb Bool.eqb].
      match goal with
      | Hy : dict_get "sector_id" d2 = Some ?y |- _ =>
          rewrite Hsec in Hy; now injection Hy as <-
      end.
    + intros k Hk. rewrite !dict_get_set.
      repeat match goal with
             | |- context [String.eqb k ?s] =>
                 destruct (String.eqb_spec k s) as [->|_];
                 [exfalso; apply Hk; simpl; tauto|]
             end.
      reflexivity.
Qed.

Lemma update_org_writes_witness :
  exists d tb tb2 upd,
    renamed = PDict d
    /\ dict_get "id" d = Some (PInt 3)
    /\ working transitional !! "organisation" = Some tb
    /\ working (snd (_update_org renamed transitional)) !! "organisation" = Some tb2
    /\ columns tb2 = columns tb
    /\ Permutation (rows tb2) (map upd (rows tb))
    /\ forall x,
         (sql_eq (col x "id") (PInt 3) = false -> upd x = x)
         /\ (sql_eq (col x "id") (PInt 3) = true ->
             (forall a, In a org_attribs -> dict_get a d = Some (col (upd x) a))
             /\ col (upd x) "sector_id" = sector_value d
             /\ forall k, ~ In k ("sector_id" :: org_attribs) ->
                          dict_get k (upd x) = dict_get k x).
Proof.
  apply (update_org_writes renamed (PInt 3) transitional). vm_compute. reflexivity.
Defined.

(** The update of an organisation never returns on the example store,
    whose rows carry no key "id". *)
Lemma update_org_needs_id_witness :
  (forall tb x, working idle !! "organisation" = Some tb -> In x (rows tb) ->
                dict_get "id" x = None)
  /\ exists e, fst (_update_org (with_id 1 umbrella) idle) = Raise e.
Proof.
  assert (Hno : forall tb x, working idle !! "organisation" = Some tb ->
                             In x (rows tb) -> dict_get "id" x = None).
  { intros tb x Htb Hin. vm_compute in Htb. injection Htb as <-.
    simpl in Hin. destruct Hin as [<-|[]]. reflexivity. }
  split; [exact Hno|].
  apply (update_org_needs_id (with_id 1 umbrella) idle _
           (snd (_update_org (with_id 1 umbrella) idle)) Hno).
  apply surjective_pairing.
Defined.

(** ** The reconcilers *)

(** X17. None of the five reconcilers commits: whatever they are given
    and however they end, the committed store is the one from before the
    call. *)
Theorem reconcilers_never_commit :
  (forall asns org_id, keeps_committed (__fix_asns_to_org asns org_id))
  /\ (forall contacts org_id, keeps_committed (__fix_contacts_to_org contacts org_id))
  /\ (forall inhibitions, keeps_committed (__remove_inhibitions inhibitions))
  /\ (forall asns org_id, keeps_committed (__remove_or_unlink_asns asns org_id))
  /\ (forall contacts org_id,
        keeps_committed (__remove_or_unlink_contacts contacts org_id)).
Proof.
  repeat split; intros.
  - unfold __fix_asns_to_org, fix_asn_to_org, __db_query_asn_annotations. no_commit.
  - unfold __fix_contacts_to_org, fix_contact_to_org. no_commit.
  - unfold __remove_inhibitions. no_commit.
  - unfold __remove_or_unlink_asns, remove_or_unlink_asn, unlink_asn, count_links,
      __db_query_asn, __db_query_asn_annotations, without_link_fields,
      __remove_inhibitions.
    no_commit.
  - unfold __remove_or_unlink_contacts, remove_or_unlink_contact. no_commit.
Qed.

(** *** The rows of other organisations *)

Lemma of_others_same org_id t db db2 :
  db2 !! t = db !! t -> of_others org_id t db2 = of_others org_id t db.
Proof. unfold of_others, rows_of. now intros ->. Qed.

Lemma of_others_delete org_id t tb (p : row -> bool) db :
  db !! t = Some tb ->
  (forall r, p r = true -> sql_eq (col r "organisation_id") org_id = true) ->
  of_others org_id t
    (<[t := mkTable (columns tb) (List.filter (fun r => negb (p r)) (rows tb))
              (serial tb)]> db)
  = of_others org_id t db.
Proof.
  intros Htb Hp. unfold of_others, rows_of. rewrite lookup_insert_eq, Htb. simpl.
  induction (rows tb) as [|r l IH]; simpl; [reflexivity|].
  destruct (p r) eqn:Epr; simpl.
  - now rewrite (Hp r Epr).
  - now rewrite IH.
Qed.

Lemma of_others_insert org_id t tb r s db :
  db !! t = Some tb ->
  sql_eq (col r "organisation_id") org_id = true ->
  of_others org_id t (<[t := mkTable (columns tb) (rows tb ++ [r]) s]> db)
  = of_others org_id t db.
Proof.
  intros Htb Hr. unfold of_others, rows_of. rewrite lookup_insert_eq, Htb. simpl.
  rewrite List.filter_app. simpl. rewrite Hr. simpl. apply app_nil_r.
Qed.

Lemma keeps_others_touches {A : Type} org_id t ts (m : M A) :
  touches ts m -> ~ In t ts -> keeps_others org_id t m.
Proof. intros Hm Ht c r c' H. apply of_others_same. now apply (Hm _ _ _ H). Qed.

Lemma keeps_others_ret {A : Type} org_id t (a : A) : keeps_others org_id t (ret a).
Proof. intros c r c' H. now inversion H. Qed.

Lemma keeps_others_lift {A : Type} org_id t (o : outcome A) :
  keeps_others org_id t (lift o).
Proof. intros c r c' H. now inversion H. Qed.

Lemma keeps_others_bind {A B : Type} org_id t (m : M A) (k : A -> M B) :
  keeps_others org_id t m -> (forall a, keeps_others org_id t (k a)) ->
  keeps_others org_id t (bind m k).
Proof.
  intros Hm Hk c r c' H.
  apply bind_cases in H as [(a & c1 & H1 & H2) | (e & H1 & _)].
  - rewrite (Hk a _ _ _ H2). now apply (Hm _ _ _ H1).
  - now apply (Hm _ _ _ H1).
Qed.

Lemma keeps_others_for_each {A : Type} org_id t (body : A -> M unit) l :
  (forall x, keeps_others org_id t (body x)) -> keeps_others org_id t (for_each body l).
Proof.
  intros Hb. induction l as [|x l IH]; simpl.
  - apply keeps_others_ret.
  - apply keeps_others_bind; auto.
Qed.

Lemma keeps_others_manipulate org_id t op ps :
  (forall db cur, op ps db = Ok cur ->
                  of_others org_id t (store cur) = of_others org_id t db) ->
  keeps_others org_id t (_db_manipulate op ps false).
Proof.
  intros Hop c r c' H.
  apply db_manipulate_inv in H as [(e & _ & ->) | (cur & _ & Hrun & _ & ->)];
    [reflexivity|].
  simpl. now apply Hop.
Qed.

Lemma fix_contact_to_org_keeps_others org_id contact :
  sql_eq org_id org_id = true ->
  keeps_others org_id "contact" (fix_contact_to_org org_id contact).
Proof.
  intros Hrefl c r c' H. unfold fix_contact_to_org in H.
  apply bind_cases in H as [(u & c1 & H1 & H) | (e & H1 & _)];
    apply lift_inv in H1 as [_ ->]; [|reflexivity].
  apply bind_cases in H as [(contact2 & c1 & H1 & H) | (e & H1 & _)];
    apply lift_inv in H1 as [Hset ->]; [|reflexivity].
  symmetry in Hset. apply py_setitem_inv in Hset as (d & -> & ->).
  apply bind_cases in H as [(params & c1 & H1 & H) | (e & H1 & _)];
    apply lift_inv in H1 as [Hp ->]; [|reflexivity].
  symmetry in Hp. apply named_inv in Hp.
  apply bind_cases in H as [(n & c1 & H1 & H) | (e & H1 & _)].
  - unfold ret in H. injection H as _ <-.
    apply db_manipulate_inv in H1 as [(e & _ & ->) | (cur & _ & Hop & _ & ->)];
      [reflexivity|].
    apply sql_insert_inv in Hop as (tb & s & Htb & Hc & _ & Hstore).
    cbn [working]. rewrite Hstore. apply of_others_insert; [exact Htb|].
    rewrite (col_new_row tb _ "organisation_id" (arg 6 params)).
    + unfold contact_attribs in Hp. simpl app in Hp.
      repeat match goal with
             | Hp : Forall2 _ (_ :: _) _ |- _ => inversion Hp; subst; clear Hp
             | Hp : Forall2 _ [] _ |- _ => inversion Hp; subst; clear Hp
             end.
      unfold arg. cbn [nth].
      match goal with
      | Hy : dict_get "organisation_id" (dict_set "organisation_id" org_id d) = Some ?y
        |- _ => rewrite dict_get_set_eq in Hy; injection Hy as <-
      end.
      exact Hrefl.
    + simpl in Hc. rewrite !andb_true_iff in Hc. tauto.
    + reflexivity.
  - apply db_manipulate_inv in H1 as [(e2 & _ & ->) | (cur & _ & _ & Hr & _)];
      [reflexivity | discriminate].
Qed.

(** X18. Reconciling the contacts of an organisation leaves the contact
    rows of every other organisation as they are, in their order, however
    the call ends. *)
Theorem fix_contacts_to_org_keeps_others (contacts org_id : pyval) c r c2 :
  sql_eq org_id org_id = true ->
  __fix_contacts_to_org contacts org_id c = (r, c2) ->
  of_others org_id "contact" (working c2) = of_others org_id "contact" (working c).
Proof.
  intros Hrefl. revert c r c2.
  change (keeps_others org_id "contact" (__fix_contacts_to_org contacts org_id)).
  unfold __fix_contacts_to_org.
  apply keeps_others_bind; [|intros n].
  - apply keeps_others_manipulate. intros db cur Hop.
    apply sql_delete_inv in Hop as (tb & Htb & _ & _ & ->).
    apply (of_others_delete org_id "contact" tb
             (fun r => sql_eq (col r "organisation_id") org_id)); auto.
  - apply keeps_others_bind; [apply keeps_others_lift|].
    intros l. apply keeps_others_for_each. intros contact.
    now apply fix_contact_to_org_keeps_others.
Qed.

Lemma fix_contacts_to_org_keeps_others_witness :
  of_others (PInt 7) "contact"
    (working (snd (__fix_contacts_to_org (PList [PDict grace]) (PInt 7) idle)))
  = of_others (PInt 7) "contact" (working idle).
Proof.
  apply (fix_contacts_to_org_keeps_others (PList [PDict grace]) (PInt 7) idle
           (fst (__fix_contacts_to_org (PList [PDict grace]) (PInt 7) idle))).
  - reflexivity.
  - symmetry. apply surjective_pairing.
Defined.

Lemma keeps_others_raise {A : Type} org_id t e : keeps_others org_id t (@raise A e).
Proof. intros c r c' H. now inversion H. Qed.

Lemma keeps_others_annotations {A : Type} org_id (m : M A) :
  touches ["autonomous_system_annotation"] m ->
  keeps_others org_id "organisation_to_asn" m.
Proof.
  intros Hm. apply (keeps_others_touches _ _ _ _ Hm). simpl. intuition discriminate.
Qed.

Lemma fix_asn_to_org_keeps_others org_id asn :
  sql_eq org_id org_id = true ->
  keeps_others org_id "organisation_to_asn" (fix_asn_to_org org_id asn).
Proof.
  intros Hrefl. unfold fix_asn_to_org.
  apply keeps_others_bind; [apply keeps_others_lift | intros asn_id].
  apply keeps_others_bind; [apply keeps_others_lift | intros annos_should].
  apply keeps_others_bind; [|intros annos_are].
  { apply keeps_others_annotations. unfold __db_query_asn_annotations. frame. }
  apply keeps_others_bind; [apply keeps_others_lift | intros missing].
  apply keeps_others_bind; [|intros _].
  { apply keeps_others_annotations. frame. }
  apply keeps_others_bind; [apply keeps_others_lift | intros superfluous].
  apply keeps_others_bind; [|intros _].
  { apply keeps_others_annotations. frame. }
  apply keeps_others_bind; [|intros results].
  { apply (keeps_others_touches _ _ []); [frame | simpl; tauto]. }
  destruct (Nat.eqb (length results) 0); [|apply keeps_others_ret].
  apply keeps_others_bind; [|intros n; apply keeps_others_ret].
  apply keeps_others_manipulate. intros db cur Hop.
  apply sql_insert_inv in Hop as (tb & s & Htb & Hc & _ & ->).
  apply of_others_insert; [exact Htb|].
  rewrite (col_new_row tb _ "organisation_id" org_id); [exact Hrefl| |reflexivity].
  simpl in Hc. rewrite !andb_true_iff in Hc. tauto.
Qed.

(** X19. Reconciling the ASNs of an organisation leaves the link rows of
    every other organisation as they are, in their order, however the call
    ends. *)
Theorem fix_asns_to_org_keeps_other_links (asns org_id : pyval) c r c2 :
  sql_eq org_id org_id = true ->
  __fix_asns_to_org asns org_id c = (r, c2) ->
  of_others org_id "organisation_to_asn" (working c2)
  = of_others org_id "organisation_to_asn" (working c).
Proof.
  intros Hrefl. revert c r c2.
  change (keeps_others org_id "organisation_to_asn" (__fix_asns_to_org asns org_id)).
  unfold __fix_asns_to_org.
  apply keeps_others_bind; [apply keeps_others_lift | intros l].
  apply keeps_others_bind; [|intros _].
  { apply keeps_others_for_each. intros asn. now apply fix_asn_to_org_keeps_others. }
  apply keeps_others_bind; [apply keeps_others_lift | intros wanted].
  apply keeps_others_bind; [|intros n].
  { apply keeps_others_manipulate. intros db cur Hop.
    apply sql_delete_inv in Hop as (tb & Htb & _ & _ & ->).
    apply (of_others_delete org_id "organisation_to_asn" tb
             (fun r => sql_eq (col r "organisation_id") org_id
                       && sql_ne_all (col r "asn") (PList wanted))); [exact Htb|].
    intros x Hx. now apply andb_true_iff in Hx as [Hx _]. }
  apply keeps_others_bind; [|intros n2; apply keeps_others_ret].
  apply keeps_others_annotations. frame.
Qed.

Lemma fix_asns_to_org_keeps_other_links_witness :
  of_others (PInt 1) "organisation_to_asn"
    (working (snd (__fix_asns_to_org (PList [wanted_asn 64496 ["b"]]) (PInt 1)
                     transitional)))
  = of_others (PInt 1) "organisation_to_asn" (working transitional).
Proof.
  apply (fix_asns_to_org_keeps_other_links (PList [wanted_asn 64496 ["b"]]) (PInt 1)
           transitional
           (fst (__fix_asns_to_org (PList [wanted_asn 64496 ["b"]]) (PInt 1)
                   transitional))).
  - reflexivity.
  - symmetry. apply surjective_pairing.
Defined.

(** *** Inhibitions *)

(** X20. When [__remove_inhibitions] returns, the inhibition rows left are
    those whose id is none of the given ones, and the network rows left are
    those that a remaining inhibition refers to: every other network is
    deleted, whether or not one of the given inhibitions referred to it. *)
Theorem remove_inhibitions_removes (inhibitions : pyval) c u c2 :
  __remove_inhibitions inhibitions c = (Ok u, c2) ->
  exists l ids,
    py_iter inhibitions = Ok l /\ items_of "id" l = Ok ids
    /\ (forall i, In i (rows_of "inhibition" (working c2))
                  <-> In i (rows_of "inhibition" (working c))
                      /\ existsb (sql_eq (col i "id")) ids = false)
    /\ (forall n, In n (rows_of "network" (working c2))
                  <-> In n (rows_of "network" (working c))
                      /\ exists i, In i (rows_of "inhibition" (working c2))
                                   /\ sql_eq (col n "id") (col i "net_id") = true).
Proof.
  intros H. unfold __remove_inhibitions in H.
  apply bind_ok in H as (l & c0 & Hl & H). apply lift_ok in Hl as [Hl ->].
  apply bind_ok in H as (ids & c0 & Hids & H). apply lift_ok in Hids as [Hids ->].
  apply bind_ok in H as (n1 & c1 & H1 & H).
  apply bind_ok in H as (n2 & c3 & H2 & H).
  unfold ret in H. injection H as _ <-.
  apply db_manipulate_inv in H1 as [(e & He & _) | (cur1 & _ & Hop1 & _ & ->)];
    [discriminate|].
  apply sql_delete_inv in Hop1 as (ti & Hti & _ & _ & Hs1).
  apply db_manipulate_inv in H2 as [(e & He & _) | (cur2 & _ & Hop2 & _ & ->)];
    [discriminate|].
  cbn [working] in Hop2.
  apply obind_ok in Hop2 as (sel & Hsel & Hop2).
  apply sql_select_inv in Hsel as (ti2 & Hti2 & _ & Hfetch & _).
  apply sql_delete_inv in Hop2 as (tn & Htn & _ & _ & Hs2).
  rewrite Hs1, lookup_insert_eq in Hti2. injection Hti2 as <-.
  rewrite Hs1, lookup_insert_ne in Htn by discriminate.
  unfold project in Hfetch. rewrite map_id, filter_true in Hfetch.
  exists l, ids. split; [exact Hl|]. split; [exact Hids|].
  cbn [working]. unfold rows_of.
  rewrite Hs2, lookup_insert_eq, lookup_insert_ne, Hs1, lookup_insert_eq by discriminate.
  rewrite Hti, Htn. cbn [rows]. unfold arg. cbn [nth sql_eq_any].
  split.
  - intros i. rewrite List.filter_In, negb_true_iff. reflexivity.
  - intros n. rewrite List.filter_In, negb_involutive, Hfetch. cbn [rows].
    rewrite existsb_exists. reflexivity.
Qed.

Lemma remove_inhibitions_removes_witness :
  let given := PList [PDict [("id", PInt 1)]] in
  let c2 := snd (__remove_inhibitions given inhibited) in
  exists l ids,
    py_iter given = Ok l /\ items_of "id" l = Ok ids
    /\ (forall i, In i (rows_of "inhibition" (working c2))
                  <-> In i (rows_of "inhibition" (working inhibited))
                      /\ existsb (sql_eq (col i "id")) ids = false)
    /\ (forall n, In n (rows_of "network" (working c2))
                  <-> In n (rows_of "network" (working inhibited))
                      /\ exists i, In i (rows_of "inhibition" (working c2))
                                   /\ sql_eq (col n "id") (col i "net_id") = true).
Proof.
  intros given c2.
  apply (remove_inhibitions_removes given inhibited tt c2).
  vm_compute. reflexivity.
Defined.

(** ** Unlinking contacts *)

Lemma rows_of_insert t tb db : rows_of t (<[t := tb]> db) = rows tb.
Proof. unfold rows_of. now rewrite lookup_insert_eq. Qed.

Lemma rows_of_insert_ne t t2 tb db :
  t <> t2 -> rows_of t (<[t2 := tb]> db) = rows_of t db.
Proof. intros Hne. unfold rows_of. now rewrite lookup_insert_ne. Qed.

Lemma rows_of_some t db tb : db !! t = Some tb -> rows_of t db = rows tb.
Proof. unfold rows_of. now intros ->. Qed.

Lemma filter_nil_existsb {A : Type} (p : A -> bool) l :
  Nat.eqb (length (List.filter p l)) 0 = negb (existsb p l).
Proof.
  induction l as [|x l IH]; simpl; [reflexivity|].
  destruct (p x); simpl; [reflexivity | exact IH].
Qed.

(** One round of the loop of [__remove_or_unlink_contacts]. *)
Lemma remove_or_unlink_contact_ok org_id contact c c1 :
  remove_or_unlink_contact org_id contact c = (Ok tt, c1) ->
  exists k,
    py_getitem contact "contact_id" = Ok k
    /\ rows_of "role" (working c1)
       = List.filter (fun r => negb (sql_eq (col r "organisation_id") org_id
                                     && sql_eq (col r "contact_id") k))
           (rows_of "role" (working c))
    /\ rows_of "contact" (working c1)
       = if existsb (fun r => sql_eq (col r "contact_id") k)
              (rows_of "role" (working c1))
         then rows_of "contact" (working c)
         else List.filter (fun x => negb (sql_eq (col x "id") k))
                (rows_of "contact" (working c)).
Proof.
  intros H. unfold remove_or_unlink_contact in H.
  apply bind_ok in H as (k & c0 & Hk & H). apply lift_ok in Hk as [Hk ->].
  exists k. split; [exact Hk|].
  apply bind_ok in H as (n1 & c2 & H1 & H).
  apply db_manipulate_inv in H1 as [(e & He & _) | (cur1 & _ & Hop1 & _ & ->)];
    [discriminate|].
  apply sql_delete_inv in Hop1 as (tr & Htr & _ & _ & Hs1).
  unfold arg in Hs1. cbn [nth] in Hs1.
  apply bind_ok in H as (results & c3 & H2 & H).
  apply db_query_inv in H2 as [(e & He & _) | (cur2 & _ & Hop2 & Hr & ->)];
    [discriminate|].
  cbn [working] in Hop2.
  apply sql_aggregate_inv in Hop2 as (tr2 & Htr2 & _ & Hfetch & Hs2).
  rewrite Hs1, lookup_insert_eq in Htr2. injection Htr2 as <-.
  injection Hr as ->. rewrite Hfetch in H. cbn [first] in H.
  rewrite bind_lift_ok in H. cbn [py_getitem dict_get String.eqb Ascii.eqb Bool.eqb] in H.
  rewrite bind_lift_ok in H.
  unfold count_star, arg in H. cbn [nth rows] in H.
  change (py_eqb (PInt ?z) (PInt 0)) with (Z.eqb z 0) in H.
  assert (Hcount : forall l : list row,
             Z.eqb (Z.of_nat (length (List.filter
                                        (fun r => sql_eq (col r "contact_id") k) l))) 0
             = negb (existsb (fun r => sql_eq (col r "contact_id") k) l)).
  { intros l. rewrite <- filter_nil_existsb.
    generalize (length (List.filter (fun r => sql_eq (col r "contact_id") k) l)).
    intros [|n]; reflexivity. }
  rewrite Hcount in H.
  assert (Hrole : rows_of "role" (store cur2)
                  = List.filter (fun r => negb (sql_eq (col r "organisation_id") org_id
                                                && sql_eq (col r "contact_id") k))
                      (rows tr)).
  { rewrite Hs2, Hs1. apply rows_of_insert. }
  assert (Hrole0 : rows_of "role" (working c) = rows tr) by now apply rows_of_some.
  destruct (existsb _ _) eqn:Hex; cbn [negb] in H.
  - unfold ret in H. injection H as <-. cbn [working].
    rewrite Hrole, Hrole0, Hex. split; [reflexivity|].
    rewrite Hs2, Hs1. now apply rows_of_insert_ne.
  - apply bind_ok in H as (n3 & c4 & H3 & H). unfold ret in H. injection H as <-.
    apply db_manipulate_inv in H3 as [(e & He & _) | (cur3 & _ & Hop3 & _ & ->)];
      [discriminate|].
    cbn [working] in Hop3.
    apply sql_delete_inv in Hop3 as (tc & Htc & _ & _ & Hs3).
    unfold arg in Hs3. cbn [nth] in Hs3.
    cbn [working]. rewrite Hs3, rows_of_insert_ne by discriminate.
    rewrite Hrole, Hrole0, Hex. split; [reflexivity|].
    rewrite rows_of_insert. cbn [rows].
    rewrite Hs2, Hs1, lookup_insert_ne in Htc by discriminate.
    now rewrite (rows_of_some _ _ _ Htc).
Qed.

Lemma remove_contacts_loop org_id l : forall c c2,
  for_each (remove_or_unlink_contact org_id) l c = (Ok tt, c2) ->
  exists ids,
    items_of "contact_id" l = Ok ids
    /\ (forall r, In r (rows_of "role" (working c2))
                  <-> In r (rows_of "role" (working c))
                      /\ sql_eq (col r "organisation_id") org_id
                         && existsb (sql_eq (col r "contact_id")) ids = false)
    /\ (forall x, In x (rows_of "contact" (working c2))
                  <-> In x (rows_of "contact" (working c))
                      /\ forall k, In k ids -> sql_eq (col x "id") k = true ->
                           exists r, In r (rows_of "role" (working c2))
                                     /\ sql_eq (col r "contact_id") k = true).
Proof.
  induction l as [|contact l IH]; intros c c2 H; simpl in H.
  - unfold ret in H. injection H as <-. exists []. split; [reflexivity|]. split.
    + intros r. rewrite andb_false_r. tauto.
    + intros x. split; [intros Hx; split; [exact Hx | intros k []] | tauto].
  - apply bind_ok in H as ([] & c1 & Hstep & H).
    apply remove_or_unlink_contact_ok in Hstep as (k & Hk & Hrole & Hcontact).
    apply IH in H as (ids & Hids & HR & HC).
    exists (k :: ids). split; [simpl; now rewrite Hk, Hids|].
    assert (HR1 : forall r, In r (rows_of "role" (working c1))
                            <-> In r (rows_of "role" (working c))
                                /\ sql_eq (col r "organisation_id") org_id
                                   && sql_eq (col r "contact_id") k = false).
    { intros r. rewrite Hrole, List.filter_In, negb_true_iff. reflexivity. }
    assert (HR2 : forall r, In r (rows_of "role" (working c2))
                  <-> In r (rows_of "role" (working c))
                      /\ sql_eq (col r "organisation_id") org_id
                         && existsb (sql_eq (col r "contact_id")) (k :: ids) = false).
    { intros r. rewrite HR, HR1. cbn [existsb].
      destruct (sql_eq (col r "organisation_id") org_id); simpl; [|tauto].
      rewrite orb_false_iff. tauto. }
    split; [exact HR2|].
    intros x. rewrite HC. split.
    + intros [Hx Hkeep]. split.
      * rewrite Hcontact in Hx. destruct (existsb _ _); [exact Hx|].
        now apply List.filter_In in Hx.
      * intros k2 [<-|Hk2] Heq; [|now apply Hkeep].
        rewrite Hcontact in Hx.
        destruct (existsb _ (rows_of "role" (working c1))) eqn:Hex.
        -- apply existsb_exists in Hex as (r & Hr & Hrk). exists r. split; [|exact Hrk].
           apply HR. split; [exact Hr|].
           apply HR1 in Hr as [_ Hr]. rewrite Hrk, andb_true_r in Hr. now rewrite Hr.
        -- apply List.filter_In in Hx as [_ Hx]. now rewrite Heq in Hx.
    + intros [Hx Hkeep]. split; [|intros k2 Hk2; apply Hkeep; now right].
      rewrite Hcontact.
      destruct (existsb _ (rows_of "role" (working c1))) eqn:Hex; [exact Hx|].
      apply List.filter_In. split; [exact Hx|]. apply negb_true_iff.
      destruct (sql_eq (col x "id") k) eqn:Heq; [|reflexivity].
      destruct (Hkeep k (or_introl eq_refl) Heq) as (r & Hr & Hrk).
      apply HR in Hr as [Hr _].
      assert (Hin : existsb (fun r => sql_eq (col r "contact_id") k)
                      (rows_of "role" (working c1)) = true).
      { apply existsb_exists. eauto. }
      congruence.
Qed.

(** X21. When [__remove_or_unlink_contacts] returns, the role rows left
    are those that do not link the organisation to one of the given
    contacts, and the contact rows left are those for which, whichever of
    the given ids they carry, a role row with that id is left: a given
    contact is deleted exactly when no organisation has a role for it any
    more, and no other contact is deleted. *)
Theorem remove_or_unlink_contacts_result (contacts org_id : pyval) c u c2 :
  __remove_or_unlink_contacts contacts org_id c = (Ok u, c2) ->
  exists l ids,
    py_iter contacts = Ok l /\ items_of "contact_id" l = Ok ids
    /\ (forall r, In r (rows_of "role" (working c2))
                  <-> In r (rows_of "role" (working c))
                      /\ sql_eq (col r "organisation_id") org_id
                         && existsb (sql_eq (col r "contact_id")) ids = false)
    /\ (forall x, In x (rows_of "contact" (working c2))
                  <-> In x (rows_of "contact" (working c))
                      /\ forall k, In k ids -> sql_eq (col x "id") k = true ->
                           exists r, In r (rows_of "role" (working c2))
                                     /\ sql_eq (col r "contact_id") k = true).
Proof.
  intros H. unfold __remove_or_unlink_contacts in H.
  apply bind_ok in H as (l & c0 & Hl & H). apply lift_ok in Hl as [Hl ->].
  destruct u. apply remove_contacts_loop in H as (ids & Hids & HR & HC).
  exists l, ids. auto.
Qed.

Lemma remove_or_unlink_contacts_result_witness :
  let given := PList [PDict [("contact_id", PInt 1)]; PDict [("contact_id", PInt 2)]] in
  let c2 := snd (__remove_or_unlink_contacts given (PInt 1) with_roles) in
  exists l ids,
    py_iter given = Ok l /\ items_of "contact_id" l = Ok ids
    /\ (forall r, In r (rows_of "role" (working c2))
                  <-> In r (rows_of "role" (working with_roles))
                      /\ sql_eq (col r "organisation_id") (PInt 1)
                         && existsb (sql_eq (col r "contact_id")) ids = false)
    /\ (forall x, In x (rows_of "contact" (working c2))
                  <-> In x (rows_of "contact" (working with_roles))
                      /\ forall k, In k ids -> sql_eq (col x "id") k = true ->
                           exists r, In r (rows_of "role" (working c2))
                                     /\ sql_eq (col r "contact_id") k = true).
Proof.
  intros given c2.
  apply (remove_or_unlink_contacts_result given (PInt 1) with_roles tt c2).
  vm_compute. reflexivity.
Defined.

(** ** Reconciling the annotations of an ASN *)

Lemma keep_not_in_list xs l :
  keep_not_in xs (PList l)
  = Ok (List.filter (fun a => negb (existsb (py_eqb a) l)) xs).
Proof.
  induction xs as [|a xs IH]; simpl; [reflexivity|].
  rewrite IH. simpl. now destruct (existsb (py_eqb a) l).
Qed.

Lemma py_eqb_str w v : py_eqb (PStr w) v = true -> v = PStr w.
Proof.
  destruct v; simpl; try discriminate. intros H. apply String.eqb_eq in H. now subst.
Qed.

Lemma py_eqb_str_r w v : py_eqb v (PStr w) = true -> v = PStr w.
Proof.
  destruct v; simpl; try discriminate. intros H. apply String.eqb_eq in H. now subst.
Qed.

Lemma sql_eq_str w v : sql_eq v (PStr w) = true -> v = PStr w.
Proof.
  unfold sql_eq. intros H. apply andb_true_iff in H as [_ H]. now apply py_eqb_str_r.
Qed.

Lemma sql_eq_str_refl w : sql_eq (PStr w) (PStr w) = true.
Proof. unfold sql_eq. simpl. apply String.eqb_refl. Qed.

Lemma existsb_str_in w wanted :
  existsb (py_eqb (PStr w)) (map PStr wanted) = true <-> In w wanted.
Proof.
  rewrite existsb_exists. split.
  - intros (v & Hv & Heq). apply in_map_iff in Hv as (w2 & <- & Hw2).
    simpl in Heq. apply String.eqb_eq in Heq. now subst.
  - intros Hw. exists (PStr w). split; [now apply in_map | apply String.eqb_refl].
Qed.

(** The first loop of the loop body: an annotation row is added for every
    missing annotation. *)
Lemma insert_annotations_ok asn_id missing : forall c c3 ta,
  for_each (fun anno =>
      _db_manipulate
        (fun p => sql_insert "autonomous_system_annotation"
                    [("asn", arg 0 p); ("annotation", arg 1 p)] [])
        [asn_id; anno] false ;;
      ret tt) missing c = (Ok tt, c3) ->
  working c !! "autonomous_system_annotation" = Some ta ->
  exists news s,
    working c3 !! "autonomous_system_annotation"
    = Some (mkTable (columns ta) (rows ta ++ news) s)
    /\ map (fun r => col r "annotation") news = missing
    /\ Forall (fun r => col r "asn" = asn_id) news.
Proof.
  induction missing as [|m missing IH]; intros c c3 ta H Hta; simpl in H.
  - unfold ret in H. injection H as <-. exists [], (serial ta).
    rewrite app_nil_r. destruct ta. auto.
  - apply bind_ok in H as ([] & c1 & Hstep & H).
    apply bind_ok in Hstep as (n & c0 & Hins & Hret).
    unfold ret in Hret. injection Hret as <-.
    apply db_manipulate_inv in Hins as [(e & He & _) | (cur & _ & Hop & _ & ->)];
      [discriminate|].
    apply sql_insert_inv in Hop as (tb & s & Htb & Hc & _ & Hstore).
    rewrite Hta in Htb. injection Htb as <-.
    unfold arg in Hstore, Hc. cbn [nth] in Hstore, Hc.
    simpl in Hc. rewrite !andb_true_iff in Hc. destruct Hc as (Hc1 & Hc2 & _).
    eapply IH in H as (news & s2 & Hw & Hmap & Hall);
      [|cbn [working]; rewrite Hstore; apply lookup_insert_eq].
    cbn [columns rows] in Hw.
    eexists (_ :: news), s2. rewrite <- app_assoc in Hw. split; [exact Hw|].
    split.
    + cbn [map]. rewrite Hmap. f_equal. now apply col_new_row.
    + constructor; [|exact Hall]. now apply col_new_row.
Qed.

(** The second loop: the rows of the ASN that carry a superfluous
    annotation are deleted. *)
Lemma delete_annotations_ok asn_id superfluous : forall c c4 tb,
  for_each (fun anno =>
      _db_manipulate
        (fun p => sql_delete "autonomous_system_annotation" ["asn"; "annotation"]
                    (fun r => sql_eq (col r "asn") (arg 0 p)
                              && sql_eq (col r "annotation") (arg 1 p)))
        [asn_id; anno] false ;;
      ret tt) superfluous c = (Ok tt, c4) ->
  working c !! "autonomous_system_annotation" = Some tb ->
  exists rs,
    working c4 !! "autonomous_system_annotation"
    = Some (mkTable (columns tb) rs (serial tb))
    /\ forall r, In r rs
                 <-> In r (rows tb)
                     /\ (sql_eq (col r "asn") asn_id
                         && existsb (sql_eq (col r "annotation")) superfluous = false).
Proof.
  induction superfluous as [|s superfluous IH]; intros c c4 tb H Htb; simpl in H.
  - unfold ret in H. injection H as <-. exists (rows tb). split; [now destruct tb|].
    intros r. cbn [existsb]. rewrite andb_false_r. tauto.
  - apply bind_ok in H as ([] & c1 & Hstep & H).
    apply bind_ok in Hstep as (n & c0 & Hdel & Hret).
    unfold ret in Hret. injection Hret as <-.
    apply db_manipulate_inv in Hdel as [(e & He & _) | (cur & _ & Hop & _ & ->)];
      [discriminate|].
    apply sql_delete_inv in Hop as (tb2 & Htb2 & _ & _ & Hstore).
    rewrite Htb in Htb2. injection Htb2 as <-.
    unfold arg in Hstore. cbn [nth] in Hstore.
    eapply IH in H as (rs & Hw & Hrs);
      [|cbn [working]; rewrite Hstore; apply lookup_insert_eq].
    cbn [columns rows serial] in Hw, Hrs.
    exists rs. split; [exact Hw|].
    intros r. rewrite Hrs, List.filter_In, negb_true_iff. cbn [existsb].
    destruct (sql_eq (col r "asn") asn_id); simpl; [|tauto].
    rewrite orb_false_iff. tauto.
Qed.

(** X22. When the loop body of [__fix_asns_to_org] completes for a wanted
    ASN whose annotations are strings, the strings stored as annotations of
    the ASN are exactly the wanted ones, and the annotations of every other
    ASN number are the ones from before. *)
Theorem fix_asn_to_org_annotations (org_id asn asn_id : pyval) (wanted : list string)
    c c2 :
  py_getitem asn "asn" = Ok asn_id ->
  py_getitem asn "annotations" = Ok (PList (map PStr wanted)) ->
  fix_asn_to_org org_id asn c = (Ok tt, c2) ->
  (forall w, In (PStr w) (annotations_of asn_id (working c2)) <-> In w wanted)
  /\ forall a b, asn_id = PInt a -> b <> a ->
       forall v, In v (annotations_of (PInt b) (working c2))
                 <-> In v (annotations_of (PInt b) (working c)).
Proof.
  intros Hasn Hwanted H. unfold fix_asn_to_org in H.
  rewrite Hasn, bind_lift_ok, Hwanted, bind_lift_ok in H.
  apply bind_ok in H as (annos_are & c1 & Hq & H).
  apply db_query_asn_annotations_inv in Hq as (ta & Hta & _ & Hadapt & Hare & ->).
  apply bind_ok in H as (missing & c1 & Hm & H). apply lift_ok in Hm as [Hm ->].
  apply bind_ok in H as ([] & c3 & Hins & H).
  apply bind_ok in H as (superfluous & c4 & Hs & H). apply lift_ok in Hs as [Hs ->].
  apply bind_ok in H as ([] & c4 & Hdel & H).
  (* the stored annotations are a list, so there are some *)
  apply obind_ok in Hs as (are & Hiter & Hs).
  set (stored := List.filter (fun r => sql_eq (col r "asn") asn_id) (rows ta)) in *.
  assert (Hstored : annos_are = PList are
                    /\ are = map (fun r => col r "annotation") stored
                    /\ stored <> []).
  { rewrite Hare in Hiter |- *. unfold array_agg in *.
    destruct stored; [discriminate|]. injection Hiter as <-. repeat split. discriminate. }
  destruct Hstored as (-> & Hare2 & Hne).
  cbn [py_iter obind] in Hm. rewrite keep_not_in_list in Hm, Hs.
  injection Hm as <-. injection Hs as <-.
  assert (Hrefl : sql_eq asn_id asn_id = true).
  { destruct stored as [|r0 rest] eqn:Est; [contradiction|].
    assert (Hin : In r0 stored) by (rewrite Est; now left).
    apply List.filter_In in Hin as [_ Hr0]. unfold sql_eq in Hr0 |- *.
    rewrite !andb_true_iff in Hr0. destruct Hr0 as [[_ Hn] _].
    rewrite Hn, py_eqb_refl by exact Hadapt. reflexivity. }
  destruct (insert_annotations_ok _ _ _ _ _ Hins Hta) as (news & s & Hw3 & Hnews & Hall).
  destruct (delete_annotations_ok _ _ _ _ _ Hdel Hw3) as (rs & Hw4 & Hrs).
  cbn [columns rows serial] in Hw4, Hrs.
  assert (Hw2 : working c2 !! "autonomous_system_annotation"
                = working c4 !! "autonomous_system_annotation").
  { match type of H with
    | ?m c4 = _ => assert (Ht : touches ["organisation_to_asn"] m) by frame
    end.
    apply (Ht _ _ _ H). simpl. intuition discriminate. }
  assert (Hrows2 : rows_of "autonomous_system_annotation" (working c2) = rs).
  { unfold rows_of. now rewrite Hw2, Hw4. }
  assert (Hrows : rows_of "autonomous_system_annotation" (working c) = rows ta).
  { now apply rows_of_some. }
  assert (Hsup : forall w, In w wanted ->
             existsb (sql_eq (PStr w))
               (List.filter (fun a => negb (existsb (py_eqb a) (map PStr wanted))) are)
             = false).
  { intros w Hw. destruct (existsb _ _) eqn:Hex; [|reflexivity].
    apply existsb_exists in Hex as (x & Hx & Heq).
    apply List.filter_In in Hx as [_ Hx]. apply negb_true_iff in Hx.
    unfold sql_eq in Heq. apply andb_true_iff in Heq as [_ Heq].
    apply py_eqb_str in Heq. subst x.
    apply (proj2 (existsb_str_in w wanted)) in Hw. congruence. }
  split.
  - intros w. unfold annotations_of. rewrite Hrows2, in_map_iff. split.
    + intros (r & Hcol & Hr). apply List.filter_In in Hr as [Hr Hasnr].
      apply Hrs in Hr as [Hr Hkept]. rewrite Hasnr, Hcol in Hkept. simpl in Hkept.
      destruct (in_dec string_dec w wanted) as [Hw|Hw]; [exact Hw|exfalso].
      apply in_app_or in Hr as [Hr|Hr].
      * assert (Hex : existsb (sql_eq (PStr w))
                        (List.filter
                           (fun a => negb (existsb (py_eqb a) (map PStr wanted))) are)
                      = true); [|congruence].
        apply existsb_exists. exists (PStr w). split; [|apply sql_eq_str_refl].
        apply List.filter_In. split.
        -- rewrite Hare2, <- Hcol.
           apply (in_map (fun r0 => col r0 "annotation") stored r).
           apply List.filter_In. auto.
        -- apply negb_true_iff.
           destruct (existsb (py_eqb (PStr w)) (map PStr wanted)) eqn:Hex2;
             [|reflexivity].
           now apply existsb_str_in in Hex2.
      * apply (in_map (fun r => col r "annotation")) in Hr.
        rewrite Hnews, Hcol in Hr. apply List.filter_In in Hr as [Hr _].
        apply in_map_iff in Hr as (w2 & Heq & Hw2'). injection Heq as ->.
        contradiction.
    + intros Hw.
      destruct (existsb (py_eqb (PStr w)) are) eqn:Hex.
      * apply existsb_exists in Hex as (x & Hx & Heq). apply py_eqb_str in Heq.
        subst x. rewrite Hare2 in Hx. apply in_map_iff in Hx as (r & Hcol & Hr).
        exists r. split; [exact Hcol|].
        apply List.filter_In in Hr as [Hr Hasnr].
        apply List.filter_In. split; [|exact Hasnr].
        apply Hrs. split; [apply in_or_app; now left|].
        rewrite Hasnr, Hcol. simpl. now apply Hsup.
      * assert (Hmiss : In (PStr w)
                          (List.filter (fun a => negb (existsb (py_eqb a) are))
                             (map PStr wanted))).
        { apply List.filter_In. split; [now apply in_map | now rewrite Hex]. }
        rewrite <- Hnews in Hmiss. apply in_map_iff in Hmiss as (r & Hcol & Hr).
        exists r. split; [exact Hcol|].
        rewrite List.Forall_forall in Hall. pose proof (Hall r Hr) as Hasnr.
        apply List.filter_In. split; [|now rewrite Hasnr].
        apply Hrs. split; [apply in_or_app; now right|].
        rewrite Hasnr, Hrefl, Hcol. simpl. now apply Hsup.
  - intros a b -> Hb v. unfold annotations_of. rewrite Hrows2, Hrows, !in_map_iff.
    split; intros (r & Hcol & Hr); exists r; (split; [exact Hcol|]);
      apply List.filter_In in Hr as [Hr Hasnr]; apply List.filter_In;
      (split; [|exact Hasnr]); pose proof (sql_eq_int _ _ Hasnr) as Hcolr.
    + apply Hrs in Hr as [Hr _]. apply in_app_or in Hr as [Hr|Hr]; [exact Hr|].
      rewrite List.Forall_forall in Hall. apply Hall in Hr.
      rewrite Hcolr in Hr. injection Hr as ->. contradiction.
    + apply Hrs. split; [apply in_or_app; now left|].
      rewrite Hcolr. unfold sql_eq at 1. simpl.
      apply Z.eqb_neq in Hb. now rewrite Hb.
Qed.

Lemma fix_asn_to_org_annotations_witness :
  let c2 := snd (fix_asn_to_org (PInt 1) (wanted_asn 64496 ["b"; "c"]) idle) in
  (forall w, In (PStr w) (annotations_of (PInt 64496) (working c2))
             <-> In w ["b"; "c"])
  /\ forall a b, PInt 64496 = PInt a -> b <> a ->
       forall v, In v (annotations_of (PInt b) (working c2))
                 <-> In v (annotations_of (PInt b) (working idle)).
Proof.
  intros c2.
  apply (fix_asn_to_org_annotations (PInt 1) (wanted_asn 64496 ["b"; "c"])
           (PInt 64496) ["b"; "c"] idle c2).
  - reflexivity.
  - reflexivity.
  - vm_compute. reflexivity.
Defined.

Lemma fix_asn_to_org_unannotated_witness :
  exists what,
    fix_asn_to_org (PInt 1) (wanted_asn 64500 ["b"]) idle = (Raise (TypeError what), idle).
Proof.
  eapply (fix_asn_to_org_unannotated (PInt 1) (wanted_asn 64500 ["b"]) (PInt 64500) _ idle);
    vm_compute; reflexivity.
Defined.

(** ** Reading back what was written *)

Lemma db_query_org_reads_contacts org_id et c v c1 :
  __db_query_org org_id "" et c = (Ok v, c1) ->
  v = PDict []
  \/ exists d,
       v = PDict d
       /\ dict_get "contacts" d
          = Some (PList (map PDict (stored_contacts org_id (working c)))).
Proof.
  intros H. unfold __db_query_org in H.
  change ("organisation" +:+ "" +:+ "_id") with "organisation_id" in H.
  change ("organisation" +:+ "") with "organisation" in H.
  change ("contact" +:+ "") with "contact" in H.
  apply bind_ok in H as (results & c2 & Hq & H).
  apply db_query_inv in Hq as [(e & He & _) | (cur & _ & Hop & Hr & ->)]; [discriminate|].
  apply sql_select_inv in Hop as (tb & Htb & _ & Hfetch & Hstore).
  injection Hr as ->. rewrite Hfetch in H.
  unfold project in H. rewrite map_id in H.
  match type of H with
  | context [List.filter ?p (rows tb)] =>
      destruct (List.filter p (rows tb)) as [|r [|r2 rest]] eqn:Hf
  end; cbn [length Nat.eqb negb] in H; try (left; now inversion H).
  right.
  cbn [first] in H. rewrite bind_lift_ok in H.
  change (negb ("" =? "")%string) with false in H. cbv iota in H.
  change (ret (PDict r)) with (lift (Ok (PDict r))) in H. rewrite bind_lift_ok in H.
  assert (Hset : forall d key x org2 y,
             py_setitem (PDict d) key x = Ok org2 ->
             In key ["nationalcerts"; "networks"; "fqdns"; "annotations"; "asns"] ->
             dict_get "contacts" d = Some y ->
             exists d2, org2 = PDict d2 /\ dict_get "contacts" d2 = Some y).
  { intros d key x org2 y Hs Hkey Hd. simpl in Hs. inversion Hs.
    eexists. split; [reflexivity|]. rewrite dict_get_set_ne; [exact Hd|].
    intros <-. simpl in Hkey. intuition discriminate. }
  apply bind_ok in H as (asns & c3 & Hq & H).
  apply db_query_inv in Hq as [(e & He & _) | (cur2 & _ & Hop & _ & ->)]; [discriminate|].
  apply sql_select_inv in Hop as (_ & _ & _ & _ & Hstore2).
  apply bind_ok in H as (o1 & c4 & Hs & H). apply lift_ok in Hs as [Hs ->].
  simpl in Hs. injection Hs as <-.
  apply bind_ok in H as (res2 & c4 & Hq & H).
  apply db_query_any_inv in Hq as [(e & He & _) | (cur3 & _ & Hop & Hr & Hc4)];
    [discriminate|].
  cbn [working] in Hop.
  apply sql_select_inv in Hop as (tc & Htc & _ & Hfetch3 & _).
  injection Hr as ->. rewrite Hfetch3 in H. unfold project in H. rewrite map_id in H.
  unfold arg in H. cbn [nth] in H.
  assert (Hstored : List.filter (fun r0 => sql_eq (col r0 "organisation_id") org_id)
                      (rows tc)
                    = stored_contacts org_id (working c)).
  { unfold stored_contacts. cbn [working] in Hstore2.
    rewrite Hstore2, Hstore in Htc. now rewrite Htc. }
  rewrite Hstored in H.
  apply bind_ok in H as (o2 & c5 & Hs & H). apply lift_ok in Hs as [Hs ->].
  simpl in Hs. injection Hs as <-.
  match type of H with
  | context [dict_set "contacts" ?y ?d0] =>
      assert (H2 : dict_get "contacts" (dict_set "contacts" y d0) = Some y)
        by apply dict_get_set_eq
  end.
  apply bind_ok in H as (res3 & c5 & _ & H).
  apply bind_ok in H as (o3 & c6 & Hs & H). apply lift_ok in Hs as [Hs ->].
  eapply Hset in Hs as (d3 & -> & H3); [|simpl; tauto|exact H2].
  apply bind_ok in H as (res4 & c6 & _ & H).
  apply bind_ok in H as (o4 & c7 & Hs & H). apply lift_ok in Hs as [Hs ->].
  eapply Hset in Hs as (d4 & -> & H4); [|simpl; tauto|exact H3].
  apply bind_ok in H as (res5 & c7 & _ & H).
  apply bind_ok in H as (o5 & c8 & Hs & H). apply lift_ok in Hs as [Hs ->].
  eapply Hset in Hs as (d5 & -> & H5); [|simpl; tauto|exact H4].
  change ("" =? "")%string with true in H. cbv iota in H.
  apply bind_ok in H as (res6 & c8 & _ & H).
  apply bind_ok in H as (r6 & c9 & _ & H).
  apply bind_ok in H as (annos & c10 & _ & H).
  apply bind_ok in H as (o6 & c11 & Hs & H). apply lift_ok in Hs as [Hs ->].
  eapply Hset in Hs as (d6 & -> & H6); [|simpl; tauto|exact H5].
  apply bind_ok in H as (asns2 & c11 & _ & H).
  apply lift_ok in H as [Hs ->].
  eapply Hset in Hs as (d7 & -> & H7); [|simpl; tauto|exact H6].
  exists d7. auto.
Qed.

(** X24. The aggregate of a manual organisation lists under "contacts"
    the contact rows stored for the id, in the order of the table. *)
Theorem db_query_org_contacts org_id et c v c1 :
  __db_query_org org_id "" et c = (Ok v, c1) ->
  v = PDict []
  \/ exists d,
       v = PDict d
       /\ dict_get "contacts" d
          = Some (PList (map PDict (stored_contacts org_id (working c)))).
Proof. apply db_query_org_reads_contacts. Qed.

Lemma db_query_org_contacts_witness :
  let v := fst (__db_query_org (PInt 1) "" false idle) in
  exists org,
    v = Ok org
    /\ (org = PDict []
        \/ exists d,
             org = PDict d
             /\ dict_get "contacts" d
                = Some (PList (map PDict (stored_contacts (PInt 1) (working idle))))).
Proof.
  intros v. eexists. split; [vm_compute; reflexivity|].
  eapply (db_query_org_contacts (PInt 1) false idle). vm_compute. reflexivity.
Defined.

(** X25. Contacts read back as written: the aggregate read after
    [__fix_contacts_to_org] has returned lists under "contacts" one row for
    each contact of the payload, in the order of the payload and with its
    six attributes. *)
Theorem contacts_round_trip (contacts org_id : pyval) et c c1 v c2 :
  sql_eq org_id org_id = true ->
  __fix_contacts_to_org contacts org_id c = (Ok tt, c1) ->
  __db_query_org org_id "" et c1 = (Ok v, c2) ->
  v = PDict []
  \/ exists d ds rs,
       v = PDict d
       /\ py_iter contacts = Ok (map PDict ds)
       /\ dict_get "contacts" d = Some (PList (map PDict rs))
       /\ map contact_values rs = map contact_values ds.
Proof.
  intros Hrefl Hfix Hread.
  apply (fix_contacts_to_org_ok _ _ _ _ Hrefl) in Hfix as (ds & Hiter & Hvalues).
  apply db_query_org_reads_contacts in Hread as [-> | (d & -> & Hd)]; [now left|].
  right. exists d, ds, (stored_contacts org_id (working c1)). auto.
Qed.

Lemma contacts_round_trip_witness :
  let c1 := snd (__fix_contacts_to_org (PList [PDict grace]) (PInt 1) idle) in
  let v := fst (__db_query_org (PInt 1) "" false c1) in
  exists org,
    v = Ok org
    /\ (org = PDict []
        \/ exists d ds rs,
             org = PDict d
             /\ py_iter (PList [PDict grace]) = Ok (map PDict ds)
             /\ dict_get "contacts" d = Some (PList (map PDict rs))
             /\ map contact_values rs = map contact_values ds).
Proof.
  intros c1 v. eexists. split; [vm_compute; reflexivity|].
  eapply (contacts_round_trip (PList [PDict grace]) (PInt 1) false idle c1).
  - reflexivity.
  - vm_compute. reflexivity.
  - vm_compute. reflexivity.
Defined.

(** ** A contact that is refused *)

(** X28. The contacts of the payload are checked one by one after the
    stored contacts of the organisation have been deleted: when the first
    contact lacks a needed attribute, [__fix_contacts_to_org] raises the
    CommitError with the organisation's contacts gone from the open
    transaction, which it leaves to its caller to roll back. *)
Theorem fix_contacts_to_org_fails_late (d : row) (rest : list pyval) org_id c tb a :
  working c !! "contact" = Some tb ->
  has_column tb "organisation_id" = true ->
  adaptable org_id = true ->
  In a contact_attribs -> lacks d a = true ->
  exists a2 c2,
    __fix_contacts_to_org (PList (PDict d :: rest)) org_id c
    = (Raise (CommitError "{} not set" [PStr a2]), c2)
    /\ lacks d a2 = true
    /\ stored_contacts org_id (working c2) = []
    /\ committed c2 = committed c.
Proof.
  intros Htb Hc Ha Hin Hlacks.
  destruct (require_attribs_lacking contact_attribs d) as (a2 & _ & Hl2 & Hreq);
    [now exists a|].
  exists a2. eexists. split; [|split; [exact Hl2|]].
  - unfold __fix_contacts_to_org, _db_manipulate, execute, bind, ret, lift.
    simpl forallb. rewrite Ha. simpl.
    unfold sql_delete, relation. rewrite Htb. simpl obind.
    unfold with_columns. simpl forallb. rewrite Hc. simpl.
    unfold fix_contact_to_org, bind, lift. rewrite Hreq. reflexivity.
  - split; [|reflexivity]. simpl. unfold stored_contacts.
    rewrite lookup_insert_eq. simpl. unfold arg. cbn [nth]. apply filter_neg_nil.
Qed.

Lemma fix_contacts_to_org_fails_late_witness :
  exists a2 c2,
    __fix_contacts_to_org (PList [PDict [("firstname", PStr "Grace")]]) (PInt 1) idle
    = (Raise (CommitError "{} not set" [PStr a2]), c2)
    /\ lacks [("firstname", PStr "Grace")] a2 = true
    /\ stored_contacts (PInt 1) (working c2) = []
    /\ committed c2 = committed idle.
Proof.
  eapply (fix_contacts_to_org_fails_late [("firstname", PStr "Grace")] [] (PInt 1) idle
            _ "lastname"); try (vm_compute; reflexivity).
  simpl. tauto.
Defined.

(** ** Unlinking ASNs *)

(** One round of the loop of [__remove_or_unlink_asns], as far as the link
    table goes. *)
Lemma remove_or_unlink_asn_unlinks org_id asn c c1 :
  remove_or_unlink_asn org_id asn c = (Ok tt, c1) ->
  exists k,
    py_getitem asn "number" = Ok k
    /\ links (working c1)
       = List.filter (fun r => negb (sql_eq (col r "organisation_id") org_id
                                     && sql_eq (col r "asn_id") k))
           (links (working c)).
Proof.
  intros H. unfold remove_or_unlink_asn in H.
  apply bind_ok in H as (k & c0 & Hk & H). apply lift_ok in Hk as [Hk ->].
  exists k. split; [exact Hk|].
  apply bind_ok in H as (n & c2 & Hun & H).
  apply db_manipulate_inv in Hun as [(e & He & _) | (cur & _ & Hop & _ & ->)];
    [discriminate|].
  apply sql_delete_inv in Hop as (tb & Htb & _ & _ & Hstore).
  unfold arg in Hstore. cbn [nth] in Hstore.
  match type of H with
  | ?m _ = _ =>
      assert (Ht : touches ["inhibition"; "network"; "autonomous_system"] m)
  end.
  { unfold count_links, without_link_fields. frame. }
  unfold links. rewrite (Ht _ _ _ H) by (simpl; intuition discriminate).
  cbn [working]. now rewrite Hstore, lookup_insert_eq, Htb.
Qed.

Lemma remove_asns_loop_unlinks org_id l : forall c c2,
  for_each (remove_or_unlink_asn org_id) l c = (Ok tt, c2) ->
  exists ks,
    items_of "number" l = Ok ks
    /\ forall r, In r (links (working c2))
                 <-> In r (links (working c))
                     /\ sql_eq (col r "organisation_id") org_id
                        && existsb (sql_eq (col r "asn_id")) ks = false.
Proof.
  induction l as [|asn l IH]; intros c c2 H; simpl in H.
  - unfold ret in H. injection H as <-. exists []. split; [reflexivity|].
    intros r. rewrite andb_false_r. tauto.
  - apply bind_ok in H as ([] & c1 & Hstep & H).
    apply remove_or_unlink_asn_unlinks in Hstep as (k & Hk & Hlinks).
    apply IH in H as (ks & Hks & HR).
    exists (k :: ks). split; [simpl; now rewrite Hk, Hks|].
    intros r. rewrite HR, Hlinks, List.filter_In, negb_true_iff. cbn [existsb].
    destruct (sql_eq (col r "organisation_id") org_id); simpl; [|tauto].
    rewrite orb_false_iff. tauto.
Qed.

(** X26. When [__remove_or_unlink_asns] returns, the link rows left are
    those that do not link the organisation to one of the given ASN
    numbers: the links of other organisations, and the organisation's links
    to other ASNs, are as before. *)
Theorem remove_or_unlink_asns_unlinks (asns org_id : pyval) c u c2 :
  __remove_or_unlink_asns asns org_id c = (Ok u, c2) ->
  exists l ks,
    py_iter asns = Ok l /\ items_of "number" l = Ok ks
    /\ forall r, In r (links (working c2))
                 <-> In r (links (working c))
                     /\ sql_eq (col r "organisation_id") org_id
                        && existsb (sql_eq (col r "asn_id")) ks = false.
Proof.
  intros H. unfold __remove_or_unlink_asns in H.
  apply bind_ok in H as (l & c0 & Hl & H). apply lift_ok in Hl as [Hl ->].
  destruct u. apply remove_asns_loop_unlinks in H as (ks & Hks & HR).
  exists l, ks. auto.
Qed.

Lemma remove_or_unlink_asns_unlinks_witness :
  let given := PList [asn_payload 1 64511] in
  let c2 := snd (__remove_or_unlink_asns given (PInt 1) transitional) in
  exists l ks,
    py_iter given = Ok l /\ items_of "number" l = Ok ks
    /\ forall r, In r (links (working c2))
                 <-> In r (links (working transitional))
                     /\ sql_eq (col r "organisation_id") (PInt 1)
                        && existsb (sql_eq (col r "asn_id")) ks = false.
Proof.
  intros given c2.
  apply (remove_or_unlink_asns_unlinks given (PInt 1) transitional tt c2).
  vm_compute. reflexivity.
Defined.

(** ** Annotations without a link *)

(** X27. When [__fix_asns_to_org] returns, no annotation is left over for
    an ASN that no organisation is linked to: where the link rows carry
    numbers, every annotation row with a number has a link row with the
    same number. *)
Theorem fix_asns_to_org_cleans_annotations (asns org_id : pyval) c c2 :
  __fix_asns_to_org asns org_id c = (Ok tt, c2) ->
  Forall (fun l => exists m, col l "asn" = PInt m) (links (working c2)) ->
  forall a n,
    In a (rows_of "autonomous_system_annotation" (working c2)) ->
    col a "asn" = PInt n ->
    exists l, In l (links (working c2)) /\ col l "asn" = PInt n.
Proof.
  intros H Hnum a n Ha Hn. unfold __fix_asns_to_org in H.
  apply bind_ok in H as (l & c0 & Hl & H). apply lift_ok in Hl as [_ ->].
  apply bind_ok in H as ([] & c1 & _ & H).
  apply bind_ok in H as (wanted & c3 & Hw & H). apply lift_ok in Hw as [_ ->].
  apply bind_ok in H as (n1 & c3 & _ & H).
  apply bind_ok in H as (n2 & c4 & Hclean & H).
  unfold ret in H. injection H as <-.
  apply db_manipulate_inv in Hclean as [(e & He & _) | (cur & _ & Hop & _ & ->)];
    [discriminate|].
  apply obind_ok in Hop as (sel & Hsel & Hop).
  apply sql_select_inv in Hsel as (tl & Htl & _ & Hfetch & _).
  apply sql_delete_inv in Hop as (ta & Hta & _ & _ & Hstore).
  cbn [working] in Ha, Hnum |- *.
  assert (Hlinks : links (store cur) = rows tl).
  { unfold links. rewrite Hstore, lookup_insert_ne by discriminate. now rewrite Htl. }
  rewrite Hlinks in Hnum |- *.
  unfold rows_of in Ha. rewrite Hstore, lookup_insert_eq in Ha. cbn [rows] in Ha.
  apply List.filter_In in Ha as [_ Ha]. apply negb_true_iff in Ha.
  unfold sql_not_in in Ha. apply forallb_false in Ha as (x & Hx & Hne).
  rewrite Hfetch, filter_true in Hx. rewrite map_map in Hx.
  apply in_map_iff in Hx as (r & Hr & Hin).
  unfold project, col in Hr. cbn [map dict_get] in Hr. rewrite String.eqb_refl in Hr.
  fold (col r "asn") in Hr.
  exists r. split; [exact Hin|].
  rewrite List.Forall_forall in Hnum. destruct (Hnum r Hin) as (m & Hm).
  rewrite Hm in Hr |- *. subst x. rewrite Hn in Hne.
  unfold sql_ne in Hne. simpl in Hne. apply negb_false_iff in Hne.
  apply Z.eqb_eq in Hne. now subst.
Qed.

Lemma fix_asns_to_org_cleans_annotations_witness :
  let c2 := snd (__fix_asns_to_org (PList [wanted_asn 64496 ["a"; "b"]]) (PInt 1) idle) in
  Forall (fun l => exists m, col l "asn" = PInt m) (links (working c2))
  /\ forall a n,
       In a (rows_of "autonomous_system_annotation" (working c2)) ->
       col a "asn" = PInt n ->
       exists l, In l (links (working c2)) /\ col l "asn" = PInt n.
Proof.
  intros c2.
  assert (Hnum : Forall (fun l => exists m, col l "asn" = PInt m) (links (working c2))).
  { vm_compute. repeat (constructor; [eexists; reflexivity|]). constructor. }
  split; [exact Hnum|].
  apply (fix_asns_to_org_cleans_annotations (PList [wanted_asn 64496 ["a"; "b"]])
           (PInt 1) idle c2); [vm_compute; reflexivity | exact Hnum].
Defined.
